(** * docx-to-json: a shallow embedding of [app.py]

    The program walks a document parsed by python-docx (headers, body
    paragraphs, tables), copies text and formatting into nested dicts and
    dumps one JSON file per [.docx] file of the working directory.

    Layout of this development:
    - [Py]: the Python values the program relies on ([str] as a list of code
      points, [str.strip], [str.startswith], exceptions, [try]/[except]);
    - the python-docx object model, as far as [app.py] reads it
      ([Run], [Font], [Paragraph], [Cell], [Table], ...);
    - the dicts the program builds ([FontProperties], [ParagraphRecord], ...);
    - [get_font_properties], [get_paragraph_format], [extract_docx_content]
      and [process_docx_files], in the order of the source, on objects whose
      attribute reads return (the colour apart) and a standard output that
      takes every line;
    - [Reading]: the first three functions on objects whose attribute reads
      may raise; [Console]: the last one on a standard output whose encoding
      may refuse a text;
    - the properties. *)

From Stdlib Require Import List ZArith NArith Bool String Ascii Lia Permutation.
From Stdlib Require Import DecimalString HexadecimalString.
Import ListNotations.

Set Implicit Arguments.

(* ===================================================================== *)
(** ** Python values *)
(* ===================================================================== *)

Module Py.

(** A Python [str] is a sequence of Unicode code points. *)
Definition char := N.
Definition str := list char.

(** An ASCII literal as a [str]. *)
Definition lit (s : string) : str := map N_of_ascii (list_ascii_of_string s).

Definition eqb (a b : str) : bool :=
  if list_eq_dec N.eq_dec a b then true else false.

(** [bool(s)]: a string is true when it is not empty. *)
Definition truthy (s : str) : bool :=
  match s with [] => false | _ :: _ => true end.

(** [c.isspace()], the code points CPython's [_PyUnicode_IsWhitespace]
    accepts; [str.strip()] without argument removes exactly these. *)
Definition isspace (c : char) : bool :=
  (((9 <=? c) && (c <=? 13)) || ((28 <=? c) && (c <=? 32))
   || (c =? 133) || (c =? 160) || (c =? 5760)
   || ((8192 <=? c) && (c <=? 8202))
   || (c =? 8232) || (c =? 8233) || (c =? 8239) || (c =? 8287)
   || (c =? 12288))%N.

Fixpoint lstrip (s : str) : str :=
  match s with
  | [] => []
  | c :: r => if isspace c then lstrip r else s
  end.

Definition rstrip (s : str) : str := rev (lstrip (rev s)).

(** [s.strip()] *)
Definition strip (s : str) : str := rstrip (lstrip s).

(** [s.startswith(prefix)] *)
Fixpoint startswith (s prefix : str) : bool :=
  match prefix, s with
  | [], _ => true
  | _ :: _, [] => false
  | p :: prefix', c :: s' => (c =? p)%N && startswith s' prefix'
  end.

(** [s.endswith(suffix)] *)
Definition endswith (s suffix : str) : bool :=
  startswith (rev s) (rev suffix).

(** [str(n)] for an [int]. *)
Definition str_int (n : Z) : str := lit (DecimalString.NilZero.string_of_int (Z.to_int n)).

(** Hexadecimal digits of a natural number, lower case, as [format(n, 'x')]. *)
Definition hex (n : N) : str := lit (HexadecimalString.NilZero.string_of_uint (N.to_hex_uint n)).

Definition upper_ascii (c : char) : char :=
  (if (97 <=? c) && (c <=? 122) then c - 32 else c)%N.

(** Left padding with ['0'] up to [width] characters. *)
Definition zfill (width : nat) (s : str) : str :=
  repeat 48%N (width - List.length s) ++ s.

(** [f"{n:06x}"]: sign first, then zeros, six characters at least. *)
Definition format_06x (n : Z) : str :=
  if (n <? 0)%Z then 45%N :: zfill 5 (hex (Z.abs_N n))
  else zfill 6 (hex (Z.abs_N n)).

(** ["%02X" % n] *)
Definition format_02X (n : N) : str := zfill 2 (map upper_ascii (hex n)).

(** Exceptions.  [hasattr] tells [AttributeError] from the rest, and
    [str(e)] is all the program prints of one. *)
Inductive exn : Type :=
| AttributeError (msg : str)
| Error (class_name msg : str).

Definition str_exn (e : exn) : str :=
  match e with AttributeError m => m | Error _ m => m end.

(** The result of evaluating an expression: a value, or a raised
    exception (an instance of [Exception]). *)
Inductive exc (A : Type) : Type :=
| Val (a : A)
| Raise (e : exn).
Arguments Val {A} a.
Arguments Raise {A} e.

Definition ret {A} (a : A) : exc A := Val a.

Definition bind {A B} (m : exc A) (k : A -> exc B) : exc B :=
  match m with
  | Val a => k a
  | Raise e => Raise e
  end.

(** [try: body / except Exception: handler] *)
Definition try_except {A} (body : exc A) (handler : exn -> exc A) : exc A :=
  match body with
  | Val a => Val a
  | Raise e => handler e
  end.

(** [hasattr(obj, name)], given what reading the attribute does: false on
    [AttributeError]; any other exception passes through (Python 3). *)
Definition hasattr {A} (attribute : exc A) : exc bool :=
  match attribute with
  | Val _ => Val true
  | Raise (AttributeError _) => Val false
  | Raise e => Raise e
  end.

(** [for x in xs: body(x)], the loop variable threaded as a state. *)
Fixpoint for_each {A S} (xs : list A) (body : A -> S -> exc S) (s : S)
  : exc S :=
  match xs with
  | [] => Val s
  | x :: xs' => bind (body x s) (for_each xs' body)
  end.

End Py.

Declare Scope py_scope.
Delimit Scope py_scope with py.
Notation "x <- m ;; k" := (Py.bind m (fun x => k))
  (at level 100, m at next level, right associativity) : py_scope.

(** What the program observes of a Python object it formats: its truth
    value ([if x]) and [str(x)]. *)
Class PyObject (A : Type) : Type := {
  truth : A -> bool;
  to_str : A -> Py.str
}.

(** [int], and python-docx's [Length] (an [int] subclass counting EMU that
    defines neither [__bool__] nor [__str__]). *)
#[export] Instance int_object : PyObject Z := {
  truth n := negb (n =? 0)%Z;
  to_str := Py.str_int
}.

(** A member of one of python-docx's enumerations ([WD_ALIGN_PARAGRAPH],
    [WD_COLOR_INDEX], [WD_UNDERLINE]): an [int] with a name, printed as
    [NAME (value)]. *)
Record EnumMember : Type := {
  member_name : Py.str;
  member_value : Z
}.

#[export] Instance enum_object : PyObject EnumMember := {
  truth m := negb (member_value m =? 0)%Z;
  to_str m := member_name m ++ Py.lit " (" ++ Py.str_int (member_value m) ++ Py.lit ")"
}.

(** A Python [float], through the two observations the program makes of
    it. *)
Record pyfloat : Type := {
  float_is_zero : bool;
  float_repr : Py.str
}.

#[export] Instance float_object : PyObject pyfloat := {
  truth f := negb (float_is_zero f);
  to_str := float_repr
}.

(** [str(x) if x else None] *)
Definition str_if_true {A} `{PyObject A} (x : option A) : option Py.str :=
  match x with
  | Some v => if truth v then Some (to_str v) else None
  | None => None
  end.

(** [str(x)] where [x] may be [None]. *)
Definition str_or_None {A} `{PyObject A} (x : option A) : Py.str :=
  match x with
  | Some v => to_str v
  | None => Py.lit "None"
  end.

(* ===================================================================== *)
(** ** The python-docx object model, as [app.py] reads it *)
(* ===================================================================== *)

(** [run.font.color.rgb]: python-docx returns an [RGBColor] (a tuple of
    three ints) or [None]; the source also provides for an [int]. *)
Inductive rgb_value : Type :=
| rgb_int (n : Z)
| RGBColor (r g b : N).

Module ColorFormat.
(** Reading [rgb] may raise. *)
Record t : Type := { rgb : Py.exc (option rgb_value) }.
End ColorFormat.

Module Font.
(** Reading [color] may raise; the other attributes are those python-docx's
    [Font] always has, [None] standing for an unset one. *)
Record t : Type := {
  size : option Z;
  name : option Py.str;
  all_caps : option bool;
  color : Py.exc (option ColorFormat.t);
  highlight_color : option EnumMember;
  subscript : option bool;
  superscript : option bool
}.
End Font.

(** [run.underline]: [None], [True], [False] or a [WD_UNDERLINE] member. *)
Inductive underline_value : Type :=
| underline_bool (b : bool)
| underline_enum (m : EnumMember).

Module Run.
Record t : Type := {
  text : Py.str;
  bold : option bool;
  italic : option bool;
  underline : option underline_value;
  font : Font.t
}.
End Run.

(** [fmt.line_spacing]: a [float] multiple of the line height, or a fixed
    [Length]. *)
Inductive line_spacing_value : Type :=
| spacing_multiple (f : pyfloat)
| spacing_length (emu : Z).

#[export] Instance line_spacing_object : PyObject line_spacing_value := {
  truth v := match v with spacing_multiple f => truth f | spacing_length n => truth n end;
  to_str v := match v with spacing_multiple f => to_str f | spacing_length n => to_str n end
}.

Module ParagraphFormat.
Record t : Type := {
  alignment : option EnumMember;
  first_line_indent : option Z;
  left_indent : option Z;
  right_indent : option Z;
  line_spacing : option line_spacing_value;
  space_before : option Z;
  space_after : option Z;
  keep_together : option bool;
  keep_with_next : option bool;
  page_break_before : option bool;
  widow_control : option bool
}.
End ParagraphFormat.

(** The numbering properties under [para._element.pPr]: each child element
    is there or [None]; [val] of [ilvl] is an [int]. *)
Module CT_NumPr.
Record t : Type := { ilvl : option Z }.
End CT_NumPr.

Module CT_PPr.
Record t : Type := { numPr : option CT_NumPr.t }.
End CT_PPr.

Module Paragraph.
Record t : Type := {
  text : Py.str;
  style_name : Py.str;                    (* para.style.name *)
  paragraph_format : ParagraphFormat.t;
  runs : list Run.t;
  has_numbering : bool;                   (* hasattr(para, 'numbering') *)
  pPr : option CT_PPr.t                   (* para._element.pPr *)
}.
End Paragraph.

Module Cell.
Record t : Type := {
  text : Py.str;
  paragraphs : list Paragraph.t
}.
End Cell.

Module Table.
Record t : Type := {
  style : option Py.str;                  (* table.style, by its name *)
  rows : list (list Cell.t)               (* row.cells of each row *)
}.
End Table.

Module Section_.
Record t : Type := {
  header : option (list Paragraph.t)      (* section.header.paragraphs *)
}.
End Section_.

Module Document.
Record t : Type := {
  sections : list Section_.t;
  paragraphs : list Paragraph.t;
  tables : list Table.t
}.
End Document.

(* ===================================================================== *)
(** ** The dicts the program builds *)
(* ===================================================================== *)

Module FontProperties.
Record t : Type := {
  bold : option bool;
  italic : option bool;
  underline : option underline_value;
  font_size : option Py.str;
  font_name : option Py.str;
  all_caps : option bool;
  color : option Py.str;
  highlight_color : option Py.str;
  subscript : option bool;
  superscript : option bool
}.

(** [properties["color"] = v] *)
Definition set_color (properties : t) (v : option Py.str) : t :=
  {| bold := bold properties; italic := italic properties;
     underline := underline properties; font_size := font_size properties;
     font_name := font_name properties; all_caps := all_caps properties;
     color := v;
     highlight_color := highlight_color properties;
     subscript := subscript properties; superscript := superscript properties |}.
End FontProperties.

Module Formatting.
Record t : Type := {
  alignment : option Py.str;
  first_line_indent : option Py.str;
  left_indent : option Py.str;
  right_indent : option Py.str;
  line_spacing : option Py.str;
  space_before : option Py.str;
  space_after : option Py.str;
  keep_together : option bool;
  keep_with_next : option bool;
  page_break_before : option bool;
  widow_control : option bool
}.
End Formatting.

Module RunRecord.
Record t : Type := {
  text : Py.str;
  font_properties : FontProperties.t
}.
End RunRecord.

(** [header_content], and [para_content] of a cell paragraph. *)
Module ParagraphRecord.
Record t : Type := {
  text : Py.str;
  style_name : Py.str;
  formatting : Formatting.t;
  runs : list RunRecord.t
}.
End ParagraphRecord.

(** [para_content] of a body paragraph. *)
Module BodyParagraphRecord.
Record t : Type := {
  text : Py.str;
  style_name : Py.str;
  formatting : Formatting.t;
  runs : list RunRecord.t;
  is_list_item : bool;
  list_level : option Z
}.

End BodyParagraphRecord.

Module CellRecord.
Record t : Type := {
  text : Py.str;
  paragraphs : list ParagraphRecord.t
}.
End CellRecord.

Module TableRecord.
Record t : Type := {
  style : Py.str;
  rows : list (list CellRecord.t)
}.
End TableRecord.

Module DocumentContent.
Record t : Type := {
  paragraphs : list BodyParagraphRecord.t;
  tables : list TableRecord.t;
  headers : list ParagraphRecord.t;
  document_name : Py.str;
  lists : list (list BodyParagraphRecord.t)
}.

(** [content["paragraphs"].append(p)] and its siblings. *)
Definition append_paragraph (content : t) (p : BodyParagraphRecord.t) : t :=
  {| paragraphs := paragraphs content ++ [p]; tables := tables content;
     headers := headers content; document_name := document_name content;
     lists := lists content |}.

Definition append_table (content : t) (tb : TableRecord.t) : t :=
  {| paragraphs := paragraphs content; tables := tables content ++ [tb];
     headers := headers content; document_name := document_name content;
     lists := lists content |}.

Definition append_header (content : t) (h : ParagraphRecord.t) : t :=
  {| paragraphs := paragraphs content; tables := tables content;
     headers := headers content ++ [h]; document_name := document_name content;
     lists := lists content |}.

Definition append_list (content : t) (l : list BodyParagraphRecord.t) : t :=
  {| paragraphs := paragraphs content; tables := tables content;
     headers := headers content; document_name := document_name content;
     lists := lists content ++ [l] |}.
End DocumentContent.

(* ===================================================================== *)
(** ** [get_font_properties] *)
(* ===================================================================== *)

Local Open Scope py_scope.

(** [bool(rgb)]: a non-zero [int], or a (three element) tuple. *)
Definition rgb_truth (v : rgb_value) : bool :=
  match v with
  | rgb_int n => negb (n =? 0)%Z
  | RGBColor _ _ _ => true
  end.

(** [f"#{rgb:06x}" if isinstance(rgb, int) else str(rgb)]; [str] of an
    [RGBColor] is ['%02X%02X%02X' % rgb]. *)
Definition color_string (rgb : option rgb_value) : Py.str :=
  match rgb with
  | Some (rgb_int n) => 35%N :: Py.format_06x n
  | Some (RGBColor r g b) => Py.format_02X r ++ Py.format_02X g ++ Py.format_02X b
  | None => Py.lit "None"
  end.

(** [run.font.color.rgb] *)
Definition read_rgb (f : Font.t) : Py.exc (option rgb_value) :=
  c <- Font.color f ;;
  match c with
  | Some cf => ColorFormat.rgb cf
  | None => Py.Raise (Py.AttributeError (Py.lit "'NoneType' object has no attribute 'rgb'"))
  end.

(** The body of the [try]: lines 26 to 28. *)
Definition extract_color (f : Font.t) (properties : FontProperties.t)
  : Py.exc FontProperties.t :=
  has <- Py.hasattr (Font.color f) ;;
  if has then
    c <- Font.color f ;;
    match c with
    | None => Py.ret properties
    | Some _ =>
      v <- read_rgb f ;;
      match v with
      | None => Py.ret properties
      | Some x =>
        if rgb_truth x then
          rgb <- read_rgb f ;;
          Py.ret (FontProperties.set_color properties (Some (color_string rgb)))
        else Py.ret properties
      end
    end
  else Py.ret properties.

Definition get_font_properties (run : Run.t) : Py.exc FontProperties.t :=
  let properties :=
    {| FontProperties.bold := Run.bold run;
       FontProperties.italic := Run.italic run;
       FontProperties.underline := Run.underline run;
       FontProperties.font_size := str_if_true (Font.size (Run.font run));
       FontProperties.font_name := Font.name (Run.font run);
       FontProperties.all_caps := Font.all_caps (Run.font run);
       FontProperties.color := None;
       FontProperties.highlight_color :=
         Some (str_or_None (Font.highlight_color (Run.font run)));
       FontProperties.subscript := Font.subscript (Run.font run);
       FontProperties.superscript := Font.superscript (Run.font run) |} in
  Py.try_except (extract_color (Run.font run) properties)
                (fun _ => Py.ret properties).

(* ===================================================================== *)
(** ** [get_paragraph_format] *)
(* ===================================================================== *)

Definition get_paragraph_format (paragraph : Paragraph.t) : Formatting.t :=
  let fmt := Paragraph.paragraph_format paragraph in
  {| Formatting.alignment := str_if_true (ParagraphFormat.alignment fmt);
     Formatting.first_line_indent := str_if_true (ParagraphFormat.first_line_indent fmt);
     Formatting.left_indent := str_if_true (ParagraphFormat.left_indent fmt);
     Formatting.right_indent := str_if_true (ParagraphFormat.right_indent fmt);
     Formatting.line_spacing := str_if_true (ParagraphFormat.line_spacing fmt);
     Formatting.space_before := str_if_true (ParagraphFormat.space_before fmt);
     Formatting.space_after := str_if_true (ParagraphFormat.space_after fmt);
     Formatting.keep_together := ParagraphFormat.keep_together fmt;
     Formatting.keep_with_next := ParagraphFormat.keep_with_next fmt;
     Formatting.page_break_before := ParagraphFormat.page_break_before fmt;
     Formatting.widow_control := ParagraphFormat.widow_control fmt |}.

(* ===================================================================== *)
(** ** [extract_docx_content] *)
(* ===================================================================== *)

Module Posix.

(** [p.rfind(c)] for a one character [c]: the last index of [c], or -1. *)
Fixpoint rfind_from (i : Z) (found : Z) (c : Py.char) (p : Py.str) : Z :=
  match p with
  | [] => found
  | x :: r => rfind_from (i + 1) (if (x =? c)%N then i else found) c r
  end.

Definition rfind (c : Py.char) (p : Py.str) : Z := rfind_from 0 (-1) c p.

Definition sep : Py.char := 47%N.     (* '/' *)
Definition extsep : Py.char := 46%N.  (* '.' *)

(** [p[i:]] and [p[:i]] for [0 <= i]. *)
Definition slice_from (p : Py.str) (i : Z) : Py.str := skipn (Z.to_nat i) p.
Definition slice_to (p : Py.str) (i : Z) : Py.str := firstn (Z.to_nat i) p.

(** [posixpath.basename] *)
Definition basename (p : Py.str) : Py.str :=
  let i := (rfind sep p + 1)%Z in
  slice_from p i.

(** The loop of [genericpath._splitext] that skips leading dots: at most
    [fuel] rounds from [filenameIndex]. *)
Fixpoint skip_dots (fuel : nat) (p : Py.str) (filenameIndex dotIndex : Z)
  : Py.str * Py.str :=
  match fuel with
  | O => (p, [])
  | S fuel' =>
    if (filenameIndex <? dotIndex)%Z then
      match nth_error p (Z.to_nat filenameIndex) with
      | Some x =>
        if negb (x =? extsep)%N then (slice_to p dotIndex, slice_from p dotIndex)
        else skip_dots fuel' p (filenameIndex + 1) dotIndex
      | None => (slice_to p dotIndex, slice_from p dotIndex)
      end
    else (p, [])
  end.

(** [posixpath.splitext] *)
Definition splitext (p : Py.str) : Py.str * Py.str :=
  let sepIndex := rfind sep p in
  let dotIndex := rfind extsep p in
  if (dotIndex >? sepIndex)%Z then
    skip_dots (S (List.length p)) p (sepIndex + 1) dotIndex
  else (p, []).

End Posix.

(** [if s.strip():] *)
Definition has_text (s : Py.str) : bool := Py.truthy (Py.strip s).

(** The loop over the runs of a paragraph (lines 85-90, 110-115, 158-163):
    [runs] is the list being appended to. *)
Definition run_step (run : Run.t) (runs : list RunRecord.t)
  : Py.exc (list RunRecord.t) :=
  if has_text (Run.text run) then
    font_properties <- get_font_properties run ;;
    Py.ret (runs ++ [ {| RunRecord.text := Run.text run;
                         RunRecord.font_properties := font_properties |} ])
  else Py.ret runs.

Definition extract_runs (runs : list Run.t) : Py.exc (list RunRecord.t) :=
  Py.for_each runs run_step [].

(** [header_content] (lines 78-90) and the cell's [para_content]
    (lines 151-163), runs filled in. *)
Definition paragraph_record (paragraph : Paragraph.t)
  : Py.exc ParagraphRecord.t :=
  runs <- extract_runs (Paragraph.runs paragraph) ;;
  Py.ret {| ParagraphRecord.text := Py.strip (Paragraph.text paragraph);
            ParagraphRecord.style_name := Paragraph.style_name paragraph;
            ParagraphRecord.formatting := get_paragraph_format paragraph;
            ParagraphRecord.runs := runs |}.

(** Lines 76-92. *)
Definition header_paragraph_step (paragraph : Paragraph.t)
  (content : DocumentContent.t) : Py.exc DocumentContent.t :=
  if has_text (Paragraph.text paragraph) then
    header_content <- paragraph_record paragraph ;;
    Py.ret (DocumentContent.append_header content header_content)
  else Py.ret content.

(** Lines 74-92. *)
Definition section_step (section : Section_.t) (content : DocumentContent.t)
  : Py.exc DocumentContent.t :=
  match Section_.header section with
  | Some header_paragraphs =>
    Py.for_each header_paragraphs header_paragraph_step content
  | None => Py.ret content
  end.

(** Line 105. *)
Definition is_list_item (para : Paragraph.t) : bool :=
  Py.startswith (Paragraph.style_name para) (Py.lit "List")
  || Paragraph.has_numbering para.

(** Line 106.  [hasattr(None, ...)] is false; [pPr.numPr] and [numPr.ilvl]
    are attributes python-docx's elements always have; [None.val] raises. *)
Definition list_level (para : Paragraph.t) : Py.exc (option Z) :=
  if Paragraph.has_numbering para then
    match Paragraph.pPr para with
    | None => Py.ret None
    | Some pPr =>
      match CT_PPr.numPr pPr with
      | None => Py.ret None
      | Some numPr =>
        match CT_NumPr.ilvl numPr with
        | Some val => Py.ret (Some val)
        | None => Py.Raise (Py.AttributeError
                    (Py.lit "'NoneType' object has no attribute 'val'"))
        end
      end
    end
  else Py.ret None.

(** [para_content] of a body paragraph, runs filled in (lines 100-115). *)
Definition body_paragraph_record (para : Paragraph.t)
  : Py.exc BodyParagraphRecord.t :=
  level <- list_level para ;;
  runs <- extract_runs (Paragraph.runs para) ;;
  Py.ret {| BodyParagraphRecord.text := Py.strip (Paragraph.text para);
            BodyParagraphRecord.style_name := Paragraph.style_name para;
            BodyParagraphRecord.formatting := get_paragraph_format para;
            BodyParagraphRecord.runs := runs;
            BodyParagraphRecord.is_list_item := is_list_item para;
            BodyParagraphRecord.list_level := level |}.

(** [current_list], the dict of line 120. *)
Record CurrentList : Type := {
  level : option Z;
  items : list BodyParagraphRecord.t
}.

(** The variables the loop over [doc.paragraphs] updates. *)
Record BodyState : Type := {
  content : DocumentContent.t;
  current_list : option CurrentList;
  list_items : list BodyParagraphRecord.t
}.

(** Lines 98-127. *)
Definition body_step (para : Paragraph.t) (st : BodyState)
  : Py.exc BodyState :=
  if has_text (Paragraph.text para) then
    para_content <- body_paragraph_record para ;;
    if BodyParagraphRecord.is_list_item para_content then
      let current_list' :=
        match current_list st with
        | None => Some {| level := BodyParagraphRecord.list_level para_content;
                          items := [] |}
        | Some cl => Some cl
        end in
      Py.ret {| content := content st;
                current_list := current_list';
                list_items := list_items st ++ [para_content] |}
    else
      let st' :=
        match current_list st with
        | Some _ =>
          {| content := DocumentContent.append_list (content st) (list_items st);
             current_list := None;
             list_items := [] |}
        | None => st
        end in
      Py.ret {| content := DocumentContent.append_paragraph (content st') para_content;
                current_list := current_list st';
                list_items := list_items st' |}
  else Py.ret st.

(** Lines 149-165. *)
Definition cell_paragraph_step (para : Paragraph.t)
  (paragraphs : list ParagraphRecord.t) : Py.exc (list ParagraphRecord.t) :=
  if has_text (Paragraph.text para) then
    para_content <- paragraph_record para ;;
    Py.ret (paragraphs ++ [para_content])
  else Py.ret paragraphs.

(** Lines 142-167. *)
Definition cell_step (cell : Cell.t) (row_data : list CellRecord.t)
  : Py.exc (list CellRecord.t) :=
  paragraphs <- Py.for_each (Cell.paragraphs cell) cell_paragraph_step [] ;;
  Py.ret (row_data ++ [ {| CellRecord.text := Py.strip (Cell.text cell);
                           CellRecord.paragraphs := paragraphs |} ]).

(** Lines 140-168. *)
Definition row_step (cells : list Cell.t) (rows : list (list CellRecord.t))
  : Py.exc (list (list CellRecord.t)) :=
  row_data <- Py.for_each cells cell_step [] ;;
  Py.ret (rows ++ [row_data]).

(** Line 170: [any(any(cell["text"] for cell in row) for row in rows)]. *)
Definition any_cell_text (rows : list (list CellRecord.t)) : bool :=
  existsb (fun row => existsb (fun cell => Py.truthy (CellRecord.text cell)) row) rows.

(** Lines 134-171. *)
Definition table_step (table : Table.t) (content : DocumentContent.t)
  : Py.exc DocumentContent.t :=
  rows <- Py.for_each (Table.rows table) row_step [] ;;
  let table_data :=
    {| TableRecord.style := match Table.style table with
                            | Some name => name
                            | None => Py.lit "Normal"
                            end;
       TableRecord.rows := rows |} in
  if any_cell_text (TableRecord.rows table_data) then
    Py.ret (DocumentContent.append_table content table_data)
  else Py.ret content.

(** Lines 129-131. *)
Definition flush_list (st : BodyState) : DocumentContent.t :=
  match list_items st with
  | [] => content st
  | _ :: _ => DocumentContent.append_list (content st) (list_items st)
  end.

Section Extraction.

(** [docx.Document(path)]: the parsed file, or the exception the parser
    raises. *)
Variable Document : Py.str -> Py.exc Document.t.

Definition extract_docx_content (docx_path : Py.str)
  : Py.exc DocumentContent.t :=
  doc <- Document docx_path ;;
  let content :=
    {| DocumentContent.paragraphs := [];
       DocumentContent.tables := [];
       DocumentContent.headers := [];
       DocumentContent.document_name := Posix.basename docx_path;
       DocumentContent.lists := [] |} in
  content <- Py.for_each (Document.sections doc) section_step content ;;
  st <- Py.for_each (Document.paragraphs doc) body_step
          {| content := content; current_list := None; list_items := [] |} ;;
  let content := flush_list st in
  content <- Py.for_each (Document.tables doc) table_step content ;;
  Py.ret content.

End Extraction.

(* ===================================================================== *)
(** ** Closed forms of the records, used to state the properties *)
(* ===================================================================== *)

(** The colour [get_font_properties] ends with: the string of a true [rgb]
    read without an exception, [None] in every other case. *)
Definition resolved_color (f : Font.t) : option Py.str :=
  match Font.color f with
  | Py.Val (Some cf) =>
    match ColorFormat.rgb cf with
    | Py.Val (Some x) => if rgb_truth x then Some (color_string (Some x)) else None
    | _ => None
    end
  | _ => None
  end.

Definition font_properties_of (run : Run.t) : FontProperties.t :=
  {| FontProperties.bold := Run.bold run;
     FontProperties.italic := Run.italic run;
     FontProperties.underline := Run.underline run;
     FontProperties.font_size := str_if_true (Font.size (Run.font run));
     FontProperties.font_name := Font.name (Run.font run);
     FontProperties.all_caps := Font.all_caps (Run.font run);
     FontProperties.color := resolved_color (Run.font run);
     FontProperties.highlight_color :=
       Some (str_or_None (Font.highlight_color (Run.font run)));
     FontProperties.subscript := Font.subscript (Run.font run);
     FontProperties.superscript := Font.superscript (Run.font run) |}.

Definition run_record_of (run : Run.t) : RunRecord.t :=
  {| RunRecord.text := Run.text run;
     RunRecord.font_properties := font_properties_of run |}.

Definition run_has_text (run : Run.t) : bool := has_text (Run.text run).
Definition paragraph_has_text (p : Paragraph.t) : bool := has_text (Paragraph.text p).

Definition run_records_of (runs : list Run.t) : list RunRecord.t :=
  map run_record_of (filter run_has_text runs).

Definition paragraph_record_of (p : Paragraph.t) : ParagraphRecord.t :=
  {| ParagraphRecord.text := Py.strip (Paragraph.text p);
     ParagraphRecord.style_name := Paragraph.style_name p;
     ParagraphRecord.formatting := get_paragraph_format p;
     ParagraphRecord.runs := run_records_of (Paragraph.runs p) |}.

(** Whether line 106 evaluates without an exception, and to what. *)
Definition level_ok (p : Paragraph.t) : bool :=
  match list_level p with Py.Val _ => true | Py.Raise _ => false end.

Definition level_of (p : Paragraph.t) : option Z :=
  match list_level p with Py.Val l => l | Py.Raise _ => None end.

Definition body_record_of (p : Paragraph.t) : BodyParagraphRecord.t :=
  {| BodyParagraphRecord.text := Py.strip (Paragraph.text p);
     BodyParagraphRecord.style_name := Paragraph.style_name p;
     BodyParagraphRecord.formatting := get_paragraph_format p;
     BodyParagraphRecord.runs := run_records_of (Paragraph.runs p);
     BodyParagraphRecord.is_list_item := is_list_item p;
     BodyParagraphRecord.list_level := level_of p |}.

Definition cell_record_of (cell : Cell.t) : CellRecord.t :=
  {| CellRecord.text := Py.strip (Cell.text cell);
     CellRecord.paragraphs :=
       map paragraph_record_of (filter paragraph_has_text (Cell.paragraphs cell)) |}.

Definition table_record_of (table : Table.t) : TableRecord.t :=
  {| TableRecord.style := match Table.style table with
                          | Some name => name
                          | None => Py.lit "Normal"
                          end;
     TableRecord.rows := map (map cell_record_of) (Table.rows table) |}.

(** A table with a cell whose trimmed text is not empty. *)
Definition table_has_text (table : Table.t) : bool :=
  existsb (existsb (fun cell => has_text (Cell.text cell))) (Table.rows table).

(** The header paragraphs of all sections, in order. *)
Definition header_paragraphs (doc : Document.t) : list Paragraph.t :=
  flat_map (fun s => match Section_.header s with
                     | Some ps => ps
                     | None => []
                     end) (Document.sections doc).

(** The body paragraphs the loop does not skip. *)
Definition kept_paragraphs (doc : Document.t) : list Paragraph.t :=
  filter paragraph_has_text (Document.paragraphs doc).

(** Only whitespace (or nothing at all). *)
Definition blank (s : Py.str) : bool := forallb Py.isspace s.

(** The maximal runs of consecutive elements that satisfy [is_item], in
    order: an element that does not satisfy it, or the end of the
    sequence, closes the run gathered in [current]. *)
Section MaximalRuns.
Context {A : Type} (is_item : A -> bool).

Definition close_run (current : list A) : list (list A) :=
  match current with
  | [] => []
  | _ :: _ => [current]
  end.

Fixpoint runs_from (current : list A) (l : list A) : list (list A) :=
  match l with
  | [] => close_run current
  | x :: r =>
    if is_item x then runs_from (current ++ [x]) r
    else close_run current ++ runs_from [] r
  end.

Definition maximal_runs (l : list A) : list (list A) := runs_from [] l.

End MaximalRuns.

(* ===================================================================== *)
(** ** [json.dump(content, f, ensure_ascii=False, indent=4)] *)
(* ===================================================================== *)

Module Json.

(** The values [json] serialises here: [None], [bool], [int], [str],
    [list], and [dict] with its keys in insertion order. *)
#[warnings="-register-all"]
Inductive value : Type :=
| Null
| Bool (b : bool)
| Int (n : Z)
| Str (s : Py.str)
| List (l : list value)
| Dict (d : list (Py.str * value)).

(** [json.encoder.py_encode_basestring], the escapes of [ensure_ascii=False]:
    the quote, the backslash and the control characters below 0x20. *)
Definition escape_char (c : Py.char) : Py.str :=
  if (c =? 34)%N then Py.lit "\" ++ [34%N]
  else if (c =? 92)%N then Py.lit "\\"
  else if (c =? 8)%N then Py.lit "\b"
  else if (c =? 9)%N then Py.lit "\t"
  else if (c =? 10)%N then Py.lit "\n"
  else if (c =? 12)%N then Py.lit "\f"
  else if (c =? 13)%N then Py.lit "\r"
  else if (c <? 32)%N then Py.lit "\u" ++ Py.zfill 4 (Py.hex c)
  else [c].

Definition encode_str (s : Py.str) : Py.str :=
  [34%N] ++ flat_map escape_char s ++ [34%N].

(** A new line followed by [indent * level] spaces. *)
Definition newline_indent (indent level : nat) : Py.str :=
  10%N :: repeat 32%N (indent * level).

(** [a, b, c] joined by [sep]. *)
Fixpoint join (sep : Py.str) (parts : list Py.str) : Py.str :=
  match parts with
  | [] => []
  | [p] => p
  | p :: rest => p ++ sep ++ join sep rest
  end.

Section Encode.
Variable indent : nat.

Fixpoint encode (level : nat) (v : value) : Py.str :=
  match v with
  | Null => Py.lit "null"
  | Bool true => Py.lit "true"
  | Bool false => Py.lit "false"
  | Int n => Py.str_int n
  | Str s => encode_str s
  | List [] => Py.lit "[]"
  | List l =>
    Py.lit "[" ++ newline_indent indent (S level)
    ++ join (Py.lit "," ++ newline_indent indent (S level))
            (map (encode (S level)) l)
    ++ newline_indent indent level ++ Py.lit "]"
  | Dict [] => Py.lit "{}"
  | Dict d =>
    Py.lit "{" ++ newline_indent indent (S level)
    ++ join (Py.lit "," ++ newline_indent indent (S level))
            (map (fun kv => encode_str (fst kv) ++ Py.lit ": "
                            ++ encode (S level) (snd kv)) d)
    ++ newline_indent indent level ++ Py.lit "}"
  end.

End Encode.

(** The text [json.dump(v, f, ensure_ascii=False, indent=4)] writes. *)
Definition dumps (v : value) : Py.str := encode 4 0 v.

Definition of_option {A} (f : A -> value) (x : option A) : value :=
  match x with Some a => f a | None => Null end.

(** The keys of a dict, in order. *)
Definition keys (v : value) : list Py.str :=
  match v with
  | Dict d => map fst d
  | _ => []
  end.

End Json.

(** The dicts as [json] sees them: the keys in the order the source
    inserts them. *)
Definition json_of_underline (u : underline_value) : Json.value :=
  match u with
  | underline_bool b => Json.Bool b
  | underline_enum m => Json.Int (member_value m)
  end.

Definition json_of_font_properties (p : FontProperties.t) : Json.value :=
  Json.Dict
    [ (Py.lit "bold", Json.of_option Json.Bool (FontProperties.bold p));
      (Py.lit "italic", Json.of_option Json.Bool (FontProperties.italic p));
      (Py.lit "underline", Json.of_option json_of_underline (FontProperties.underline p));
      (Py.lit "font_size", Json.of_option Json.Str (FontProperties.font_size p));
      (Py.lit "font_name", Json.of_option Json.Str (FontProperties.font_name p));
      (Py.lit "all_caps", Json.of_option Json.Bool (FontProperties.all_caps p));
      (Py.lit "color", Json.of_option Json.Str (FontProperties.color p));
      (Py.lit "highlight_color", Json.of_option Json.Str (FontProperties.highlight_color p));
      (Py.lit "subscript", Json.of_option Json.Bool (FontProperties.subscript p));
      (Py.lit "superscript", Json.of_option Json.Bool (FontProperties.superscript p)) ].

Definition json_of_formatting (f : Formatting.t) : Json.value :=
  Json.Dict
    [ (Py.lit "alignment", Json.of_option Json.Str (Formatting.alignment f));
      (Py.lit "first_line_indent", Json.of_option Json.Str (Formatting.first_line_indent f));
      (Py.lit "left_indent", Json.of_option Json.Str (Formatting.left_indent f));
      (Py.lit "right_indent", Json.of_option Json.Str (Formatting.right_indent f));
      (Py.lit "line_spacing", Json.of_option Json.Str (Formatting.line_spacing f));
      (Py.lit "space_before", Json.of_option Json.Str (Formatting.space_before f));
      (Py.lit "space_after", Json.of_option Json.Str (Formatting.space_after f));
      (Py.lit "keep_together", Json.of_option Json.Bool (Formatting.keep_together f));
      (Py.lit "keep_with_next", Json.of_option Json.Bool (Formatting.keep_with_next f));
      (Py.lit "page_break_before", Json.of_option Json.Bool (Formatting.page_break_before f));
      (Py.lit "widow_control", Json.of_option Json.Bool (Formatting.widow_control f)) ].

Definition json_of_run (r : RunRecord.t) : Json.value :=
  Json.Dict
    [ (Py.lit "text", Json.Str (RunRecord.text r));
      (Py.lit "font_properties", json_of_font_properties (RunRecord.font_properties r)) ].

Definition json_of_paragraph (p : ParagraphRecord.t) : Json.value :=
  Json.Dict
    [ (Py.lit "text", Json.Str (ParagraphRecord.text p));
      (Py.lit "style_name", Json.Str (ParagraphRecord.style_name p));
      (Py.lit "formatting", json_of_formatting (ParagraphRecord.formatting p));
      (Py.lit "runs", Json.List (map json_of_run (ParagraphRecord.runs p))) ].

Definition json_of_body_paragraph (p : BodyParagraphRecord.t) : Json.value :=
  Json.Dict
    [ (Py.lit "text", Json.Str (BodyParagraphRecord.text p));
      (Py.lit "style_name", Json.Str (BodyParagraphRecord.style_name p));
      (Py.lit "formatting", json_of_formatting (BodyParagraphRecord.formatting p));
      (Py.lit "runs", Json.List (map json_of_run (BodyParagraphRecord.runs p)));
      (Py.lit "is_list_item", Json.Bool (BodyParagraphRecord.is_list_item p));
      (Py.lit "list_level", Json.of_option Json.Int (BodyParagraphRecord.list_level p)) ].

Definition json_of_cell (c : CellRecord.t) : Json.value :=
  Json.Dict
    [ (Py.lit "text", Json.Str (CellRecord.text c));
      (Py.lit "paragraphs", Json.List (map json_of_paragraph (CellRecord.paragraphs c))) ].

Definition json_of_table (t : TableRecord.t) : Json.value :=
  Json.Dict
    [ (Py.lit "style", Json.Str (TableRecord.style t));
      (Py.lit "rows",
       Json.List (map (fun row => Json.List (map json_of_cell row)) (TableRecord.rows t))) ].

Definition json_of_content (c : DocumentContent.t) : Json.value :=
  Json.Dict
    [ (Py.lit "paragraphs", Json.List (map json_of_body_paragraph (DocumentContent.paragraphs c)));
      (Py.lit "tables", Json.List (map json_of_table (DocumentContent.tables c)));
      (Py.lit "headers", Json.List (map json_of_paragraph (DocumentContent.headers c)));
      (Py.lit "document_name", Json.Str (DocumentContent.document_name c));
      (Py.lit "lists",
       Json.List (map (fun l => Json.List (map json_of_body_paragraph l))
                      (DocumentContent.lists c))) ].

(* ===================================================================== *)
(** ** [process_docx_files] *)
(* ===================================================================== *)

(** A text file: the encoding it was opened with and the text written. *)
Record File : Type := {
  encoding : Py.str;
  data : Py.str
}.

(** What the program can change: the lines printed, and the files of the
    working directory by name. *)
Record World : Type := {
  stdout : list Py.str;
  files : Py.str -> option File
}.

(** What [with open(name, 'w', ...) as f: json.dump(...)] can do: write the
    whole text; fail to open the file, which leaves the directory as it was;
    or fail while writing, which leaves a file with part of the text. *)
Inductive write_outcome : Type :=
| written
| open_fails (e : Py.exn)
| dump_fails (e : Py.exn) (partial : Py.str).

(** Statements: a world in, a world and a value or an exception out.  What
    was printed or written before an exception stays. *)
Definition io (A : Type) : Type := World -> World * Py.exc A.

Module IO.

Definition ret {A} (a : A) : io A := fun w => (w, Py.Val a).

Definition bind {A B} (m : io A) (k : A -> io B) : io B :=
  fun w =>
    match m w with
    | (w', Py.Val a) => k a w'
    | (w', Py.Raise e) => (w', Py.Raise e)
    end.

(** An expression without effect on the world. *)
Definition lift {A} (m : Py.exc A) : io A := fun w => (w, m).

(** [try: body / except Exception as e: handler(e)] *)
Definition try_except {A} (body : io A) (handler : Py.exn -> io A) : io A :=
  fun w =>
    match body w with
    | (w', Py.Val a) => (w', Py.Val a)
    | (w', Py.Raise e) => handler e w'
    end.

(** [print(line)] *)
Definition print (line : Py.str) : io unit :=
  fun w => ({| stdout := stdout w ++ [line]; files := files w |}, Py.Val tt).

(** [for x in xs: body(x)] *)
Fixpoint for_each {A} (xs : list A) (body : A -> io unit) : io unit :=
  match xs with
  | [] => ret tt
  | x :: xs' => bind (body x) (fun _ => for_each xs' body)
  end.

Definition put_file (name : Py.str) (f : File) (w : World) : World :=
  {| stdout := stdout w;
     files := fun n => if Py.eqb n name then Some f else files w n |}.

End IO.

Declare Scope io_scope.
Delimit Scope io_scope with io.
Notation "x <- m ;; k" := (IO.bind m (fun x => k))
  (at level 100, m at next level, right associativity) : io_scope.
Notation "m ;;; k" := (IO.bind m (fun _ => k))
  (at level 100, right associativity) : io_scope.

Section Driver.

(** The environment of a run: [str.lower], the listing [os.listdir('.')]
    returns (or the exception it raises), the parser, and what writing a
    text under a name does. *)
Variable lower : Py.str -> Py.str.
Variable listdir : Py.exc (list Py.str).
Variable Document : Py.str -> Py.exc Document.t.
Variable write : Py.str -> Py.str -> write_outcome.

(** Lines 192-193. *)
Definition dump_json (json_filename : Py.str) (content : DocumentContent.t)
  : io unit :=
  fun w =>
    let text := Json.dumps (json_of_content content) in
    match write json_filename text with
    | written =>
      (IO.put_file json_filename
         {| encoding := Py.lit "utf-8"; data := text |} w, Py.Val tt)
    | open_fails e => (w, Py.Raise e)
    | dump_fails e partial =>
      (IO.put_file json_filename
         {| encoding := Py.lit "utf-8"; data := partial |} w, Py.Raise e)
    end.

(** Line 190. *)
Definition json_filename_of (docx_file : Py.str) : Py.str :=
  fst (Posix.splitext docx_file) ++ Py.lit ".json".

(** Lines 186-199: one round of the loop. *)
Definition process_file (docx_file : Py.str) : io unit :=
  (IO.try_except
     (IO.print (Py.lit "Processing " ++ docx_file ++ Py.lit "...") ;;;
      content <- IO.lift (extract_docx_content Document docx_file) ;;
      let json_filename := json_filename_of docx_file in
      dump_json json_filename content ;;;
      IO.print (Py.lit "Successfully created " ++ json_filename))
     (fun e =>
        IO.print (Py.lit "Error processing " ++ docx_file ++ Py.lit ": "
                  ++ Py.str_exn e) ;;;
        IO.print (Py.lit "Full error details: " ++ Py.lit " " ++ Py.str_exn e)))%io.

(** Line 179. *)
Definition is_docx (f : Py.str) : bool := Py.endswith (lower f) (Py.lit ".docx").

Definition process_docx_files : io unit :=
  (listing <- IO.lift listdir ;;
   let docx_files := filter is_docx listing in
   match docx_files with
   | [] => IO.print (Py.lit "No .docx files found in the current directory")
   | _ :: _ => IO.for_each docx_files process_file
   end)%io.

End Driver.

(** [content] with records appended to its four lists. *)
Definition extend (c : DocumentContent.t)
  (ps : list BodyParagraphRecord.t) (ts : list TableRecord.t)
  (hs : list ParagraphRecord.t) (ls : list (list BodyParagraphRecord.t))
  : DocumentContent.t :=
  {| DocumentContent.paragraphs := DocumentContent.paragraphs c ++ ps;
     DocumentContent.tables := DocumentContent.tables c ++ ts;
     DocumentContent.headers := DocumentContent.headers c ++ hs;
     DocumentContent.document_name := DocumentContent.document_name c;
     DocumentContent.lists := DocumentContent.lists c ++ ls |}.

(** What lines 117-127 do with the [para_content] of a kept paragraph. *)
Definition file_paragraph (r : BodyParagraphRecord.t) (st : BodyState) : BodyState :=
  if BodyParagraphRecord.is_list_item r then
    {| content := content st;
       current_list :=
         match current_list st with
         | None => Some {| level := BodyParagraphRecord.list_level r; items := [] |}
         | Some cl => Some cl
         end;
       list_items := list_items st ++ [r] |}
  else
    match current_list st with
    | Some _ =>
      {| content := DocumentContent.append_paragraph
                      (DocumentContent.append_list (content st) (list_items st)) r;
         current_list := None;
         list_items := [] |}
    | None =>
      {| content := DocumentContent.append_paragraph (content st) r;
         current_list := None;
         list_items := list_items st |}
    end.

(** [current_list] is set exactly while [list_items] is not empty. *)
Definition state_ok (st : BodyState) : Prop :=
  match current_list st, list_items st with
  | None, [] => True
  | Some _, _ :: _ => True
  | _, _ => False
  end.

(** The lengths of the maximal runs of [true] in a sequence of booleans,
    [n] counting the run in progress. *)
Fixpoint run_lengths (n : nat) (bs : list bool) : list nat :=
  match bs with
  | [] => match n with O => [] | S _ => [n] end
  | true :: r => run_lengths (S n) r
  | false :: r => match n with O => [] | S _ => [n] end ++ run_lengths 0 r
  end.

(** The record the extraction returns for a document, when it returns. *)
Definition content_of (docx_path : Py.str) (doc : Document.t) : DocumentContent.t :=
  {| DocumentContent.paragraphs :=
       map body_record_of
         (filter (fun p => negb (is_list_item p)) (kept_paragraphs doc));
     DocumentContent.tables :=
       map table_record_of (filter table_has_text (Document.tables doc));
     DocumentContent.headers :=
       map paragraph_record_of (filter paragraph_has_text (header_paragraphs doc));
     DocumentContent.document_name := Posix.basename docx_path;
     DocumentContent.lists :=
       map (map body_record_of) (maximal_runs is_list_item (kept_paragraphs doc)) |}.

(** Line 106 returns on every kept body paragraph. *)
Definition levels_ok (doc : Document.t) : bool :=
  forallb level_ok (kept_paragraphs doc).

(** Every [CellRecord] of the record, table by table and row by row. *)
Definition cell_records (c : DocumentContent.t) : list CellRecord.t :=
  flat_map (fun t => List.concat (TableRecord.rows t)) (DocumentContent.tables c).

(** The paragraph records of the body: [paragraphs], then the groups of
    [lists]. *)
Definition body_records (c : DocumentContent.t) : list BodyParagraphRecord.t :=
  DocumentContent.paragraphs c ++ List.concat (DocumentContent.lists c).

(** The paragraph records of the headers and of the cells. *)
Definition paragraph_records (c : DocumentContent.t) : list ParagraphRecord.t :=
  DocumentContent.headers c ++ flat_map CellRecord.paragraphs (cell_records c).

Definition paragraph_texts (c : DocumentContent.t) : list Py.str :=
  map BodyParagraphRecord.text (body_records c)
  ++ map ParagraphRecord.text (paragraph_records c).

Definition run_texts (c : DocumentContent.t) : list Py.str :=
  map RunRecord.text
    (flat_map BodyParagraphRecord.runs (body_records c)
     ++ flat_map ParagraphRecord.runs (paragraph_records c)).

Definition cell_texts (c : DocumentContent.t) : list Py.str :=
  map CellRecord.text (cell_records c).

(** How a field of the format dict relates to the attribute it is read
    from: [None] for an unset attribute, the string form for one that is
    set and true. *)
Definition rendered {A} `{PyObject A} (x : option A) (out : option Py.str) : Prop :=
  match x with
  | None => out = None
  | Some v => truth v = true -> out = Some (to_str v)
  end.

(** The two lines the handler prints. *)
Definition error_lines (docx_file : Py.str) (e : Py.exn) : list Py.str :=
  [ Py.lit "Error processing " ++ docx_file ++ Py.lit ": " ++ Py.str_exn e;
    Py.lit "Full error details: " ++ Py.lit " " ++ Py.str_exn e ].

Section DriverForms.
Variable Document : Py.str -> Py.exc Document.t.
Variable write : Py.str -> Py.str -> write_outcome.

(** The exception the [try] body raises for a file, if any: the one of the
    extraction, or else the one of the write. *)
Definition file_failure (docx_file : Py.str) : option Py.exn :=
  match extract_docx_content Document docx_file with
  | Py.Raise e => Some e
  | Py.Val content =>
    match write (json_filename_of docx_file) (Json.dumps (json_of_content content)) with
    | written => None
    | open_fails e => Some e
    | dump_fails e _ => Some e
    end
  end.

(** The file a round leaves under the JSON name, if any. *)
Definition file_written (docx_file : Py.str) : option File :=
  match extract_docx_content Document docx_file with
  | Py.Raise _ => None
  | Py.Val content =>
    let text := Json.dumps (json_of_content content) in
    match write (json_filename_of docx_file) text with
    | written => Some {| encoding := Py.lit "utf-8"; data := text |}
    | open_fails _ => None
    | dump_fails _ partial => Some {| encoding := Py.lit "utf-8"; data := partial |}
    end
  end.

(** The lines a round prints. *)
Definition file_log (docx_file : Py.str) : list Py.str :=
  (Py.lit "Processing " ++ docx_file ++ Py.lit "...")
  :: match file_failure docx_file with
     | Some e => error_lines docx_file e
     | None => [Py.lit "Successfully created " ++ json_filename_of docx_file]
     end.

(** The world after a round. *)
Definition after_file (docx_file : Py.str) (w : World) : World :=
  {| stdout := stdout w ++ file_log docx_file;
     files := match file_written docx_file with
              | Some f => files (IO.put_file (json_filename_of docx_file) f w)
              | None => files w
              end |}.

End DriverForms.

(** No whitespace at either end. *)
Definition trimmed (t : Py.str) : bool :=
  match t with [] => true | c :: _ => negb (Py.isspace c) end
  && match rev t with [] => true | c :: _ => negb (Py.isspace c) end.

(** What the loop over the body keeps true of [current_list] and
    [list_items]: both unset, or [current_list] set with no [items] and the
    level of the first of the [list_items]. *)
Definition list_state (st : BodyState) : Prop :=
  match current_list st, list_items st with
  | None, [] => True
  | Some cl, first :: _ =>
    items cl = [] /\ level cl = BodyParagraphRecord.list_level first
  | _, _ => False
  end.

(** A value that is set and true, or nothing: what [str(x) if x else None]
    can tell. *)
Definition forget_false {A} `{PyObject A} (x : option A) : option A :=
  match x with
  | Some v => if truth v then Some v else None
  | None => None
  end.

Definition forget_false_values (fmt : ParagraphFormat.t) : ParagraphFormat.t :=
  {| ParagraphFormat.alignment := forget_false (ParagraphFormat.alignment fmt);
     ParagraphFormat.first_line_indent := forget_false (ParagraphFormat.first_line_indent fmt);
     ParagraphFormat.left_indent := forget_false (ParagraphFormat.left_indent fmt);
     ParagraphFormat.right_indent := forget_false (ParagraphFormat.right_indent fmt);
     ParagraphFormat.line_spacing := forget_false (ParagraphFormat.line_spacing fmt);
     ParagraphFormat.space_before := forget_false (ParagraphFormat.space_before fmt);
     ParagraphFormat.space_after := forget_false (ParagraphFormat.space_after fmt);
     ParagraphFormat.keep_together := ParagraphFormat.keep_together fmt;
     ParagraphFormat.keep_with_next := ParagraphFormat.keep_with_next fmt;
     ParagraphFormat.page_break_before := ParagraphFormat.page_break_before fmt;
     ParagraphFormat.widow_control := ParagraphFormat.widow_control fmt |}.

(** One of [0-9A-F]. *)
Definition is_upper_hex (c : Py.char) : bool :=
  (((48 <=? c) && (c <=? 57)) || ((65 <=? c) && (c <=? 70)))%N.

(** The name a table record gets for its style. *)
Definition style_of (table : Table.t) : Py.str :=
  match Table.style table with
  | Some name => name
  | None => Py.lit "Normal"
  end.

Section BatchForms.
Variable Document : Py.str -> Py.exc Document.t.
Variable write : Py.str -> Py.str -> write_outcome.


End BatchForms.

(** Every record the loop over the body paragraphs holds satisfies [ok]. *)
Definition records_ok (ok : BodyParagraphRecord.t -> Prop) (st : BodyState) : Prop :=
  Forall ok (DocumentContent.paragraphs (content st))
  /\ Forall (Forall ok) (DocumentContent.lists (content st))
  /\ Forall ok (list_items st).

(** A character that is neither a space nor a line feed, and the texts that
    start and end with one. *)
Definition visible (c : Py.char) : bool := negb (c =? 32)%N && negb (c =? 10)%N.

Definition starts_visible (s : Py.str) : bool :=
  match s with
  | c :: _ => visible c
  | [] => false
  end.

Definition ends_visible (s : Py.str) : bool := starts_visible (rev s).

(** The spaces a text starts with, and the indentation of its lines: the
    number of spaces after each line feed. *)
Fixpoint leading_spaces (s : Py.str) : nat :=
  match s with
  | c :: r => if (c =? 32)%N then S (leading_spaces r) else O
  | [] => O
  end.

Fixpoint indents (s : Py.str) : list nat :=
  match s with
  | [] => []
  | c :: r => if (c =? 10)%N then leading_spaces r :: indents r else indents r
  end.

Definition no_line_feed (s : Py.str) : bool :=
  forallb (fun c => negb (c =? 10)%N) s.

(** A text whose lines are indented by multiples of [indent], [level] at
    least, and which starts and ends with a visible character. *)
Definition indented (indent level : nat) (s : Py.str) : Prop :=
  starts_visible s = true /\ ends_visible s = true
  /\ Forall (fun n => exists k, n = indent * k /\ level <= k) (indents s).

(* ===================================================================== *)
(** ** Attribute reads that may raise *)
(* ===================================================================== *)

(** The same four functions on objects whose attribute reads may each
    raise, as python-docx's properties do on XML they do not accept:
    [run.font.highlight_color] on [<w:highlight w:val="none"/>],
    [fmt.alignment] on [<w:jc w:val="start"/>], [para.style.name] when the
    document defines no style for the paragraph.  [getattr] with a default
    and [hasattr] take an [AttributeError] for a missing attribute and let
    any other exception through.  The functions above are these on objects
    whose reads all return ([Returning], and [extract_docx_content_returning]
    below). *)
Module Reading.

Module Font.
Record t : Type := {
  size : Py.exc (option Z);
  name : Py.exc (option Py.str);
  all_caps : Py.exc (option bool);
  color : Py.exc (option ColorFormat.t);
  highlight_color : Py.exc (option EnumMember);
  subscript : Py.exc (option bool);
  superscript : Py.exc (option bool)
}.
End Font.

Module Run.
Record t : Type := {
  text : Py.str;
  bold : Py.exc (option bool);
  italic : Py.exc (option bool);
  underline : Py.exc (option underline_value);
  font : Font.t
}.
End Run.

Module ParagraphFormat.
Record t : Type := {
  alignment : Py.exc (option EnumMember);
  first_line_indent : Py.exc (option Z);
  left_indent : Py.exc (option Z);
  right_indent : Py.exc (option Z);
  line_spacing : Py.exc (option line_spacing_value);
  space_before : Py.exc (option Z);
  space_after : Py.exc (option Z);
  keep_together : Py.exc (option bool);
  keep_with_next : Py.exc (option bool);
  page_break_before : Py.exc (option bool);
  widow_control : Py.exc (option bool)
}.
End ParagraphFormat.

Module Paragraph.
Record t : Type := {
  text : Py.str;
  style_name : Py.exc Py.str;             (* para.style.name *)
  paragraph_format : ParagraphFormat.t;
  runs : list Run.t;
  has_numbering : bool;                   (* hasattr(para, 'numbering') *)
  pPr : option CT_PPr.t                   (* para._element.pPr *)
}.
End Paragraph.

Module Cell.
Record t : Type := {
  text : Py.str;
  paragraphs : list Paragraph.t
}.
End Cell.

Module Table.
Record t : Type := {
  style : option Py.str;
  rows : list (list Cell.t)
}.
End Table.

Module Section_.
Record t : Type := {
  header : option (list Paragraph.t)
}.
End Section_.

Module Document.
Record t : Type := {
  sections : list Section_.t;
  paragraphs : list Paragraph.t;
  tables : list Table.t
}.
End Document.

(** [getattr(obj, name, None)] *)
Definition getattr {A} (attribute : Py.exc (option A)) : Py.exc (option A) :=
  match attribute with
  | Py.Val v => Py.Val v
  | Py.Raise (Py.AttributeError _) => Py.Val None
  | Py.Raise e => Py.Raise e
  end.

(** [bool(x)], [x] being [None] or an object. *)
Definition truthy {A} `{PyObject A} (x : option A) : bool :=
  match x with
  | Some v => truth v
  | None => false
  end.

(** Line 15: [str(run.font.size) if hasattr(run.font, 'size') and
    run.font.size else None]. *)
Definition read_font_size (f : Font.t) : Py.exc (option Py.str) :=
  has <- Py.hasattr (Font.size f) ;;
  if has then
    s <- Font.size f ;;
    if truthy s then
      s' <- Font.size f ;;
      Py.ret (Some (str_or_None s'))
    else Py.ret None
  else Py.ret None.

(** Line 19: [str(run.font.highlight_color) if hasattr(run.font,
    'highlight_color') else None]. *)
Definition read_highlight_color (f : Font.t) : Py.exc (option Py.str) :=
  has <- Py.hasattr (Font.highlight_color f) ;;
  if has then
    h <- Font.highlight_color f ;;
    Py.ret (Some (str_or_None h))
  else Py.ret None.

(** Lines 11 to 22: the dict literal, its values evaluated in order. *)
Definition read_properties (run : Run.t) : Py.exc FontProperties.t :=
  b <- getattr (Run.bold run) ;;
  i <- getattr (Run.italic run) ;;
  u <- getattr (Run.underline run) ;;
  fs <- read_font_size (Run.font run) ;;
  fn <- getattr (Font.name (Run.font run)) ;;
  ac <- getattr (Font.all_caps (Run.font run)) ;;
  hc <- read_highlight_color (Run.font run) ;;
  sub <- getattr (Font.subscript (Run.font run)) ;;
  sup <- getattr (Font.superscript (Run.font run)) ;;
  Py.ret {| FontProperties.bold := b;
            FontProperties.italic := i;
            FontProperties.underline := u;
            FontProperties.font_size := fs;
            FontProperties.font_name := fn;
            FontProperties.all_caps := ac;
            FontProperties.color := None;
            FontProperties.highlight_color := hc;
            FontProperties.subscript := sub;
            FontProperties.superscript := sup |}.

(** [run.font.color.rgb] *)
Definition read_rgb (f : Font.t) : Py.exc (option rgb_value) :=
  c <- Font.color f ;;
  match c with
  | Some cf => ColorFormat.rgb cf
  | None => Py.Raise (Py.AttributeError (Py.lit "'NoneType' object has no attribute 'rgb'"))
  end.

(** The body of the [try]: lines 26 to 28. *)
Definition extract_color (f : Font.t) (properties : FontProperties.t)
  : Py.exc FontProperties.t :=
  has <- Py.hasattr (Font.color f) ;;
  if has then
    c <- Font.color f ;;
    match c with
    | None => Py.ret properties
    | Some _ =>
      v <- read_rgb f ;;
      match v with
      | None => Py.ret properties
      | Some x =>
        if rgb_truth x then
          rgb <- read_rgb f ;;
          Py.ret (FontProperties.set_color properties (Some (color_string rgb)))
        else Py.ret properties
      end
    end
  else Py.ret properties.

Definition get_font_properties (run : Run.t) : Py.exc FontProperties.t :=
  properties <- read_properties run ;;
  Py.try_except (extract_color (Run.font run) properties)
                (fun _ => Py.ret properties).

(** [str(x) if x else None], the attribute [x] read for the test and again
    for [str]. *)
Definition str_if_true {A} `{PyObject A} (attribute : Py.exc (option A))
  : Py.exc (option Py.str) :=
  x <- attribute ;;
  if truthy x then
    x' <- attribute ;;
    Py.ret (Some (str_or_None x'))
  else Py.ret None.

Definition get_paragraph_format (paragraph : Paragraph.t) : Py.exc Formatting.t :=
  let fmt := Paragraph.paragraph_format paragraph in
  alignment <- str_if_true (ParagraphFormat.alignment fmt) ;;
  first_line_indent <- str_if_true (ParagraphFormat.first_line_indent fmt) ;;
  left_indent <- str_if_true (ParagraphFormat.left_indent fmt) ;;
  right_indent <- str_if_true (ParagraphFormat.right_indent fmt) ;;
  line_spacing <- str_if_true (ParagraphFormat.line_spacing fmt) ;;
  space_before <- str_if_true (ParagraphFormat.space_before fmt) ;;
  space_after <- str_if_true (ParagraphFormat.space_after fmt) ;;
  keep_together <- ParagraphFormat.keep_together fmt ;;
  keep_with_next <- ParagraphFormat.keep_with_next fmt ;;
  page_break_before <- ParagraphFormat.page_break_before fmt ;;
  widow_control <- ParagraphFormat.widow_control fmt ;;
  Py.ret {| Formatting.alignment := alignment;
            Formatting.first_line_indent := first_line_indent;
            Formatting.left_indent := left_indent;
            Formatting.right_indent := right_indent;
            Formatting.line_spacing := line_spacing;
            Formatting.space_before := space_before;
            Formatting.space_after := space_after;
            Formatting.keep_together := keep_together;
            Formatting.keep_with_next := keep_with_next;
            Formatting.page_break_before := page_break_before;
            Formatting.widow_control := widow_control |}.

(** Lines 85-90, 110-115, 158-163. *)
Definition run_step (run : Run.t) (runs : list RunRecord.t)
  : Py.exc (list RunRecord.t) :=
  if has_text (Run.text run) then
    font_properties <- get_font_properties run ;;
    Py.ret (runs ++ [ {| RunRecord.text := Run.text run;
                         RunRecord.font_properties := font_properties |} ])
  else Py.ret runs.

Definition extract_runs (runs : list Run.t) : Py.exc (list RunRecord.t) :=
  Py.for_each runs run_step [].

(** Lines 78-90 and 151-163. *)
Definition paragraph_record (paragraph : Paragraph.t)
  : Py.exc ParagraphRecord.t :=
  style_name <- Paragraph.style_name paragraph ;;
  formatting <- get_paragraph_format paragraph ;;
  runs <- extract_runs (Paragraph.runs paragraph) ;;
  Py.ret {| ParagraphRecord.text := Py.strip (Paragraph.text paragraph);
            ParagraphRecord.style_name := style_name;
            ParagraphRecord.formatting := formatting;
            ParagraphRecord.runs := runs |}.

(** Lines 76-92. *)
Definition header_paragraph_step (paragraph : Paragraph.t)
  (content : DocumentContent.t) : Py.exc DocumentContent.t :=
  if has_text (Paragraph.text paragraph) then
    header_content <- paragraph_record paragraph ;;
    Py.ret (DocumentContent.append_header content header_content)
  else Py.ret content.

(** Lines 74-92. *)
Definition section_step (section : Section_.t) (content : DocumentContent.t)
  : Py.exc DocumentContent.t :=
  match Section_.header section with
  | Some header_paragraphs =>
    Py.for_each header_paragraphs header_paragraph_step content
  | None => Py.ret content
  end.

(** Line 105. *)
Definition is_list_item (para : Paragraph.t) : Py.exc bool :=
  style_name <- Paragraph.style_name para ;;
  Py.ret (Py.startswith style_name (Py.lit "List") || Paragraph.has_numbering para).

(** Line 106. *)
Definition list_level (para : Paragraph.t) : Py.exc (option Z) :=
  if Paragraph.has_numbering para then
    match Paragraph.pPr para with
    | None => Py.ret None
    | Some pPr =>
      match CT_PPr.numPr pPr with
      | None => Py.ret None
      | Some numPr =>
        match CT_NumPr.ilvl numPr with
        | Some val => Py.ret (Some val)
        | None => Py.Raise (Py.AttributeError
                    (Py.lit "'NoneType' object has no attribute 'val'"))
        end
      end
    end
  else Py.ret None.

(** Lines 100-115: the dict literal, then the loop over the runs. *)
Definition body_paragraph_record (para : Paragraph.t)
  : Py.exc BodyParagraphRecord.t :=
  style_name <- Paragraph.style_name para ;;
  formatting <- get_paragraph_format para ;;
  item <- is_list_item para ;;
  level <- list_level para ;;
  runs <- extract_runs (Paragraph.runs para) ;;
  Py.ret {| BodyParagraphRecord.text := Py.strip (Paragraph.text para);
            BodyParagraphRecord.style_name := style_name;
            BodyParagraphRecord.formatting := formatting;
            BodyParagraphRecord.runs := runs;
            BodyParagraphRecord.is_list_item := item;
            BodyParagraphRecord.list_level := level |}.

(** Lines 98-127. *)
Definition body_step (para : Paragraph.t) (st : BodyState)
  : Py.exc BodyState :=
  if has_text (Paragraph.text para) then
    para_content <- body_paragraph_record para ;;
    if BodyParagraphRecord.is_list_item para_content then
      let current_list' :=
        match current_list st with
        | None => Some {| level := BodyParagraphRecord.list_level para_content;
                          items := [] |}
        | Some cl => Some cl
        end in
      Py.ret {| content := content st;
                current_list := current_list';
                list_items := list_items st ++ [para_content] |}
    else
      let st' :=
        match current_list st with
        | Some _ =>
          {| content := DocumentContent.append_list (content st) (list_items st);
             current_list := None;
             list_items := [] |}
        | None => st
        end in
      Py.ret {| content := DocumentContent.append_paragraph (content st') para_content;
                current_list := current_list st';
                list_items := list_items st' |}
  else Py.ret st.

(** Lines 149-165. *)
Definition cell_paragraph_step (para : Paragraph.t)
  (paragraphs : list ParagraphRecord.t) : Py.exc (list ParagraphRecord.t) :=
  if has_text (Paragraph.text para) then
    para_content <- paragraph_record para ;;
    Py.ret (paragraphs ++ [para_content])
  else Py.ret paragraphs.

(** Lines 142-167. *)
Definition cell_step (cell : Cell.t) (row_data : list CellRecord.t)
  : Py.exc (list CellRecord.t) :=
  paragraphs <- Py.for_each (Cell.paragraphs cell) cell_paragraph_step [] ;;
  Py.ret (row_data ++ [ {| CellRecord.text := Py.strip (Cell.text cell);
                           CellRecord.paragraphs := paragraphs |} ]).

(** Lines 140-168. *)
Definition row_step (cells : list Cell.t) (rows : list (list CellRecord.t))
  : Py.exc (list (list CellRecord.t)) :=
  row_data <- Py.for_each cells cell_step [] ;;
  Py.ret (rows ++ [row_data]).

(** Lines 134-171. *)
Definition table_step (table : Table.t) (content : DocumentContent.t)
  : Py.exc DocumentContent.t :=
  rows <- Py.for_each (Table.rows table) row_step [] ;;
  let table_data :=
    {| TableRecord.style := match Table.style table with
                            | Some name => name
                            | None => Py.lit "Normal"
                            end;
       TableRecord.rows := rows |} in
  if any_cell_text (TableRecord.rows table_data) then
    Py.ret (DocumentContent.append_table content table_data)
  else Py.ret content.

Section Extraction.

(** [docx.Document(path)] *)
Variable Document : Py.str -> Py.exc Document.t.

Definition extract_docx_content (docx_path : Py.str)
  : Py.exc DocumentContent.t :=
  doc <- Document docx_path ;;
  let content :=
    {| DocumentContent.paragraphs := [];
       DocumentContent.tables := [];
       DocumentContent.headers := [];
       DocumentContent.document_name := Posix.basename docx_path;
       DocumentContent.lists := [] |} in
  content <- Py.for_each (Document.sections doc) section_step content ;;
  st <- Py.for_each (Document.paragraphs doc) body_step
          {| content := content; current_list := None; list_items := [] |} ;;
  let content := flush_list st in
  content <- Py.for_each (Document.tables doc) table_step content ;;
  Py.ret content.

End Extraction.

(** A read that returns or reports a missing attribute. *)
Definition quiet {A} (attribute : Py.exc A) : bool :=
  match attribute with
  | Py.Raise (Py.Error _ _) => false
  | _ => true
  end.

(** No read of lines 12 to 21 raises anything but [AttributeError]. *)
Definition quiet_reads (run : Run.t) : bool :=
  quiet (Run.bold run) && quiet (Run.italic run) && quiet (Run.underline run)
  && quiet (Font.size (Run.font run)) && quiet (Font.name (Run.font run))
  && quiet (Font.all_caps (Run.font run))
  && quiet (Font.highlight_color (Run.font run))
  && quiet (Font.subscript (Run.font run))
  && quiet (Font.superscript (Run.font run)).

(** What a read gives [getattr(..., None)]. *)
Definition value_or_None {A} (attribute : Py.exc (option A)) : option A :=
  match attribute with
  | Py.Val v => v
  | Py.Raise _ => None
  end.

(** The colour of the returned dict: the string of a true [rgb] read without
    an exception, [None] in every other case. *)
Definition resolved_color (f : Font.t) : option Py.str :=
  match Font.color f with
  | Py.Val (Some cf) =>
    match ColorFormat.rgb cf with
    | Py.Val (Some x) => if rgb_truth x then Some (color_string (Some x)) else None
    | _ => None
    end
  | _ => None
  end.

(** The dict of a run whose reads are quiet. *)
Definition font_properties_of (run : Run.t) : FontProperties.t :=
  {| FontProperties.bold := value_or_None (Run.bold run);
     FontProperties.italic := value_or_None (Run.italic run);
     FontProperties.underline := value_or_None (Run.underline run);
     FontProperties.font_size :=
       match Font.size (Run.font run) with
       | Py.Val (Some v) => if truth v then Some (to_str v) else None
       | _ => None
       end;
     FontProperties.font_name := value_or_None (Font.name (Run.font run));
     FontProperties.all_caps := value_or_None (Font.all_caps (Run.font run));
     FontProperties.color := resolved_color (Run.font run);
     FontProperties.highlight_color :=
       match Font.highlight_color (Run.font run) with
       | Py.Val (Some m) => Some (to_str m)
       | Py.Val None => Some (Py.lit "None")
       | Py.Raise _ => None
       end;
     FontProperties.subscript := value_or_None (Font.subscript (Run.font run));
     FontProperties.superscript := value_or_None (Font.superscript (Run.font run)) |}.

End Reading.

(** The objects whose reads all return: those of the first model. *)
Module Returning.

Definition font (f : Font.t) : Reading.Font.t :=
  {| Reading.Font.size := Py.Val (Font.size f);
     Reading.Font.name := Py.Val (Font.name f);
     Reading.Font.all_caps := Py.Val (Font.all_caps f);
     Reading.Font.color := Font.color f;
     Reading.Font.highlight_color := Py.Val (Font.highlight_color f);
     Reading.Font.subscript := Py.Val (Font.subscript f);
     Reading.Font.superscript := Py.Val (Font.superscript f) |}.

Definition run (r : Run.t) : Reading.Run.t :=
  {| Reading.Run.text := Run.text r;
     Reading.Run.bold := Py.Val (Run.bold r);
     Reading.Run.italic := Py.Val (Run.italic r);
     Reading.Run.underline := Py.Val (Run.underline r);
     Reading.Run.font := font (Run.font r) |}.

Definition paragraph_format (fmt : ParagraphFormat.t) : Reading.ParagraphFormat.t :=
  {| Reading.ParagraphFormat.alignment := Py.Val (ParagraphFormat.alignment fmt);
     Reading.ParagraphFormat.first_line_indent := Py.Val (ParagraphFormat.first_line_indent fmt);
     Reading.ParagraphFormat.left_indent := Py.Val (ParagraphFormat.left_indent fmt);
     Reading.ParagraphFormat.right_indent := Py.Val (ParagraphFormat.right_indent fmt);
     Reading.ParagraphFormat.line_spacing := Py.Val (ParagraphFormat.line_spacing fmt);
     Reading.ParagraphFormat.space_before := Py.Val (ParagraphFormat.space_before fmt);
     Reading.ParagraphFormat.space_after := Py.Val (ParagraphFormat.space_after fmt);
     Reading.ParagraphFormat.keep_together := Py.Val (ParagraphFormat.keep_together fmt);
     Reading.ParagraphFormat.keep_with_next := Py.Val (ParagraphFormat.keep_with_next fmt);
     Reading.ParagraphFormat.page_break_before := Py.Val (ParagraphFormat.page_break_before fmt);
     Reading.ParagraphFormat.widow_control := Py.Val (ParagraphFormat.widow_control fmt) |}.

Definition paragraph (p : Paragraph.t) : Reading.Paragraph.t :=
  {| Reading.Paragraph.text := Paragraph.text p;
     Reading.Paragraph.style_name := Py.Val (Paragraph.style_name p);
     Reading.Paragraph.paragraph_format := paragraph_format (Paragraph.paragraph_format p);
     Reading.Paragraph.runs := map run (Paragraph.runs p);
     Reading.Paragraph.has_numbering := Paragraph.has_numbering p;
     Reading.Paragraph.pPr := Paragraph.pPr p |}.

Definition cell (c : Cell.t) : Reading.Cell.t :=
  {| Reading.Cell.text := Cell.text c;
     Reading.Cell.paragraphs := map paragraph (Cell.paragraphs c) |}.

Definition table (t : Table.t) : Reading.Table.t :=
  {| Reading.Table.style := Table.style t;
     Reading.Table.rows := map (map cell) (Table.rows t) |}.

Definition section (s : Section_.t) : Reading.Section_.t :=
  {| Reading.Section_.header := option_map (map paragraph) (Section_.header s) |}.

Definition document (d : Document.t) : Reading.Document.t :=
  {| Reading.Document.sections := map section (Document.sections d);
     Reading.Document.paragraphs := map paragraph (Document.paragraphs d);
     Reading.Document.tables := map table (Document.tables d) |}.

(** A parser that returns such documents. *)
Definition parser (Document : Py.str -> Py.exc Document.t) (path : Py.str)
  : Py.exc Reading.Document.t :=
  match Document path with
  | Py.Val d => Py.Val (document d)
  | Py.Raise e => Py.Raise e
  end.

End Returning.

(* ===================================================================== *)
(** ** The driver on a standard output that can refuse a text *)
(* ===================================================================== *)

(** [process_docx_files] once more, [sys.stdout] being a text stream with an
    encoding and the [strict] error handler (Python's default): [write]
    raises [UnicodeEncodeError] on a text with a character the encoding
    lacks, and writes nothing of it; the stream fails in no other way.
    UTF-8 lacks the lone surrogates that [os.listdir] puts in a file name
    for the bytes it cannot decode.  The extraction is any function of the
    path.  The driver above is this one on
    a stream that takes every character ([process_docx_files_total]
    below). *)
Module Console.

Definition is_surrogate (c : Py.char) : bool :=
  ((55296 <=? c) && (c <=? 57343))%N.

(** The characters UTF-8 encodes. *)
Definition utf8 (c : Py.char) : bool := negb (is_surrogate c).

(** The number of surrogates [s] starts with. *)
Fixpoint surrogate_run (s : Py.str) : nat :=
  match s with
  | c :: r => if is_surrogate c then S (surrogate_run r) else O
  | [] => O
  end.

(** Where the UTF-8 encoder stops: the index of the first surrogate from [i]
    on, the surrogate, and how many follow each other there. *)
Fixpoint first_surrogate (i : nat) (s : Py.str) : option (nat * Py.char * nat) :=
  match s with
  | [] => None
  | c :: r =>
    if is_surrogate c then Some (i, c, S (surrogate_run r))
    else first_surrogate (S i) r
  end.

Definition str_nat (n : nat) : Py.str := Py.str_int (Z.of_nat n).

(** [str(e)] of the [UnicodeEncodeError] the UTF-8 encoder raises on [s]. *)
Definition utf8_error_message (s : Py.str) : Py.str :=
  match first_surrogate 0 s with
  | Some (start, c, 1%nat) =>
    Py.lit "'utf-8' codec can't encode character '\u" ++ Py.zfill 4 (Py.hex c)
    ++ Py.lit "' in position " ++ str_nat start
    ++ Py.lit ": surrogates not allowed"
  | Some (start, _, n) =>
    Py.lit "'utf-8' codec can't encode characters in position " ++ str_nat start
    ++ Py.lit "-" ++ str_nat (start + n - 1)
    ++ Py.lit ": surrogates not allowed"
  | None => []
  end.

Definition utf8_error (s : Py.str) : Py.exn :=
  Py.Error (Py.lit "UnicodeEncodeError") (utf8_error_message s).

Section Stream.
(** The characters the encoding of [sys.stdout] has (the line end is one of
    them), and the exception its encoder raises on a text. *)
Variable encodes : Py.char -> bool.
Variable encode_error : Py.str -> Py.exn.

Definition encodable (s : Py.str) : bool := forallb encodes s.

(** What [print] of several arguments writes, one [write] each: the
    arguments, with a space between two of them. *)
Fixpoint pieces (args : list Py.str) : list Py.str :=
  match args with
  | [] => []
  | [a] => [a]
  | a :: rest => a :: Py.lit " " :: pieces rest
  end.

(** The writes in turn: what has reached the stream, and the exception of
    the write that was refused, if one was. *)
Fixpoint write_pieces (ps : list Py.str) (written : Py.str)
  : Py.str * option Py.exn :=
  match ps with
  | [] => (written, None)
  | p :: rest =>
    if encodable p then write_pieces rest (written ++ p)
    else (written, Some (encode_error p))
  end.

Definition put_line (line : Py.str) (w : World) : World :=
  {| stdout := stdout w ++ [line]; files := files w |}.

(** [print] of the arguments: an entry of [stdout] holds what the call
    wrote, the line end apart. *)
Definition print_args (args : list Py.str) : io unit :=
  fun w =>
    match write_pieces (pieces args) [] with
    | (line, None) => (put_line line w, Py.Val tt)
    | (partial, Some e) =>
      (if Py.truthy partial then put_line partial w else w, Py.Raise e)
    end.

(** [print(line)] *)
Definition print (line : Py.str) : io unit := print_args [line].

Section Driver.
Variable lower : Py.str -> Py.str.
Variable listdir : Py.exc (list Py.str).
(** [extract_docx_content], as a function of the path. *)
Variable extract : Py.str -> Py.exc DocumentContent.t.
Variable write : Py.str -> Py.str -> write_outcome.

(** Lines 187-195: the body of the [try]. *)
Definition attempt (docx_file : Py.str) : io unit :=
  (print (Py.lit "Processing " ++ docx_file ++ Py.lit "...") ;;;
   content <- IO.lift (extract docx_file) ;;
   let json_filename := json_filename_of docx_file in
   dump_json write json_filename content ;;;
   print (Py.lit "Successfully created " ++ json_filename))%io.

(** Lines 198-199: the handler. *)
Definition report (docx_file : Py.str) (e : Py.exn) : io unit :=
  (print (Py.lit "Error processing " ++ docx_file ++ Py.lit ": " ++ Py.str_exn e) ;;;
   print_args [Py.lit "Full error details: "; Py.str_exn e])%io.

(** Lines 186-199: one round of the loop. *)
Definition process_file (docx_file : Py.str) : io unit :=
  IO.try_except (attempt docx_file) (report docx_file).

Definition process_docx_files : io unit :=
  (listing <- IO.lift listdir ;;
   let docx_files := filter (is_docx lower) listing in
   match docx_files with
   | [] => print (Py.lit "No .docx files found in the current directory")
   | _ :: _ => IO.for_each docx_files process_file
   end)%io.

Definition processing_line (docx_file : Py.str) : Py.str :=
  Py.lit "Processing " ++ docx_file ++ Py.lit "...".

Definition success_line (docx_file : Py.str) : Py.str :=
  Py.lit "Successfully created " ++ json_filename_of docx_file.

(** The exception the [try] body of a round ends with, if any: that of a
    refused [print], of the extraction or of the write. *)
Definition file_failure (docx_file : Py.str) : option Py.exn :=
  if encodable (processing_line docx_file) then
    match extract docx_file with
    | Py.Raise e => Some e
    | Py.Val content =>
      match write (json_filename_of docx_file) (Json.dumps (json_of_content content)) with
      | written =>
        if encodable (success_line docx_file) then None
        else Some (encode_error (success_line docx_file))
      | open_fails e => Some e
      | dump_fails e _ => Some e
      end
    end
  else Some (encode_error (processing_line docx_file)).

(** The file a round leaves under the JSON name, if any. *)
Definition file_written (docx_file : Py.str) : option File :=
  if encodable (processing_line docx_file) then
    match extract docx_file with
    | Py.Raise _ => None
    | Py.Val content =>
      let text := Json.dumps (json_of_content content) in
      match write (json_filename_of docx_file) text with
      | written => Some {| encoding := Py.lit "utf-8"; data := text |}
      | open_fails _ => None
      | dump_fails _ partial => Some {| encoding := Py.lit "utf-8"; data := partial |}
      end
    end
  else None.

(** The handler's two lines can be printed. *)
Definition reported (docx_file : Py.str) : bool :=
  match file_failure docx_file with
  | Some e => forallb encodable (error_lines docx_file e)
  | None => true
  end.

(** The lines of a round whose failure, if any, is reported. *)
Definition file_log (docx_file : Py.str) : list Py.str :=
  (if encodable (processing_line docx_file) then [processing_line docx_file] else [])
  ++ match file_failure docx_file with
     | Some e => error_lines docx_file e
     | None => [success_line docx_file]
     end.

(** The world after such a round. *)
Definition after_file (docx_file : Py.str) (w : World) : World :=
  {| stdout := stdout w ++ file_log docx_file;
     files := match file_written docx_file with
              | Some f => files (IO.put_file (json_filename_of docx_file) f w)
              | None => files w
              end |}.

Definition no_files_line : Py.str :=
  Py.lit "No .docx files found in the current directory".

(** The prints that no [try] covers go through: the handler's, for every
    matching file whose [try] body raises, or that of line 182. *)
Definition batch_reported (listing : list Py.str) : bool :=
  match filter (is_docx lower) listing with
  | [] => encodable no_files_line
  | docx_files => forallb reported docx_files
  end.

(** The world after the batch, then. *)
Definition after_batch (listing : list Py.str) (w : World) : World :=
  match filter (is_docx lower) listing with
  | [] => put_line no_files_line w
  | docx_files => fold_left (fun w f => after_file f w) docx_files w
  end.

End Driver.
End Stream.

End Console.

(* ===================================================================== *)
(** ** Sample documents *)
(* ===================================================================== *)

Module Sample.

(** A font with nothing set: python-docx gives a [ColorFormat] whose [rgb]
    is [None]. *)
Definition font : Font.t :=
  {| Font.size := None; Font.name := None; Font.all_caps := None;
     Font.color := Py.Val (Some {| ColorFormat.rgb := Py.Val None |});
     Font.highlight_color := None;
     Font.subscript := None; Font.superscript := None |}.

Definition run (text : string) : Run.t :=
  {| Run.text := Py.lit text; Run.bold := None; Run.italic := None;
     Run.underline := None; Run.font := font |}.

Definition format : ParagraphFormat.t :=
  {| ParagraphFormat.alignment := None;
     ParagraphFormat.first_line_indent := None;
     ParagraphFormat.left_indent := None;
     ParagraphFormat.right_indent := None;
     ParagraphFormat.line_spacing := None;
     ParagraphFormat.space_before := None;
     ParagraphFormat.space_after := None;
     ParagraphFormat.keep_together := None;
     ParagraphFormat.keep_with_next := None;
     ParagraphFormat.page_break_before := None;
     ParagraphFormat.widow_control := None |}.

(** A paragraph of one run, or of none when it has no text. *)
Definition paragraph (style text : string) : Paragraph.t :=
  {| Paragraph.text := Py.lit text;
     Paragraph.style_name := Py.lit style;
     Paragraph.paragraph_format := format;
     Paragraph.runs := match text with EmptyString => [] | _ => [run text] end;
     Paragraph.has_numbering := false;
     Paragraph.pPr := None |}.

(** A cell of one paragraph. *)
Definition cell (text : string) : Cell.t :=
  {| Cell.text := Py.lit text;
     Cell.paragraphs := [paragraph "Normal" text] |}.

(** A header, seven body paragraphs with two lists, the second list split
    by an empty paragraph, and two tables, the second without any text. *)
Definition doc : Document.t :=
  {| Document.sections :=
       [ {| Section_.header := Some [paragraph "Header" "Title"; paragraph "Header" " "] |} ];
     Document.paragraphs :=
       [ paragraph "Normal" "Intro";
         paragraph "List Bullet" " a ";
         paragraph "List Bullet" "b";
         paragraph "Normal" "middle";
         paragraph "List Number" "c";
         paragraph "Normal" "";
         paragraph "List Number" "d" ];
     Document.tables :=
       [ {| Table.style := Some (Py.lit "Table Grid");
            Table.rows := [ [cell "x"; cell ""] ] |};
         {| Table.style := None;
            Table.rows := [ [cell ""; cell " "] ] |} ] |}.

(** A run whose font raises when its colour is read. *)
Definition run_without_color (text : string) : Run.t :=
  {| Run.text := Py.lit text; Run.bold := Some true; Run.italic := None;
     Run.underline := None;
     Run.font :=
       {| Font.size := Some 152400%Z; Font.name := None; Font.all_caps := None;
          Font.color := Py.Raise (Py.Error (Py.lit "ValueError") (Py.lit "bad colour"));
          Font.highlight_color := None;
          Font.subscript := None; Font.superscript := None |} |}.

(** [WD_ALIGN_PARAGRAPH.LEFT] and [WD_ALIGN_PARAGRAPH.CENTER]. *)
Definition LEFT : EnumMember := {| member_name := Py.lit "LEFT"; member_value := 0 |}.
Definition CENTER : EnumMember := {| member_name := Py.lit "CENTER"; member_value := 1 |}.

(** A paragraph aligned by [alignment], with the given left indent in EMU
    and nothing else set. *)
Definition aligned (alignment : EnumMember) (left_indent : Z) : Paragraph.t :=
  {| Paragraph.text := Py.lit "text";
     Paragraph.style_name := Py.lit "Normal";
     Paragraph.paragraph_format :=
       {| ParagraphFormat.alignment := Some alignment;
          ParagraphFormat.first_line_indent := None;
          ParagraphFormat.left_indent := Some left_indent;
          ParagraphFormat.right_indent := None;
          ParagraphFormat.line_spacing := None;
          ParagraphFormat.space_before := None;
          ParagraphFormat.space_after := None;
          ParagraphFormat.keep_together := Some true;
          ParagraphFormat.keep_with_next := None;
          ParagraphFormat.page_break_before := Some false;
          ParagraphFormat.widow_control := None |};
     Paragraph.runs := [run "text"];
     Paragraph.has_numbering := false;
     Paragraph.pPr := None |}.

(** A parser that knows one file. *)
Definition Document (path : Py.str) : Py.exc Document.t :=
  if Py.eqb path (Py.lit "a.docx") then Py.Val doc
  else Py.Raise (Py.Error (Py.lit "PackageNotFoundError")
                          (Py.lit "Package not found")).

(** ASCII lower case, which is what [str.lower] does on ASCII names. *)
Definition lower (s : Py.str) : Py.str :=
  map (fun c => if (65 <=? c) && (c <=? 90) then c + 32 else c)%N s.

(** A numbered paragraph whose [numPr] has no [ilvl]. *)
Definition numbered_without_level : Paragraph.t :=
  {| Paragraph.text := Py.lit "item";
     Paragraph.style_name := Py.lit "Normal";
     Paragraph.paragraph_format := format;
     Paragraph.runs := [run "item"];
     Paragraph.has_numbering := true;
     Paragraph.pPr := Some {| CT_PPr.numPr := Some {| CT_NumPr.ilvl := None |} |} |}.

(** The paragraph [aligned LEFT 0] with alignment and left indent unset. *)
Definition unaligned : Paragraph.t :=
  {| Paragraph.text := Py.lit "text";
     Paragraph.style_name := Py.lit "Normal";
     Paragraph.paragraph_format :=
       {| ParagraphFormat.alignment := None;
          ParagraphFormat.first_line_indent := None;
          ParagraphFormat.left_indent := None;
          ParagraphFormat.right_indent := None;
          ParagraphFormat.line_spacing := None;
          ParagraphFormat.space_before := None;
          ParagraphFormat.space_after := None;
          ParagraphFormat.keep_together := Some true;
          ParagraphFormat.keep_with_next := None;
          ParagraphFormat.page_break_before := Some false;
          ParagraphFormat.widow_control := None |};
     Paragraph.runs := [run "text"];
     Paragraph.has_numbering := false;
     Paragraph.pPr := None |}.


(** A document whose paragraphs and cells hold whitespace only. *)
Definition blank_doc : Document.t :=
  {| Document.sections := [ {| Section_.header := Some [paragraph "Header" " "] |};
                            {| Section_.header := None |} ];
     Document.paragraphs := [ paragraph "Normal" ""; paragraph "List Bullet" "  " ];
     Document.tables := [ {| Table.style := None; Table.rows := [ [cell ""; cell " "] ] |} ] |}.

(** A run coloured red. *)
Definition red_run : Run.t :=
  {| Run.text := Py.lit "red"; Run.bold := None; Run.italic := None;
     Run.underline := None;
     Run.font :=
       {| Font.size := None; Font.name := None; Font.all_caps := None;
          Font.color := Py.Val (Some {| ColorFormat.rgb := Py.Val (Some (RGBColor 255 0 0)) |});
          Font.highlight_color := None;
          Font.subscript := None; Font.superscript := None |} |}.

(** A run with [<w:highlight w:val="none"/>]: python-docx raises
    [ValueError] when [highlight_color] is read. *)
Definition highlight_none_run : Reading.Run.t :=
  {| Reading.Run.text := Py.lit "text";
     Reading.Run.bold := Py.Val None;
     Reading.Run.italic := Py.Val None;
     Reading.Run.underline := Py.Val None;
     Reading.Run.font :=
       {| Reading.Font.size := Py.Val None;
          Reading.Font.name := Py.Val None;
          Reading.Font.all_caps := Py.Val None;
          Reading.Font.color := Py.Val (Some {| ColorFormat.rgb := Py.Val None |});
          Reading.Font.highlight_color :=
            Py.Raise (Py.Error (Py.lit "ValueError")
                               (Py.lit "WD_COLOR_INDEX has no XML mapping for 'none'"));
          Reading.Font.subscript := Py.Val None;
          Reading.Font.superscript := Py.Val None |} |}.

(** An object without [highlight_color], with an unreadable colour and a
    bold run of 12 points. *)
Definition sparse_run : Reading.Run.t :=
  {| Reading.Run.text := Py.lit "text";
     Reading.Run.bold := Py.Val (Some true);
     Reading.Run.italic := Py.Raise (Py.AttributeError (Py.lit "italic"));
     Reading.Run.underline := Py.Val None;
     Reading.Run.font :=
       {| Reading.Font.size := Py.Val (Some 152400%Z);
          Reading.Font.name := Py.Val (Some (Py.lit "Arial"));
          Reading.Font.all_caps := Py.Val None;
          Reading.Font.color :=
            Py.Raise (Py.Error (Py.lit "ValueError") (Py.lit "bad colour"));
          Reading.Font.highlight_color :=
            Py.Raise (Py.AttributeError (Py.lit "highlight_color"));
          Reading.Font.subscript := Py.Val None;
          Reading.Font.superscript := Py.Val None |} |}.

(** A list paragraph numbered at level 1, and a document that holds it
    between two plain paragraphs. *)
Definition numbered (text : string) : Paragraph.t :=
  {| Paragraph.text := Py.lit text;
     Paragraph.style_name := Py.lit "Normal";
     Paragraph.paragraph_format := format;
     Paragraph.runs := [run text];
     Paragraph.has_numbering := true;
     Paragraph.pPr := Some {| CT_PPr.numPr := Some {| CT_NumPr.ilvl := Some 1%Z |} |} |}.

Definition numbered_doc : Document.t :=
  {| Document.sections := [];
     Document.paragraphs :=
       [ paragraph "Normal" "before"; numbered "item"; paragraph "Normal" "after" ];
     Document.tables := [] |}.

(** A document whose second paragraph is numbered without a level. *)
Definition unlevelled_doc : Document.t :=
  {| Document.sections := [];
     Document.paragraphs := [ paragraph "Normal" "before"; numbered_without_level ];
     Document.tables := [] |}.

(** A file name with a byte that is no UTF-8, as [os.listdir] returns it:
    [bad\udcff.docx]. *)
Definition bad_name : Py.str := Py.lit "bad" ++ [56575%N] ++ Py.lit ".docx".

(** The parser that returns [numbered_doc], and the record extracted from
    it. *)
Definition numbered_Document (path : Py.str) : Py.exc Document.t :=
  Py.Val numbered_doc.

Definition numbered_content : DocumentContent.t :=
  content_of (Py.lit "list.docx") numbered_doc.

(** The record extracted from [doc], read as [a.docx]. *)
Definition content : DocumentContent.t :=
  content_of (Py.lit "a.docx") doc.

End Sample.

(* ===================================================================== *)
(** ** Facts about [str.strip] *)
(* ===================================================================== *)

Section Strip.

Let not_space (c : Py.char) : bool := negb (Py.isspace c).

Lemma blank_filter (s : Py.str) :
  blank s = match filter not_space s with [] => true | _ :: _ => false end.
Proof.
  induction s as [|c r IH]; simpl; [reflexivity|].
  unfold not_space at 1. destruct (Py.isspace c); simpl; [exact IH | reflexivity].
Qed.

Lemma lstrip_filter (s : Py.str) :
  filter not_space (Py.lstrip s) = filter not_space s.
Proof.
  induction s as [|c r IH]; simpl; [reflexivity|].
  unfold not_space at 2.
  destruct (Py.isspace c) eqn:E; simpl; [exact IH|].
  unfold not_space at 1. rewrite E. reflexivity.
Qed.

Lemma rstrip_filter (s : Py.str) :
  filter not_space (Py.rstrip s) = filter not_space s.
Proof.
  unfold Py.rstrip.
  rewrite filter_rev, lstrip_filter, filter_rev, rev_involutive. reflexivity.
Qed.

(** Trimming removes whitespace only. *)
Lemma strip_filter (s : Py.str) :
  filter not_space (Py.strip s) = filter not_space s.
Proof. unfold Py.strip. rewrite rstrip_filter. apply lstrip_filter. Qed.

Lemma blank_strip (s : Py.str) : blank (Py.strip s) = blank s.
Proof. rewrite !blank_filter, strip_filter. reflexivity. Qed.

Lemma blank_rev (s : Py.str) : blank (rev s) = blank s.
Proof.
  rewrite !blank_filter, filter_rev.
  destruct (filter not_space s) as [|c r]; simpl; [reflexivity|].
  destruct (rev r ++ [c]) eqn:E; [|reflexivity].
  destruct (rev r); discriminate E.
Qed.

Lemma truthy_rev (s : Py.str) : Py.truthy (rev s) = Py.truthy s.
Proof.
  destruct s as [|c r]; simpl; [reflexivity|].
  destruct (rev r ++ [c]) eqn:E; [|reflexivity].
  destruct (rev r); discriminate E.
Qed.

Lemma truthy_lstrip (s : Py.str) : Py.truthy (Py.lstrip s) = negb (blank s).
Proof.
  induction s as [|c r IH]; simpl; [reflexivity|].
  destruct (Py.isspace c); simpl; [exact IH | reflexivity].
Qed.

(** [if s.strip():] holds exactly when [s] has a character that is not
    whitespace. *)
Lemma has_text_not_blank (s : Py.str) : has_text s = negb (blank s).
Proof.
  unfold has_text, Py.strip, Py.rstrip.
  rewrite truthy_rev, truthy_lstrip, blank_rev.
  rewrite !blank_filter, lstrip_filter. reflexivity.
Qed.

End Strip.

(* ===================================================================== *)
(** ** Loops that cannot raise *)
(* ===================================================================== *)

(** A loop that appends the image of the elements it keeps. *)
Lemma for_each_collect {A B : Type} (body : A -> list B -> Py.exc (list B))
  (keep : A -> bool) (f : A -> B) (xs : list A) :
  (forall x acc, body x acc = Py.Val (if keep x then acc ++ [f x] else acc)) ->
  forall acc, Py.for_each xs body acc = Py.Val (acc ++ map f (filter keep xs)).
Proof.
  intros H. induction xs as [|x xs IH]; intros acc; simpl.
  - rewrite app_nil_r. reflexivity.
  - rewrite H. simpl. rewrite IH.
    destruct (keep x); simpl; [rewrite <- app_assoc|]; reflexivity.
Qed.

(* ===================================================================== *)
(** ** The records, loop by loop *)
(* ===================================================================== *)

(** [get_font_properties] returns, and returns the closed form. *)
Lemma get_font_properties_eq (run : Run.t) :
  get_font_properties run = Py.Val (font_properties_of run).
Proof.
  unfold get_font_properties, font_properties_of, extract_color, read_rgb,
    resolved_color.
  destruct (Font.color (Run.font run)) as [[cf|]|[m|c m]]; simpl;
    try reflexivity.
  destruct (ColorFormat.rgb cf) as [[x|]|e]; simpl; try reflexivity.
  destruct (rgb_truth x); reflexivity.
Qed.

Lemma run_step_eq (run : Run.t) (acc : list RunRecord.t) :
  run_step run acc
  = Py.Val (if run_has_text run then acc ++ [run_record_of run] else acc).
Proof.
  unfold run_step, run_has_text. rewrite get_font_properties_eq.
  destruct (has_text (Run.text run)); reflexivity.
Qed.

Lemma extract_runs_eq (runs : list Run.t) :
  extract_runs runs = Py.Val (run_records_of runs).
Proof.
  unfold extract_runs, run_records_of.
  rewrite (for_each_collect run_step run_has_text run_record_of runs run_step_eq).
  reflexivity.
Qed.

Lemma paragraph_record_eq (p : Paragraph.t) :
  paragraph_record p = Py.Val (paragraph_record_of p).
Proof. unfold paragraph_record. rewrite extract_runs_eq. reflexivity. Qed.

Lemma body_paragraph_record_eq (p : Paragraph.t) :
  body_paragraph_record p
  = Py.bind (list_level p) (fun _ => Py.Val (body_record_of p)).
Proof.
  unfold body_paragraph_record, body_record_of, level_of.
  rewrite extract_runs_eq.
  destruct (list_level p); reflexivity.
Qed.

(** Line 106 raises in one case only: a numbered paragraph whose [numPr] has
    no [ilvl]. *)
Lemma level_ok_iff (p : Paragraph.t) :
  level_ok p = false <->
  Paragraph.has_numbering p = true /\
  exists pPr numPr, Paragraph.pPr p = Some pPr /\ CT_PPr.numPr pPr = Some numPr
                    /\ CT_NumPr.ilvl numPr = None.
Proof.
  unfold level_ok, list_level.
  destruct (Paragraph.has_numbering p).
  - destruct (Paragraph.pPr p) as [pPr|].
    + destruct (CT_PPr.numPr pPr) as [numPr|] eqn:E1.
      * destruct (CT_NumPr.ilvl numPr) as [v|] eqn:E2; simpl.
        -- split; [discriminate|].
           intros [_ (a & b & Ha & Hb & Hc)]. injection Ha as <-.
           rewrite E1 in Hb. injection Hb as <-. rewrite E2 in Hc. discriminate.
        -- split; [|reflexivity]. intros _. split; [reflexivity|].
           exists pPr, numPr. auto.
      * simpl. split; [discriminate|].
        intros [_ (a & b & Ha & Hb & _)]. injection Ha as <-.
        rewrite E1 in Hb. discriminate.
    + simpl. split; [discriminate|]. intros [_ (a & b & Ha & _)]. discriminate.
  - simpl. split; [discriminate|]. intros [H _]. discriminate.
Qed.

(** *** Appending to the fields of [content] *)

Lemma extend_nil c : extend c [] [] [] [] = c.
Proof. destruct c. unfold extend. simpl. rewrite !app_nil_r. reflexivity. Qed.

Lemma extend_extend c ps ts hs ls ps' ts' hs' ls' :
  extend (extend c ps ts hs ls) ps' ts' hs' ls'
  = extend c (ps ++ ps') (ts ++ ts') (hs ++ hs') (ls ++ ls').
Proof. unfold extend. simpl. rewrite !app_assoc. reflexivity. Qed.

Lemma append_header_extend c h :
  DocumentContent.append_header c h = extend c [] [] [h] [].
Proof.
  unfold DocumentContent.append_header, extend. rewrite !app_nil_r. reflexivity.
Qed.

Lemma append_paragraph_extend c p :
  DocumentContent.append_paragraph c p = extend c [p] [] [] [].
Proof.
  unfold DocumentContent.append_paragraph, extend. rewrite !app_nil_r. reflexivity.
Qed.

Lemma append_list_extend c l :
  DocumentContent.append_list c l = extend c [] [] [] [l].
Proof.
  unfold DocumentContent.append_list, extend. rewrite !app_nil_r. reflexivity.
Qed.

Lemma append_table_extend c t :
  DocumentContent.append_table c t = extend c [] [t] [] [].
Proof.
  unfold DocumentContent.append_table, extend. rewrite !app_nil_r. reflexivity.
Qed.

(** *** Headers *)

Lemma header_paragraphs_loop (ps : list Paragraph.t) (c : DocumentContent.t) :
  Py.for_each ps header_paragraph_step c
  = Py.Val (extend c [] [] (map paragraph_record_of (filter paragraph_has_text ps)) []).
Proof.
  revert c. induction ps as [|p ps IH]; intros c; simpl.
  - rewrite extend_nil. reflexivity.
  - unfold header_paragraph_step at 1. fold (paragraph_has_text p).
    destruct (paragraph_has_text p); simpl.
    + rewrite paragraph_record_eq. simpl. rewrite IH, append_header_extend, extend_extend.
      reflexivity.
    + apply IH.
Qed.

Lemma sections_loop (ss : list Section_.t) (c : DocumentContent.t) :
  Py.for_each ss section_step c
  = Py.Val (extend c [] []
      (map paragraph_record_of
         (filter paragraph_has_text
            (flat_map (fun s => match Section_.header s with
                                | Some ps => ps
                                | None => []
                                end) ss))) []).
Proof.
  revert c. induction ss as [|s ss IH]; intros c; simpl.
  - rewrite extend_nil. reflexivity.
  - unfold section_step at 1. destruct (Section_.header s) as [ps|]; simpl.
    + rewrite header_paragraphs_loop. simpl. rewrite IH, extend_extend.
      rewrite filter_app, map_app. reflexivity.
    + apply IH.
Qed.

(** *** Tables *)

Lemma cell_paragraph_step_eq (p : Paragraph.t) (acc : list ParagraphRecord.t) :
  cell_paragraph_step p acc
  = Py.Val (if paragraph_has_text p then acc ++ [paragraph_record_of p] else acc).
Proof.
  unfold cell_paragraph_step, paragraph_has_text. rewrite paragraph_record_eq.
  destruct (has_text (Paragraph.text p)); reflexivity.
Qed.

Lemma cell_step_eq (cell : Cell.t) (acc : list CellRecord.t) :
  cell_step cell acc = Py.Val (acc ++ [cell_record_of cell]).
Proof.
  unfold cell_step.
  rewrite (for_each_collect cell_paragraph_step paragraph_has_text
             paragraph_record_of (Cell.paragraphs cell) cell_paragraph_step_eq).
  reflexivity.
Qed.

Lemma filter_true {A} (l : list A) : filter (fun _ => true) l = l.
Proof. induction l as [|x l IH]; simpl; [|rewrite IH]; reflexivity. Qed.

Lemma row_step_eq (cells : list Cell.t) (acc : list (list CellRecord.t)) :
  row_step cells acc = Py.Val (acc ++ [map cell_record_of cells]).
Proof.
  unfold row_step.
  rewrite (for_each_collect cell_step (fun _ => true) cell_record_of cells cell_step_eq).
  rewrite filter_true. reflexivity.
Qed.

Lemma rows_loop (rows : list (list Cell.t)) :
  Py.for_each rows row_step [] = Py.Val (map (map cell_record_of) rows).
Proof.
  rewrite (for_each_collect row_step (fun _ => true) (map cell_record_of) rows row_step_eq).
  rewrite filter_true. reflexivity.
Qed.

(** Line 170 on the records is the test on the cells of the table. *)
Lemma any_cell_text_records (rows : list (list Cell.t)) :
  any_cell_text (map (map cell_record_of) rows)
  = existsb (existsb (fun cell => has_text (Cell.text cell))) rows.
Proof.
  unfold any_cell_text.
  induction rows as [|row rows IH]; simpl; [reflexivity|].
  rewrite IH. f_equal.
  induction row as [|cell row IHr]; simpl; [reflexivity|].
  rewrite IHr. reflexivity.
Qed.

Lemma table_step_eq (table : Table.t) (c : DocumentContent.t) :
  table_step table c
  = Py.Val (if table_has_text table
            then DocumentContent.append_table c (table_record_of table) else c).
Proof.
  unfold table_step. rewrite rows_loop. simpl.
  rewrite any_cell_text_records. fold (table_has_text table).
  destruct (table_has_text table); reflexivity.
Qed.

Lemma tables_loop (ts : list Table.t) (c : DocumentContent.t) :
  Py.for_each ts table_step c
  = Py.Val (extend c [] (map table_record_of (filter table_has_text ts)) [] []).
Proof.
  revert c. induction ts as [|t ts IH]; intros c; simpl.
  - rewrite extend_nil. reflexivity.
  - rewrite table_step_eq. simpl. rewrite IH.
    destruct (table_has_text t); simpl; [|reflexivity].
    rewrite append_table_extend, extend_extend. reflexivity.
Qed.

(** *** Body paragraphs *)

Lemma body_step_skip (p : Paragraph.t) (st : BodyState) :
  paragraph_has_text p = false -> body_step p st = Py.Val st.
Proof. unfold body_step, paragraph_has_text. intros ->. reflexivity. Qed.

Lemma body_step_keep (p : Paragraph.t) (st : BodyState) :
  paragraph_has_text p = true ->
  body_step p st
  = Py.bind (list_level p) (fun _ => Py.Val (file_paragraph (body_record_of p) st)).
Proof.
  unfold body_step, paragraph_has_text. intros ->.
  rewrite body_paragraph_record_eq.
  destruct (list_level p) as [l|e]; simpl; [|reflexivity].
  unfold file_paragraph.
  cbn [BodyParagraphRecord.is_list_item body_record_of].
  destruct (is_list_item p); [reflexivity|].
  destruct st as [c [cl|] li]; reflexivity.
Qed.

(** The loop over the body returns when line 106 does on every kept
    paragraph, and then files their records one after the other. *)
Lemma body_loop_ok (ps : list Paragraph.t) (st : BodyState) :
  forallb level_ok (filter paragraph_has_text ps) = true ->
  Py.for_each ps body_step st
  = Py.Val (fold_left (fun st r => file_paragraph r st)
              (map body_record_of (filter paragraph_has_text ps)) st).
Proof.
  revert st. induction ps as [|p ps IH]; intros st H; simpl; [reflexivity|].
  simpl in H. destruct (paragraph_has_text p) eqn:E; simpl in *.
  - apply andb_true_iff in H. destruct H as [Hp H].
    rewrite (body_step_keep _ _ E). unfold level_ok in Hp.
    destruct (list_level p); [|discriminate]. simpl. apply IH. exact H.
  - rewrite (body_step_skip _ _ E). simpl. apply IH. exact H.
Qed.

Lemma body_loop_raises (ps : list Paragraph.t) (st : BodyState) :
  forallb level_ok (filter paragraph_has_text ps) = false ->
  exists e, Py.for_each ps body_step st = Py.Raise e.
Proof.
  revert st. induction ps as [|p ps IH]; intros st H; simpl in *; [discriminate|].
  destruct (paragraph_has_text p) eqn:E; simpl in *.
  - rewrite (body_step_keep _ _ E). unfold level_ok in H.
    destruct (list_level p) as [l|e]; simpl in *.
    + apply IH. exact H.
    + exists e. reflexivity.
  - rewrite (body_step_skip _ _ E). simpl. apply IH. exact H.
Qed.

(** Filing records from a consistent state: the paragraphs that are no list
    items go to [paragraphs], and [lists] receives the maximal runs of list
    items, the first one continuing the items already gathered. *)
Lemma file_paragraphs (rs : list BodyParagraphRecord.t) (st : BodyState) :
  state_ok st ->
  flush_list (fold_left (fun st r => file_paragraph r st) rs st)
  = extend (content st)
      (filter (fun r => negb (BodyParagraphRecord.is_list_item r)) rs) [] []
      (runs_from BodyParagraphRecord.is_list_item (list_items st) rs).
Proof.
  revert st. induction rs as [|r rs IH]; intros st Hok; simpl.
  - unfold flush_list, state_ok in *.
    destruct (list_items st) as [|i is_]; simpl.
    + rewrite extend_nil. reflexivity.
    + rewrite append_list_extend. reflexivity.
  - unfold state_ok in Hok. unfold file_paragraph at 2.
    destruct (BodyParagraphRecord.is_list_item r) eqn:E; simpl.
    + rewrite IH; [reflexivity|].
      unfold state_ok. simpl.
      destruct (current_list st); destruct (list_items st); simpl; auto.
    + destruct (current_list st) as [cl|] eqn:Ec;
        destruct (list_items st) as [|i is_] eqn:El; try contradiction.
      * rewrite IH by exact I. simpl.
        rewrite append_paragraph_extend, append_list_extend, !extend_extend.
        reflexivity.
      * rewrite IH by (unfold state_ok; simpl; exact I). simpl.
        rewrite append_paragraph_extend, extend_extend. reflexivity.
Qed.

(* ===================================================================== *)
(** ** Maximal runs *)
(* ===================================================================== *)

Section MaximalRunsFacts.
Context {A : Type} (is_item : A -> bool).

Lemma runs_from_split (current l1 l2 : list A) (x : A) :
  is_item x = false ->
  runs_from is_item current (l1 ++ x :: l2)
  = runs_from is_item current l1 ++ maximal_runs is_item l2.
Proof.
  intros Hx. revert current.
  induction l1 as [|y l1 IH]; intros current; simpl.
  - rewrite Hx. reflexivity.
  - destruct (is_item y).
    + apply IH.
    + rewrite IH, app_assoc. reflexivity.
Qed.

Lemma runs_from_all_items (current l : list A) :
  forallb is_item l = true ->
  runs_from is_item current l = close_run (current ++ l).
Proof.
  revert current. induction l as [|x l IH]; intros current H; simpl in *.
  - rewrite app_nil_r. reflexivity.
  - apply andb_true_iff in H. destruct H as [Hx H]. rewrite Hx.
    rewrite IH by exact H. rewrite <- app_assoc. reflexivity.
Qed.

Lemma concat_close_run (current : list A) : List.concat (close_run current) = current.
Proof. destruct current; simpl; [|rewrite app_nil_r]; reflexivity. Qed.

(** The runs, put end to end, are the items in their order. *)
Lemma concat_runs_from (current l : list A) :
  List.concat (runs_from is_item current l) = current ++ filter is_item l.
Proof.
  revert current. induction l as [|x l IH]; intros current; simpl.
  - rewrite concat_close_run, app_nil_r. reflexivity.
  - destruct (is_item x).
    + rewrite IH, <- app_assoc. reflexivity.
    + rewrite concat_app, concat_close_run, IH. reflexivity.
Qed.

Lemma Forall_close_run (P : list A -> Prop) (current : list A) :
  (current <> [] -> P current) -> Forall P (close_run current).
Proof.
  destruct current as [|c r]; simpl; intros H; constructor.
  - apply H. discriminate.
  - constructor.
Qed.

(** Every run is a non-empty sequence of items. *)
Lemma runs_from_groups (current l : list A) :
  forallb is_item current = true ->
  Forall (fun g => g <> [] /\ forallb is_item g = true)
         (runs_from is_item current l).
Proof.
  revert current. induction l as [|x l IH]; intros current H; simpl.
  - apply Forall_close_run. auto.
  - destruct (is_item x) eqn:E.
    + apply IH. rewrite forallb_app, H. simpl. rewrite E. reflexivity.
    + apply Forall_app. split.
      * apply Forall_close_run. auto.
      * apply IH. reflexivity.
Qed.

Lemma length_close_run (current : list A) :
  map (@List.length A) (close_run current)
  = match List.length current with O => [] | S _ => [List.length current] end.
Proof. destruct current; reflexivity. Qed.

(** The number of runs and the length of each depend on the sequence of
    classifications alone. *)
Lemma runs_from_shape (current l : list A) :
  map (@List.length A) (runs_from is_item current l)
  = run_lengths (List.length current) (map is_item l).
Proof.
  revert current. induction l as [|x l IH]; intros current; simpl.
  - apply length_close_run.
  - destruct (is_item x).
    + rewrite IH, length_app. simpl. rewrite Nat.add_1_r. reflexivity.
    + rewrite map_app, length_close_run, IH. reflexivity.
Qed.

End MaximalRunsFacts.

(** Runs of images are the images of the runs. *)
Lemma runs_from_map {A B : Type} (f : A -> B) (q : B -> bool) (current l : list A) :
  runs_from q (map f current) (map f l)
  = map (map f) (runs_from (fun a => q (f a)) current l).
Proof.
  revert current. induction l as [|x l IH]; intros current; simpl.
  - destruct current; reflexivity.
  - destruct (q (f x)).
    + rewrite <- IH, map_app. reflexivity.
    + rewrite map_app, <- (IH []). destruct current; reflexivity.
Qed.

(* ===================================================================== *)
(** ** [extract_docx_content], as a whole *)
(* ===================================================================== *)

Section ExtractionFacts.
Variable Document : Py.str -> Py.exc Document.t.

Lemma extract_docx_content_ok (docx_path : Py.str) (doc : Document.t) :
  Document docx_path = Py.Val doc ->
  levels_ok doc = true ->
  extract_docx_content Document docx_path = Py.Val (content_of docx_path doc).
Proof.
  intros HD Hl. unfold extract_docx_content. rewrite HD. simpl.
  rewrite sections_loop. simpl.
  rewrite body_loop_ok by exact Hl. simpl.
  rewrite file_paragraphs by exact I. simpl.
  rewrite tables_loop. simpl.
  unfold content_of, extend, kept_paragraphs, header_paragraphs, maximal_runs. simpl.
  rewrite !app_nil_r.
  rewrite filter_map_swap.
  rewrite (runs_from_map body_record_of BodyParagraphRecord.is_list_item [] _).
  reflexivity.
Qed.

Lemma extract_docx_content_raises (docx_path : Py.str) (doc : Document.t) :
  Document docx_path = Py.Val doc ->
  levels_ok doc = false ->
  exists e, extract_docx_content Document docx_path = Py.Raise e.
Proof.
  intros HD Hl. unfold extract_docx_content. rewrite HD. simpl.
  rewrite sections_loop. simpl.
  destruct (body_loop_raises (Document.paragraphs doc)
              {| content := extend
                   {| DocumentContent.paragraphs := [];
                      DocumentContent.tables := [];
                      DocumentContent.headers := [];
                      DocumentContent.document_name := Posix.basename docx_path;
                      DocumentContent.lists := [] |} [] []
                   (map paragraph_record_of
                      (filter paragraph_has_text
                         (flat_map (fun s => match Section_.header s with
                                             | Some ps => ps
                                             | None => []
                                             end) (Document.sections doc)))) [];
                 current_list := None; list_items := [] |} Hl) as [e He].
  rewrite He. exists e. reflexivity.
Qed.

(** A returned record is the closed form of a document the parser returned. *)
Lemma extract_docx_content_returns (docx_path : Py.str) (c : DocumentContent.t) :
  extract_docx_content Document docx_path = Py.Val c ->
  exists doc, Document docx_path = Py.Val doc /\ levels_ok doc = true
              /\ c = content_of docx_path doc.
Proof.
  intros H. destruct (Document docx_path) as [doc|e] eqn:HD.
  - exists doc. split; [reflexivity|].
    destruct (levels_ok doc) eqn:Hl.
    + rewrite (extract_docx_content_ok HD Hl) in H. injection H as <-. auto.
    + destruct (extract_docx_content_raises HD Hl) as [e He].
      rewrite He in H. discriminate.
  - unfold extract_docx_content in H. rewrite HD in H. discriminate.
Qed.

End ExtractionFacts.

(** *** Where the records of a returned content come from *)

Lemma body_records_of (docx_path : Py.str) (doc : Document.t) (r : BodyParagraphRecord.t) :
  In r (body_records (content_of docx_path doc)) ->
  exists p, In p (Document.paragraphs doc) /\ paragraph_has_text p = true
            /\ r = body_record_of p.
Proof.
  unfold body_records, content_of, kept_paragraphs, maximal_runs. simpl.
  rewrite <- concat_map, concat_runs_from. simpl.
  rewrite <- map_app. intros H.
  apply in_map_iff in H. destruct H as (p & <- & H).
  exists p. apply in_app_or in H.
  destruct H as [H|H]; apply filter_In in H; destruct H as [H _];
    apply filter_In in H; destruct H; auto.
Qed.

Lemma cell_records_of (docx_path : Py.str) (doc : Document.t) (cr : CellRecord.t) :
  In cr (cell_records (content_of docx_path doc)) ->
  exists cell, cr = cell_record_of cell.
Proof.
  unfold cell_records, content_of. simpl. intros H.
  apply in_flat_map in H. destruct H as (t & Ht & H).
  apply in_map_iff in Ht. destruct Ht as (tb & <- & _).
  simpl in H. apply in_concat in H. destruct H as (row & Hrow & H).
  apply in_map_iff in Hrow. destruct Hrow as (cells & <- & _).
  apply in_map_iff in H. destruct H as (cell & <- & _).
  exists cell. reflexivity.
Qed.

Lemma paragraph_records_of (docx_path : Py.str) (doc : Document.t) (r : ParagraphRecord.t) :
  In r (paragraph_records (content_of docx_path doc)) ->
  exists p, paragraph_has_text p = true /\ r = paragraph_record_of p.
Proof.
  unfold paragraph_records. intros H. apply in_app_or in H. destruct H as [H|H].
  - unfold content_of in H. simpl in H.
    apply in_map_iff in H. destruct H as (p & <- & H).
    apply filter_In in H. destruct H. exists p. auto.
  - apply in_flat_map in H. destruct H as (cr & Hcr & H).
    apply cell_records_of in Hcr. destruct Hcr as (cell & ->).
    simpl in H. apply in_map_iff in H. destruct H as (p & <- & H).
    apply filter_In in H. destruct H. exists p. auto.
Qed.

Lemma kept_text_not_blank (s : Py.str) :
  has_text s = true -> blank (Py.strip s) = false.
Proof.
  rewrite blank_strip, has_text_not_blank. destruct (blank s); [discriminate | reflexivity].
Qed.

Lemma run_records_not_blank (runs : list Run.t) (rr : RunRecord.t) :
  In rr (run_records_of runs) -> blank (RunRecord.text rr) = false.
Proof.
  unfold run_records_of. intros H.
  apply in_map_iff in H. destruct H as (run & <- & H).
  apply filter_In in H. destruct H as [_ H]. simpl.
  unfold run_has_text in H. rewrite has_text_not_blank in H.
  destruct (blank (Run.text run)); [discriminate | reflexivity].
Qed.

(* ===================================================================== *)
(** ** Properties of [extract_docx_content] *)
(* ===================================================================== *)

Lemma sample_extraction :
  extract_docx_content Sample.Document (Py.lit "a.docx") = Py.Val Sample.content.
Proof. vm_compute. reflexivity. Qed.

Lemma cell_records_content_of (docx_path : Py.str) (doc : Document.t) :
  cell_records (content_of docx_path doc)
  = map cell_record_of
      (flat_map (fun t => List.concat (Table.rows t))
                (filter table_has_text (Document.tables doc))).
Proof.
  unfold cell_records, content_of. simpl.
  induction (filter table_has_text (Document.tables doc)) as [|t ts IH]; simpl.
  - reflexivity.
  - rewrite IH, map_app, concat_map. reflexivity.
Qed.

(** C1, as stated, fails: the record extracted from [Sample.doc], whose
    first table has the cells ["x"] and [""], holds a [CellRecord] whose
    text is empty. *)
Lemma blank_cell_record_in_output :
  exists c,
    extract_docx_content Sample.Document (Py.lit "a.docx") = Py.Val c
    /\ In (Py.lit "") (cell_texts c)
    /\ blank (Py.lit "") = true.
Proof.
  exists Sample.content. split; [exact sample_extraction|].
  split; [|reflexivity].
  vm_compute. right. left. reflexivity.
Qed.

(** C1, amended: in the record [extract_docx_content] returns, no
    paragraph record (body paragraph, list item, header or cell paragraph)
    and no run record has a text that is empty or only whitespace; cells
    are not filtered: every cell of a retained table has its [CellRecord],
    whatever its text. *)
Theorem no_blank_paragraph_or_run
  (Document : Py.str -> Py.exc Document.t) (docx_path : Py.str)
  (c : DocumentContent.t) :
  extract_docx_content Document docx_path = Py.Val c ->
  Forall (fun s => blank s = false) (paragraph_texts c)
  /\ Forall (fun s => blank s = false) (run_texts c)
  /\ exists doc, Document docx_path = Py.Val doc
       /\ cell_records c
          = map cell_record_of
              (flat_map (fun t => List.concat (Table.rows t))
                        (filter table_has_text (Document.tables doc))).
Proof.
  intros H. apply extract_docx_content_returns in H.
  destruct H as (doc & HD & _ & ->).
  split; [|split].
  - unfold paragraph_texts. apply Forall_app. split; apply Forall_forall; intros s Hs;
      apply in_map_iff in Hs; destruct Hs as (r & <- & Hr).
    + apply body_records_of in Hr. destruct Hr as (p & _ & Hp & ->).
      apply kept_text_not_blank. exact Hp.
    + apply paragraph_records_of in Hr. destruct Hr as (p & Hp & ->).
      apply kept_text_not_blank. exact Hp.
  - unfold run_texts. apply Forall_forall. intros s Hs.
    apply in_map_iff in Hs. destruct Hs as (rr & <- & Hrr).
    apply in_app_or in Hrr. destruct Hrr as [Hrr|Hrr];
      apply in_flat_map in Hrr; destruct Hrr as (r & Hr & Hrr).
    + apply body_records_of in Hr. destruct Hr as (p & _ & _ & ->).
      exact (run_records_not_blank _ _ Hrr).
    + apply paragraph_records_of in Hr. destruct Hr as (p & _ & ->).
      exact (run_records_not_blank _ _ Hrr).
  - exists doc. split; [exact HD | apply cell_records_content_of].
Qed.

Lemma no_blank_paragraph_or_run_witness :
  Forall (fun s => blank s = false) (paragraph_texts Sample.content)
  /\ Forall (fun s => blank s = false) (run_texts Sample.content)
  /\ exists doc, Sample.Document (Py.lit "a.docx") = Py.Val doc
       /\ cell_records Sample.content
          = map cell_record_of
              (flat_map (fun t => List.concat (Table.rows t))
                        (filter table_has_text (Document.tables doc))).
Proof.
  apply (no_blank_paragraph_or_run Sample.Document (Py.lit "a.docx")).
  vm_compute. reflexivity.
Defined.

(** C2, as stated, fails: in [Sample.doc] the list items ["c"] and ["d"] are
    separated by an empty paragraph of style [Normal], so the body holds
    three maximal runs of list-item paragraphs, and [lists] gets two groups:
    the empty paragraph is skipped and closes nothing. *)
Lemma blank_paragraph_does_not_close_list :
  exists c,
    extract_docx_content Sample.Document (Py.lit "a.docx") = Py.Val c
    /\ List.length (maximal_runs is_list_item (Document.paragraphs Sample.doc)) = 3
    /\ List.length (DocumentContent.lists c) = 2.
Proof.
  exists Sample.content. split; [exact sample_extraction|].
  split; vm_compute; reflexivity.
Qed.

(** C2, amended: list grouping works on the body paragraphs that have
    non-whitespace text (the others are skipped before any grouping and
    neither join nor close a group).  Over that sequence, [lists] is the
    sequence of the maximal runs of consecutive list items, one group per
    run and in order: a non-list paragraph splits the groups before it from
    the groups after it, a sequence of list items alone is one group, every
    group is a non-empty sequence of list items, and the number and lengths
    of the groups depend on the is-list-item classification of the sequence
    alone. *)
Theorem lists_are_maximal_runs
  (Document : Py.str -> Py.exc Document.t) (docx_path : Py.str)
  (c : DocumentContent.t) :
  extract_docx_content Document docx_path = Py.Val c ->
  exists doc, Document docx_path = Py.Val doc /\
    let kept := kept_paragraphs doc in
    DocumentContent.lists c
      = map (map body_record_of) (maximal_runs is_list_item kept)
    /\ (forall before p after,
          kept = before ++ p :: after -> is_list_item p = false ->
          DocumentContent.lists c
          = map (map body_record_of)
              (maximal_runs is_list_item before ++ maximal_runs is_list_item after))
    /\ (kept <> [] -> forallb is_list_item kept = true ->
        DocumentContent.lists c = [map body_record_of kept])
    /\ Forall (fun g => g <> []
                 /\ forallb BodyParagraphRecord.is_list_item g = true)
              (DocumentContent.lists c)
    /\ map (@List.length _) (DocumentContent.lists c)
       = run_lengths 0 (map is_list_item kept).
Proof.
  intros H. apply extract_docx_content_returns in H.
  destruct H as (doc & HD & _ & ->).
  exists doc. split; [exact HD|]. cbv zeta.
  split; [reflexivity|]. split; [|split; [|split]].
  - intros before p after Hk Hp. unfold content_of. simpl.
    rewrite Hk. unfold maximal_runs at 1.
    rewrite (runs_from_split is_list_item [] before after p Hp). reflexivity.
  - intros Hne Hall. unfold content_of. simpl. unfold maximal_runs.
    rewrite (runs_from_all_items is_list_item [] _ Hall). simpl.
    destruct (kept_paragraphs doc); [contradiction|reflexivity].
  - unfold content_of. simpl. unfold maximal_runs.
    rewrite <- (runs_from_map body_record_of BodyParagraphRecord.is_list_item [] _).
    apply runs_from_groups. reflexivity.
  - unfold content_of. simpl. unfold maximal_runs.
    rewrite <- (runs_from_map body_record_of BodyParagraphRecord.is_list_item [] _).
    rewrite runs_from_shape, map_map. reflexivity.
Qed.

Lemma lists_are_maximal_runs_witness :
  exists doc, Sample.Document (Py.lit "a.docx") = Py.Val doc /\
    let kept := kept_paragraphs doc in
    DocumentContent.lists Sample.content
      = map (map body_record_of) (maximal_runs is_list_item kept)
    /\ (forall before p after,
          kept = before ++ p :: after -> is_list_item p = false ->
          DocumentContent.lists Sample.content
          = map (map body_record_of)
              (maximal_runs is_list_item before ++ maximal_runs is_list_item after))
    /\ (kept <> [] -> forallb is_list_item kept = true ->
        DocumentContent.lists Sample.content = [map body_record_of kept])
    /\ Forall (fun g => g <> []
                 /\ forallb BodyParagraphRecord.is_list_item g = true)
              (DocumentContent.lists Sample.content)
    /\ map (@List.length _) (DocumentContent.lists Sample.content)
       = run_lengths 0 (map is_list_item kept).
Proof.
  apply (lists_are_maximal_runs Sample.Document (Py.lit "a.docx")).
  vm_compute. reflexivity.
Defined.

(** The test of line 170, cell by cell. *)
Lemma table_has_text_iff (t : Table.t) :
  table_has_text t = true <->
  exists row cell, In row (Table.rows t) /\ In cell row
                   /\ Py.strip (Cell.text cell) <> [].
Proof.
  unfold table_has_text. rewrite existsb_exists. split.
  - intros (row & Hrow & H). apply existsb_exists in H.
    destruct H as (cell & Hcell & H). exists row, cell.
    split; [exact Hrow|]. split; [exact Hcell|].
    unfold has_text in H. destruct (Py.strip (Cell.text cell)); [discriminate H|discriminate].
  - intros (row & cell & Hrow & Hcell & H). exists row. split; [exact Hrow|].
    apply existsb_exists. exists cell. split; [exact Hcell|].
    unfold has_text. destruct (Py.strip (Cell.text cell)); [contradiction|reflexivity].
Qed.

(** Whether a table is kept can be read off its record. *)
Lemma table_has_text_record (t : Table.t) :
  table_has_text t = any_cell_text (TableRecord.rows (table_record_of t)).
Proof. unfold table_has_text. simpl. rewrite any_cell_text_records. reflexivity. Qed.

(** C3: [tables] holds the records of the tables that have a cell whose
    trimmed text is not empty, in document order, and nothing for the
    others; the record of a table of the document is in [tables] exactly
    when one of its cells has non-empty trimmed text. *)
Theorem tables_kept_iff_text
  (Document : Py.str -> Py.exc Document.t) (docx_path : Py.str)
  (c : DocumentContent.t) :
  extract_docx_content Document docx_path = Py.Val c ->
  exists doc, Document docx_path = Py.Val doc
    /\ DocumentContent.tables c
       = map table_record_of (filter table_has_text (Document.tables doc))
    /\ forall t, In t (Document.tables doc) ->
         (In (table_record_of t) (DocumentContent.tables c) <->
          exists row cell, In row (Table.rows t) /\ In cell row
                           /\ Py.strip (Cell.text cell) <> []).
Proof.
  intros H. apply extract_docx_content_returns in H.
  destruct H as (doc & HD & _ & ->).
  exists doc. split; [exact HD|]. split; [reflexivity|].
  intros t Ht. rewrite <- table_has_text_iff. unfold content_of. simpl. split.
  - intros H. apply in_map_iff in H. destruct H as (t' & Heq & H').
    apply filter_In in H'. destruct H' as [_ H'].
    rewrite table_has_text_record, <- Heq, <- table_has_text_record. exact H'.
  - intros H. apply in_map. apply filter_In. auto.
Qed.

Lemma tables_kept_iff_text_witness :
  exists doc, Sample.Document (Py.lit "a.docx") = Py.Val doc
    /\ DocumentContent.tables Sample.content
       = map table_record_of (filter table_has_text (Document.tables doc))
    /\ forall t, In t (Document.tables doc) ->
         (In (table_record_of t) (DocumentContent.tables Sample.content) <->
          exists row cell, In row (Table.rows t) /\ In cell row
                           /\ Py.strip (Cell.text cell) <> []).
Proof.
  apply (tables_kept_iff_text Sample.Document (Py.lit "a.docx")).
  vm_compute. reflexivity.
Defined.

(** Splitting a list by a test loses and repeats nothing. *)
Lemma partition_permutation {A : Type} (q : A -> bool) (l : list A) :
  Permutation (filter (fun x => negb (q x)) l ++ filter q l) l.
Proof.
  induction l as [|x l IH]; simpl; [constructor|].
  destruct (q x); simpl.
  - apply Permutation_sym, Permutation_cons_app, Permutation_sym, IH.
  - constructor. exact IH.
Qed.

(** C9: the body paragraphs with non-whitespace text are split between
    [paragraphs] (those that are no list items, in document order) and the
    groups of [lists] (the list items, in document order); each has one
    record in the output (the records of the two fields together are a
    permutation of the records of these paragraphs), and no record is in
    both fields: [is_list_item] is false all over [paragraphs] and true all
    over [lists]. *)
Theorem body_paragraphs_once
  (Document : Py.str -> Py.exc Document.t) (docx_path : Py.str)
  (c : DocumentContent.t) :
  extract_docx_content Document docx_path = Py.Val c ->
  exists doc, Document docx_path = Py.Val doc /\
    let kept := kept_paragraphs doc in
    DocumentContent.paragraphs c
      = map body_record_of (filter (fun p => negb (is_list_item p)) kept)
    /\ List.concat (DocumentContent.lists c)
       = map body_record_of (filter is_list_item kept)
    /\ Permutation
         (DocumentContent.paragraphs c ++ List.concat (DocumentContent.lists c))
         (map body_record_of kept)
    /\ Forall (fun r => BodyParagraphRecord.is_list_item r = false)
              (DocumentContent.paragraphs c)
    /\ Forall (fun r => BodyParagraphRecord.is_list_item r = true)
              (List.concat (DocumentContent.lists c)).
Proof.
  intros H. apply extract_docx_content_returns in H.
  destruct H as (doc & HD & _ & ->).
  exists doc. split; [exact HD|]. cbv zeta.
  assert (Hl : List.concat (DocumentContent.lists (content_of docx_path doc))
               = map body_record_of (filter is_list_item (kept_paragraphs doc))).
  { unfold content_of. simpl. unfold maximal_runs.
    rewrite <- concat_map, concat_runs_from. reflexivity. }
  split; [reflexivity|]. split; [exact Hl|]. split; [|split].
  - rewrite Hl. unfold content_of. simpl. rewrite <- map_app.
    apply Permutation_map, partition_permutation.
  - unfold content_of. simpl. apply Forall_forall. intros r Hr.
    apply in_map_iff in Hr. destruct Hr as (p & <- & Hp).
    apply filter_In in Hp. destruct Hp as [_ Hp]. simpl.
    destruct (is_list_item p); [discriminate | reflexivity].
  - rewrite Hl. apply Forall_forall. intros r Hr.
    apply in_map_iff in Hr. destruct Hr as (p & <- & Hp).
    apply filter_In in Hp. destruct Hp as [_ Hp]. exact Hp.
Qed.

Lemma body_paragraphs_once_witness :
  exists doc, Sample.Document (Py.lit "a.docx") = Py.Val doc /\
    let kept := kept_paragraphs doc in
    DocumentContent.paragraphs Sample.content
      = map body_record_of (filter (fun p => negb (is_list_item p)) kept)
    /\ List.concat (DocumentContent.lists Sample.content)
       = map body_record_of (filter is_list_item kept)
    /\ Permutation
         (DocumentContent.paragraphs Sample.content
          ++ List.concat (DocumentContent.lists Sample.content))
         (map body_record_of kept)
    /\ Forall (fun r => BodyParagraphRecord.is_list_item r = false)
              (DocumentContent.paragraphs Sample.content)
    /\ Forall (fun r => BodyParagraphRecord.is_list_item r = true)
              (List.concat (DocumentContent.lists Sample.content)).
Proof.
  apply (body_paragraphs_once Sample.Document (Py.lit "a.docx")).
  vm_compute. reflexivity.
Defined.

(** The texts of the run records are the texts of the kept runs. *)
Lemma run_records_texts (runs : list Run.t) :
  map RunRecord.text (run_records_of runs) = filter has_text (map Run.text runs).
Proof.
  unfold run_records_of. rewrite map_map. simpl.
  induction runs as [|r runs IH]; simpl; [reflexivity|].
  unfold run_has_text at 1. destruct (has_text (Run.text r)); simpl; rewrite IH; reflexivity.
Qed.

(** C10: every kept run gives its text to its [RunRecord] as it is, with
    its leading and trailing whitespace, in a header or cell paragraph as
    in a body paragraph, while the text of the paragraph record is the
    trimmed text of the paragraph. *)
Theorem run_text_verbatim (p : Paragraph.t) :
  (exists r, paragraph_record p = Py.Val r
     /\ map RunRecord.text (ParagraphRecord.runs r)
        = filter has_text (map Run.text (Paragraph.runs p))
     /\ ParagraphRecord.text r = Py.strip (Paragraph.text p))
  /\ (forall b, body_paragraph_record p = Py.Val b ->
        map RunRecord.text (BodyParagraphRecord.runs b)
        = filter has_text (map Run.text (Paragraph.runs p))
        /\ BodyParagraphRecord.text b = Py.strip (Paragraph.text p))
  /\ (forall run acc, has_text (Run.text run) = true ->
        exists properties,
          run_step run acc
          = Py.Val (acc ++ [ {| RunRecord.text := Run.text run;
                                RunRecord.font_properties := properties |} ])).
Proof.
  split; [|split].
  - exists (paragraph_record_of p). split; [apply paragraph_record_eq|].
    split; [apply run_records_texts | reflexivity].
  - intros b Hb. rewrite body_paragraph_record_eq in Hb.
    destruct (list_level p); [|discriminate]. injection Hb as <-.
    split; [apply run_records_texts | reflexivity].
  - intros run acc H. exists (font_properties_of run).
    rewrite run_step_eq. unfold run_has_text. rewrite H. reflexivity.
Qed.

(** A run [" a "] keeps its spaces; its paragraph's text loses them. *)
Example run_text_verbatim_example :
  body_paragraph_record (Sample.paragraph "List Bullet" " a ")
  = Py.Val (body_record_of (Sample.paragraph "List Bullet" " a "))
  /\ map RunRecord.text
       (BodyParagraphRecord.runs (body_record_of (Sample.paragraph "List Bullet" " a ")))
     = [Py.lit " a "]
  /\ BodyParagraphRecord.text (body_record_of (Sample.paragraph "List Bullet" " a "))
     = Py.lit "a".
Proof. vm_compute. auto. Qed.

(** [s.startswith(prefix)] holds when [s] is [prefix] followed by
    something. *)
Lemma startswith_iff (s prefix : Py.str) :
  Py.startswith s prefix = true <-> exists rest, s = prefix ++ rest.
Proof.
  revert s. induction prefix as [|p prefix IH]; intros s; simpl.
  - destruct s; split; eauto.
  - destruct s as [|c s]; simpl.
    + split; [discriminate|]. intros (rest & H). discriminate.
    + rewrite andb_true_iff, N.eqb_eq, IH. split.
      * intros (-> & rest & ->). exists rest. reflexivity.
      * intros (rest & H). injection H as -> ->. split; [reflexivity|].
        exists rest. reflexivity.
Qed.

(** C5: a body paragraph is classified as a list item exactly when its
    style name is ["List"] followed by anything (code point for code point,
    so the match is case-sensitive), or the paragraph has the [numbering]
    attribute; the record of the paragraph carries that classification. *)
Theorem is_list_item_iff (para : Paragraph.t) :
  (is_list_item para = true <->
   (exists rest, Paragraph.style_name para = Py.lit "List" ++ rest)
   \/ Paragraph.has_numbering para = true)
  /\ (forall r, body_paragraph_record para = Py.Val r ->
        BodyParagraphRecord.is_list_item r = is_list_item para).
Proof.
  split.
  - unfold is_list_item. rewrite orb_true_iff, startswith_iff. reflexivity.
  - intros r Hr. rewrite body_paragraph_record_eq in Hr.
    destruct (list_level para); [|discriminate]. injection Hr as <-. reflexivity.
Qed.

(** The prefix is matched with its case: [list] and [LIST] are no list
    styles, [List Bullet 2] is one. *)
Example is_list_item_case :
  is_list_item (Sample.paragraph "list bullet" "a") = false
  /\ is_list_item (Sample.paragraph "LIST" "a") = false
  /\ is_list_item (Sample.paragraph "List Bullet 2" "a") = true
  /\ is_list_item (Sample.paragraph "Bullet List" "a") = false.
Proof. vm_compute. auto. Qed.

(* ===================================================================== *)
(** ** Properties of [get_font_properties] and [get_paragraph_format] *)
(* ===================================================================== *)

(** A run whose colour raises [ValueError] still gets its dict, [color]
    being [None]; an [RGBColor] is written as six upper-case hex digits. *)
Example get_font_properties_examples :
  get_font_properties (Sample.run_without_color "Hello")
  = Py.Val {| FontProperties.bold := Some true;
              FontProperties.italic := None;
              FontProperties.underline := None;
              FontProperties.font_size := Some (Py.lit "152400");
              FontProperties.font_name := None;
              FontProperties.all_caps := None;
              FontProperties.color := None;
              FontProperties.highlight_color := Some (Py.lit "None");
              FontProperties.subscript := None;
              FontProperties.superscript := None |}
  /\ color_string (Some (RGBColor 255 0 10)) = Py.lit "FF000A"
  /\ color_string (Some (rgb_int 255)) = Py.lit "#0000ff".
Proof. vm_compute. auto. Qed.

Lemma str_if_true_rendered {A} `{PyObject A} (x : option A) :
  rendered x (str_if_true x).
Proof. destruct x as [v|]; simpl; [|reflexivity]. intros ->. reflexivity. Qed.

(** An [int] (a [Length]) or an enumeration member is true exactly when it
    is not zero. *)
Lemma truth_int (n : Z) : truth n = true <-> n <> 0%Z.
Proof.
  simpl. rewrite negb_true_iff. split.
  - intros H ->. discriminate.
  - intros H. apply Z.eqb_neq. exact H.
Qed.

Lemma truth_enum (m : EnumMember) : truth m = true <-> member_value m <> 0%Z.
Proof. apply truth_int. Qed.

(** What the [if] makes of a value that is set but zero. *)
Lemma str_if_true_zero : str_if_true (Some 0%Z) = None.
Proof. reflexivity. Qed.

(** C6, as stated, fails: a paragraph whose alignment is set to
    [WD_ALIGN_PARAGRAPH.LEFT], the member of value 0, and whose left indent
    is set to 0, has [None] in both fields, not ["LEFT (0)"] and ["0"]. *)
Lemma zero_values_rendered_null :
  ParagraphFormat.alignment (Paragraph.paragraph_format (Sample.aligned Sample.LEFT 0))
  = Some Sample.LEFT
  /\ to_str Sample.LEFT = Py.lit "LEFT (0)"
  /\ Formatting.alignment (get_paragraph_format (Sample.aligned Sample.LEFT 0)) = None
  /\ ParagraphFormat.left_indent (Paragraph.paragraph_format (Sample.aligned Sample.LEFT 0))
     = Some 0%Z
  /\ Formatting.left_indent (get_paragraph_format (Sample.aligned Sample.LEFT 0)) = None.
Proof. vm_compute. auto. Qed.

(** C6, amended: in the dict [get_paragraph_format] returns, each of the
    seven numeric or enumeration fields is [None] when the attribute is not
    set, and the string form of the value when it is set and true, that is
    not zero; the four flags are the attributes as they are. *)
Theorem get_paragraph_format_fields (paragraph : Paragraph.t) :
  let fmt := Paragraph.paragraph_format paragraph in
  let out := get_paragraph_format paragraph in
  rendered (ParagraphFormat.alignment fmt) (Formatting.alignment out)
  /\ rendered (ParagraphFormat.first_line_indent fmt) (Formatting.first_line_indent out)
  /\ rendered (ParagraphFormat.left_indent fmt) (Formatting.left_indent out)
  /\ rendered (ParagraphFormat.right_indent fmt) (Formatting.right_indent out)
  /\ rendered (ParagraphFormat.line_spacing fmt) (Formatting.line_spacing out)
  /\ rendered (ParagraphFormat.space_before fmt) (Formatting.space_before out)
  /\ rendered (ParagraphFormat.space_after fmt) (Formatting.space_after out)
  /\ Formatting.keep_together out = ParagraphFormat.keep_together fmt
  /\ Formatting.keep_with_next out = ParagraphFormat.keep_with_next fmt
  /\ Formatting.page_break_before out = ParagraphFormat.page_break_before fmt
  /\ Formatting.widow_control out = ParagraphFormat.widow_control fmt.
Proof.
  cbv zeta. unfold get_paragraph_format. simpl.
  repeat split; apply str_if_true_rendered.
Qed.

(** A centred paragraph indented by half an inch. *)
Example get_paragraph_format_example :
  get_paragraph_format (Sample.aligned Sample.CENTER 457200)
  = {| Formatting.alignment := Some (Py.lit "CENTER (1)");
       Formatting.first_line_indent := None;
       Formatting.left_indent := Some (Py.lit "457200");
       Formatting.right_indent := None;
       Formatting.line_spacing := None;
       Formatting.space_before := None;
       Formatting.space_after := None;
       Formatting.keep_together := Some true;
       Formatting.keep_with_next := None;
       Formatting.page_break_before := Some false;
       Formatting.widow_control := None |}.
Proof. vm_compute. reflexivity. Qed.

(* ===================================================================== *)
(** ** Properties of [posixpath.splitext] *)
(* ===================================================================== *)

Lemma rfind_from_app (i found : Z) (c : Py.char) (a b : Py.str) :
  Posix.rfind_from i found c (a ++ b)
  = Posix.rfind_from (i + Z.of_nat (List.length a))
      (Posix.rfind_from i found c a) c b.
Proof.
  revert i found. induction a as [|x a IH]; intros i found; simpl List.length; simpl app.
  - simpl. rewrite Z.add_0_r. reflexivity.
  - simpl Posix.rfind_from. rewrite IH. f_equal. lia.
Qed.

Lemma rfind_from_absent (i found : Z) (c : Py.char) (p : Py.str) :
  ~ In c p -> Posix.rfind_from i found c p = found.
Proof.
  revert i found. induction p as [|x p IH]; intros i found H; simpl; [reflexivity|].
  destruct (N.eqb_spec x c) as [->|_].
  - exfalso. apply H. left. reflexivity.
  - apply IH. intros Hc. apply H. right. exact Hc.
Qed.

(** The last dot of [stem.ext], where [ext] has no dot. *)
Lemma rfind_last_dot (stem ext : Py.str) :
  ~ In Posix.extsep ext ->
  Posix.rfind Posix.extsep (stem ++ Posix.extsep :: ext)
  = Z.of_nat (List.length stem).
Proof.
  intros H. unfold Posix.rfind. rewrite rfind_from_app. simpl.
  rewrite ?N.eqb_refl. apply rfind_from_absent. exact H.
Qed.

(** The loop that skips leading dots stops at the first character of the
    stem that is no dot, and gives up when there is none. *)
Lemma skip_dots_stem (fuel : nat) (skipped rest tail : Py.str) :
  forallb (fun c => (c =? Posix.extsep)%N) skipped = true ->
  (List.length rest < fuel)%nat ->
  Posix.skip_dots fuel (skipped ++ rest ++ tail)
    (Z.of_nat (List.length skipped)) (Z.of_nat (List.length (skipped ++ rest)))
  = if forallb (fun c => (c =? Posix.extsep)%N) rest
    then (skipped ++ rest ++ tail, [])
    else (skipped ++ rest, tail).
Proof.
  revert fuel skipped. induction rest as [|x rest IH]; intros fuel skipped Hs Hf.
  - destruct fuel as [|fuel]; [inversion Hf|]. simpl.
    rewrite app_nil_r, Z.ltb_irrefl. reflexivity.
  - destruct fuel as [|fuel]; [inversion Hf|].
    assert (Hlt : (Z.of_nat (List.length skipped)
                   <? Z.of_nat (List.length (skipped ++ x :: rest)))%Z = true).
    { apply Z.ltb_lt. rewrite length_app. simpl. lia. }
    assert (Hnth : nth_error (skipped ++ (x :: rest) ++ tail)
                     (Z.to_nat (Z.of_nat (List.length skipped))) = Some x).
    { rewrite Nat2Z.id, nth_error_app2 by lia. rewrite Nat.sub_diag. reflexivity. }
    cbn [Posix.skip_dots]. rewrite Hlt, Hnth. cbn [forallb].
    destruct (x =? Posix.extsep)%N eqn:E; cbn [negb andb].
    + replace (skipped ++ (x :: rest) ++ tail) with ((skipped ++ [x]) ++ rest ++ tail)
        by (rewrite <- app_assoc; reflexivity).
      replace (skipped ++ x :: rest) with ((skipped ++ [x]) ++ rest)
        by (rewrite <- app_assoc; reflexivity).
      replace (Z.of_nat (List.length skipped) + 1)%Z
        with (Z.of_nat (List.length (skipped ++ [x])))
        by (rewrite length_app; simpl; lia).
      apply IH.
      * rewrite forallb_app. apply andb_true_iff. split; [exact Hs|].
        simpl. rewrite E. reflexivity.
      * simpl in Hf. lia.
    + unfold Posix.slice_to, Posix.slice_from. rewrite Nat2Z.id.
      rewrite app_assoc.
      rewrite firstn_app, firstn_all, Nat.sub_diag. simpl firstn. rewrite app_nil_r.
      rewrite skipn_app, skipn_all, Nat.sub_diag. reflexivity.
Qed.

(** [splitext] on a name without [/] that ends in a dot and an extension
    without dot: the extension is split off, unless nothing but dots
    precedes it. *)
Lemma splitext_stem_ext (stem ext : Py.str) :
  ~ In Posix.sep (stem ++ Posix.extsep :: ext) ->
  ~ In Posix.extsep ext ->
  Posix.splitext (stem ++ Posix.extsep :: ext)
  = if forallb (fun c => (c =? Posix.extsep)%N) stem
    then (stem ++ Posix.extsep :: ext, [])
    else (stem, Posix.extsep :: ext).
Proof.
  intros Hsep Hdot. unfold Posix.splitext. cbv zeta.
  assert (Hs : Posix.rfind Posix.sep (stem ++ Posix.extsep :: ext) = (-1)%Z)
    by (apply rfind_from_absent; exact Hsep).
  rewrite Hs, (@rfind_last_dot stem ext Hdot).
  replace (Z.of_nat (List.length stem) >? -1)%Z with true
    by (symmetry; apply Z.gtb_lt; lia).
  change (-1 + 1)%Z with (Z.of_nat (List.length (@nil Py.char))).
  apply (@skip_dots_stem (S (List.length (stem ++ Posix.extsep :: ext)))
           [] stem (Posix.extsep :: ext) eq_refl).
  rewrite length_app. lia.
Qed.

(** The two parts [splitext] returns make up the name. *)
Lemma skip_dots_parts (fuel : nat) (p : Py.str) (i dotIndex : Z) :
  let r := Posix.skip_dots fuel p i dotIndex in fst r ++ snd r = p.
Proof.
  revert i. induction fuel as [|fuel IH]; intros i; simpl; [apply app_nil_r|].
  destruct (i <? dotIndex)%Z; [|apply app_nil_r].
  destruct (nth_error p (Z.to_nat i)) as [x|].
  - destruct (x =? Posix.extsep)%N; simpl.
    + apply IH.
    + apply firstn_skipn.
  - simpl. apply firstn_skipn.
Qed.

Lemma splitext_parts (p : Py.str) :
  fst (Posix.splitext p) ++ snd (Posix.splitext p) = p.
Proof.
  unfold Posix.splitext.
  destruct (Posix.rfind Posix.extsep p >? Posix.rfind Posix.sep p)%Z.
  - apply skip_dots_parts.
  - apply app_nil_r.
Qed.

(* ===================================================================== *)
(** ** Properties of [process_docx_files] *)
(* ===================================================================== *)

Section DriverFacts.
Variable Document : Py.str -> Py.exc Document.t.
Variable write : Py.str -> Py.str -> write_outcome.

(** A round of the loop returns, whatever the extraction and the write
    do. *)
Lemma process_file_returns (docx_file : Py.str) (w : World) :
  process_file Document write docx_file w = (after_file Document write docx_file w, Py.Val tt).
Proof.
  unfold process_file, after_file, file_log, file_failure, file_written,
    IO.try_except, IO.bind, IO.print, IO.lift, dump_json, error_lines.
  simpl.
  destruct (extract_docx_content Document docx_file) as [content|e]; simpl.
  - destruct (write (json_filename_of docx_file) (Json.dumps (json_of_content content)))
      as [|e|e partial]; simpl; rewrite <- ?app_assoc; reflexivity.
  - rewrite <- ?app_assoc. reflexivity.
Qed.


Lemma stdout_after_files (docx_files : list Py.str) (w : World) :
  stdout (fold_left (fun w f => after_file Document write f w) docx_files w)
  = stdout w ++ flat_map (file_log Document write) docx_files.
Proof.
  revert w. induction docx_files as [|f fs IH]; intros w; simpl.
  - rewrite app_nil_r. reflexivity.
  - rewrite IH. simpl. rewrite <- app_assoc. reflexivity.
Qed.

End DriverFacts.

(** A listing of three files, the second of which the parser rejects: the
    third is processed all the same. *)
Example batch_continues_example :
  stdout (fst (process_docx_files Sample.lower
                 (Py.Val [Py.lit "a.docx"; Py.lit "b.docx"; Py.lit "notes.txt";
                          Py.lit "A.DOCX"])
                 (fun path => if Py.eqb (Sample.lower path) (Py.lit "a.docx")
                              then Py.Val Sample.doc
                              else Py.Raise (Py.Error (Py.lit "PackageNotFoundError")
                                                      (Py.lit "Package not found")))
                 (fun _ _ => written)
                 {| stdout := []; files := fun _ => None |}))
  = map Py.lit
      [ "Processing a.docx..."; "Successfully created a.json";
        "Processing b.docx..."; "Error processing b.docx: Package not found";
        "Full error details:  Package not found";
        "Processing A.DOCX..."; "Successfully created A.json" ]%string.
Proof. vm_compute. reflexivity. Qed.

(** With [ensure_ascii=False] a character outside ASCII is written as it
    is. *)
Lemma escape_char_non_ascii (c : Py.char) :
  (128 <= c)%N -> Json.escape_char c = [c].
Proof.
  intros H. unfold Json.escape_char.
  repeat match goal with
         | |- context [(c =? ?k)%N] =>
           destruct (N.eqb_spec c k); [lia|]
         end.
  destruct (N.ltb_spec c 32); [lia | reflexivity].
Qed.

(** The names [splitext] finds no extension in keep their [.docx]. *)
Example json_filename_examples :
  json_filename_of (Py.lit "report.docx") = Py.lit "report.json"
  /\ json_filename_of (Py.lit "Report.v2.DOCX") = Py.lit "Report.v2.json"
  /\ json_filename_of (Py.lit ".docx") = Py.lit ".docx.json".
Proof. vm_compute. auto. Qed.

(* ===================================================================== *)
(** ** Further properties *)
(* ===================================================================== *)

(** A document whose only paragraph is numbered without a level makes the
    extraction raise [AttributeError]. *)
Example extraction_raises_example :
  extract_docx_content
    (fun _ => Py.Val {| Document.sections := [];
                        Document.paragraphs := [Sample.numbered_without_level];
                        Document.tables := [] |})
    (Py.lit "a.docx")
  = Py.Raise (Py.AttributeError (Py.lit "'NoneType' object has no attribute 'val'")).
Proof. vm_compute. reflexivity. Qed.

Lemma filter_none {A : Type} (q : A -> bool) (l : list A) :
  forallb (fun x => negb (q x)) l = true -> filter q l = [].
Proof.
  induction l as [|x l IH]; simpl; [reflexivity|].
  destruct (q x); simpl; [discriminate | exact IH].
Qed.

Lemma filter_blank (l : list Paragraph.t) :
  forallb (fun p => blank (Paragraph.text p)) l = true ->
  filter paragraph_has_text l = [].
Proof.
  induction l as [|p l IH]; simpl; [reflexivity|].
  unfold paragraph_has_text at 1. rewrite has_text_not_blank.
  destruct (blank (Paragraph.text p)); simpl; [exact IH | discriminate].
Qed.

(** X2: a document without text (no header or body paragraph has a
    character that is not whitespace, no table has a cell with one; an
    empty document is one) gives four empty lists and the base name of the
    path, and the extraction cannot raise on it. *)
Theorem blank_document_content
  (Document : Py.str -> Py.exc Document.t) (docx_path : Py.str) (doc : Document.t) :
  Document docx_path = Py.Val doc ->
  forallb (fun p => blank (Paragraph.text p)) (header_paragraphs doc) = true ->
  forallb (fun p => blank (Paragraph.text p)) (Document.paragraphs doc) = true ->
  forallb (fun t => negb (table_has_text t)) (Document.tables doc) = true ->
  extract_docx_content Document docx_path
  = Py.Val {| DocumentContent.paragraphs := [];
              DocumentContent.tables := [];
              DocumentContent.headers := [];
              DocumentContent.document_name := Posix.basename docx_path;
              DocumentContent.lists := [] |}.
Proof.
  intros HD Hh Hp Ht.
  assert (Hk : kept_paragraphs doc = []) by (apply filter_blank; exact Hp).
  rewrite (extract_docx_content_ok Document docx_path HD)
    by (unfold levels_ok; rewrite Hk; reflexivity).
  unfold content_of. rewrite Hk, (filter_blank _ Hh), (filter_none _ _ Ht). reflexivity.
Qed.

Lemma blank_document_content_witness :
  extract_docx_content (fun _ => Py.Val Sample.blank_doc) (Py.lit "blank.docx")
  = Py.Val {| DocumentContent.paragraphs := [];
              DocumentContent.tables := [];
              DocumentContent.headers := [];
              DocumentContent.document_name := Posix.basename (Py.lit "blank.docx");
              DocumentContent.lists := [] |}.
Proof.
  apply (@blank_document_content (fun _ => Py.Val Sample.blank_doc)
           (Py.lit "blank.docx") Sample.blank_doc); reflexivity.
Defined.

(** X3: [headers] holds the records of the header paragraphs that have
    text, section after section. *)
Theorem headers_in_document_order
  (Document : Py.str -> Py.exc Document.t) (docx_path : Py.str)
  (c : DocumentContent.t) :
  extract_docx_content Document docx_path = Py.Val c ->
  exists doc, Document docx_path = Py.Val doc
    /\ DocumentContent.headers c
       = map paragraph_record_of (filter paragraph_has_text (header_paragraphs doc))
    /\ DocumentContent.document_name c = Posix.basename docx_path.
Proof.
  intros H. apply extract_docx_content_returns in H.
  destruct H as (doc & HD & _ & ->).
  exists doc. split; [exact HD|]. split; reflexivity.
Qed.

Lemma headers_in_document_order_witness :
  exists doc, Sample.Document (Py.lit "a.docx") = Py.Val doc
    /\ DocumentContent.headers Sample.content
       = map paragraph_record_of (filter paragraph_has_text (header_paragraphs doc))
    /\ DocumentContent.document_name Sample.content = Posix.basename (Py.lit "a.docx").
Proof.
  apply (@headers_in_document_order Sample.Document (Py.lit "a.docx") Sample.content).
  vm_compute. reflexivity.
Defined.

(** X4: without a matching file the driver prints one line, writes nothing
    and returns. *)
Theorem no_docx_files
  (lower : Py.str -> Py.str) (listing : list Py.str)
  (Document : Py.str -> Py.exc Document.t)
  (write : Py.str -> Py.str -> write_outcome) (w : World) :
  filter (is_docx lower) listing = [] ->
  process_docx_files lower (Py.Val listing) Document write w
  = ({| stdout := stdout w ++ [Py.lit "No .docx files found in the current directory"];
        files := files w |}, Py.Val tt).
Proof.
  intros H. unfold process_docx_files, IO.bind, IO.lift. rewrite H. reflexivity.
Qed.

Lemma no_docx_files_witness :
  process_docx_files Sample.lower (Py.Val [Py.lit "notes.txt"; Py.lit "docx"])
    Sample.Document (fun _ _ => written) {| stdout := []; files := fun _ => None |}
  = ({| stdout := [] ++ [Py.lit "No .docx files found in the current directory"];
        files := fun _ => None |}, Py.Val tt).
Proof.
  apply (@no_docx_files Sample.lower [Py.lit "notes.txt"; Py.lit "docx"]
           Sample.Document (fun _ _ => written)
           {| stdout := []; files := fun _ => None |}).
  reflexivity.
Defined.

(** *** Trimming *)

Lemma lstrip_parts (s : Py.str) :
  exists lead, s = lead ++ Py.lstrip s /\ blank lead = true.
Proof.
  induction s as [|c r (lead & Hr & Hb)]; simpl.
  - exists []. split; reflexivity.
  - destruct (Py.isspace c) eqn:E.
    + exists (c :: lead). split; [simpl; rewrite <- Hr; reflexivity|].
      simpl. rewrite E. exact Hb.
    + exists []. split; reflexivity.
Qed.

Lemma lstrip_head (s : Py.str) (c : Py.char) (r : Py.str) :
  Py.lstrip s = c :: r -> Py.isspace c = false.
Proof.
  induction s as [|x s IH]; simpl; [discriminate|].
  destruct (Py.isspace x) eqn:E; [exact IH|].
  intros H. injection H as <- _. exact E.
Qed.

Lemma rstrip_parts (s : Py.str) :
  exists trail, s = Py.rstrip s ++ trail /\ blank trail = true.
Proof.
  destruct (lstrip_parts (rev s)) as (lead & H & Hb).
  exists (rev lead). split.
  - unfold Py.rstrip. rewrite <- rev_app_distr, <- H, rev_involutive. reflexivity.
  - rewrite blank_rev. exact Hb.
Qed.

Lemma strip_trimmed (s : Py.str) : trimmed (Py.strip s) = true.
Proof.
  unfold trimmed. apply andb_true_iff. split.
  - unfold Py.strip.
    destruct (rstrip_parts (Py.lstrip s)) as (trail & H & _).
    destruct (Py.rstrip (Py.lstrip s)) as [|c r]; [reflexivity|].
    simpl in H. rewrite (lstrip_head s H). reflexivity.
  - unfold Py.strip, Py.rstrip. rewrite rev_involutive.
    destruct (Py.lstrip (rev (Py.lstrip s))) as [|c r] eqn:E; [reflexivity|].
    rewrite (lstrip_head _ E). reflexivity.
Qed.

(** X6: [s.strip()] removes whitespace at the two ends and nothing else: [s]
    is the trimmed text between a leading and a trailing stretch of
    whitespace, the trimmed text has no whitespace at either end, and
    trimming it again changes nothing. *)
Theorem strip_removes_surrounding_whitespace (s : Py.str) :
  (exists lead trail,
     s = lead ++ Py.strip s ++ trail /\ blank lead = true /\ blank trail = true)
  /\ trimmed (Py.strip s) = true
  /\ Py.strip (Py.strip s) = Py.strip s.
Proof.
  assert (Hparts : forall t, exists lead trail,
             t = lead ++ Py.strip t ++ trail /\ blank lead = true /\ blank trail = true).
  { intros t. destruct (lstrip_parts t) as (lead & H1 & Hb1).
    destruct (rstrip_parts (Py.lstrip t)) as (trail & H2 & Hb2).
    exists lead, trail. unfold Py.strip. rewrite <- H2. auto. }
  split; [apply Hparts|]. split; [apply strip_trimmed|].
  pose proof (strip_trimmed s) as Ht.
  destruct (Hparts (Py.strip s)) as (lead & trail & H & Hl & Htr).
  unfold trimmed in Ht. apply andb_true_iff in Ht. destruct Ht as [Hfirst Hlast].
  assert (lead = []) as ->.
  { destruct lead as [|c lead]; [reflexivity|]. exfalso.
    rewrite H in Hfirst. simpl in Hfirst, Hl.
    destruct (Py.isspace c); discriminate. }
  assert (trail = []) as ->.
  { destruct trail as [|c trail] using rev_ind; [reflexivity|]. exfalso.
    rewrite H in Hlast. simpl in Hlast.
    rewrite app_assoc, rev_app_distr in Hlast. simpl in Hlast.
    unfold blank in Htr. rewrite forallb_app in Htr. simpl in Htr.
    destruct (Py.isspace c); [discriminate Hlast|].
    rewrite andb_false_r in Htr. discriminate. }
  simpl in H. rewrite app_nil_r in H. symmetry. exact H.
Qed.

(** X7: the text of every paragraph record (body, list, header or cell
    paragraph) and of every cell record of a returned content is trimmed: it
    neither starts nor ends with whitespace. *)
Theorem record_texts_trimmed
  (Document : Py.str -> Py.exc Document.t) (docx_path : Py.str)
  (c : DocumentContent.t) :
  extract_docx_content Document docx_path = Py.Val c ->
  Forall (fun t => trimmed t = true) (paragraph_texts c)
  /\ Forall (fun t => trimmed t = true) (cell_texts c).
Proof.
  intros H. apply extract_docx_content_returns in H.
  destruct H as (doc & _ & _ & ->). split.
  - unfold paragraph_texts. apply Forall_app. split; apply Forall_forall; intros s Hs;
      apply in_map_iff in Hs; destruct Hs as (r & <- & Hr).
    + apply body_records_of in Hr. destruct Hr as (p & _ & _ & ->). apply strip_trimmed.
    + apply paragraph_records_of in Hr. destruct Hr as (p & _ & ->). apply strip_trimmed.
  - unfold cell_texts. apply Forall_forall. intros s Hs.
    apply in_map_iff in Hs. destruct Hs as (cr & <- & Hcr).
    apply cell_records_of in Hcr. destruct Hcr as (cell & ->). apply strip_trimmed.
Qed.

Lemma record_texts_trimmed_witness :
  Forall (fun t => trimmed t = true) (paragraph_texts Sample.content)
  /\ Forall (fun t => trimmed t = true) (cell_texts Sample.content).
Proof.
  apply (@record_texts_trimmed Sample.Document (Py.lit "a.docx") Sample.content).
  vm_compute. reflexivity.
Defined.

(** *** Tables *)

(** X8: a table that is kept keeps its grid: its record has the rows of the
    table and each row the cells of the row, empty ones included, and its
    style is the name of the table's style, [Normal] for a table without
    style. *)
Theorem kept_tables_keep_their_grid
  (Document : Py.str -> Py.exc Document.t) (docx_path : Py.str)
  (c : DocumentContent.t) :
  extract_docx_content Document docx_path = Py.Val c ->
  exists doc, Document docx_path = Py.Val doc /\
    let kept := filter table_has_text (Document.tables doc) in
    map (fun t => map (@List.length _) (TableRecord.rows t)) (DocumentContent.tables c)
    = map (fun t => map (@List.length _) (Table.rows t)) kept
    /\ map (fun t => map (map CellRecord.text) (TableRecord.rows t))
           (DocumentContent.tables c)
       = map (fun t => map (map (fun cell => Py.strip (Cell.text cell))) (Table.rows t))
             kept
    /\ map TableRecord.style (DocumentContent.tables c) = map style_of kept.
Proof.
  intros H. apply extract_docx_content_returns in H.
  destruct H as (doc & HD & _ & ->).
  exists doc. split; [exact HD|]. cbv zeta. unfold content_of. simpl.
  rewrite !map_map. split; [|split]; apply map_ext; intros t; simpl.
  - rewrite map_map. apply map_ext. intros row. apply length_map.
  - rewrite map_map. apply map_ext. intros row. rewrite map_map. reflexivity.
  - reflexivity.
Qed.

Lemma kept_tables_keep_their_grid_witness :
  exists doc, Sample.Document (Py.lit "a.docx") = Py.Val doc /\
    let kept := filter table_has_text (Document.tables doc) in
    map (fun t => map (@List.length _) (TableRecord.rows t))
        (DocumentContent.tables Sample.content)
    = map (fun t => map (@List.length _) (Table.rows t)) kept
    /\ map (fun t => map (map CellRecord.text) (TableRecord.rows t))
           (DocumentContent.tables Sample.content)
       = map (fun t => map (map (fun cell => Py.strip (Cell.text cell))) (Table.rows t))
             kept
    /\ map TableRecord.style (DocumentContent.tables Sample.content) = map style_of kept.
Proof.
  apply (@kept_tables_keep_their_grid Sample.Document (Py.lit "a.docx") Sample.content).
  vm_compute. reflexivity.
Defined.

(** *** List levels *)

(** X10: a record with a list level is a list item: [list_level] is [None]
    all over [paragraphs], and a record of [lists] has a level only when its
    paragraph has the [numbering] attribute and an [ilvl] under its
    [numPr]. *)
Theorem list_level_only_on_list_items
  (Document : Py.str -> Py.exc Document.t) (docx_path : Py.str)
  (c : DocumentContent.t) :
  extract_docx_content Document docx_path = Py.Val c ->
  Forall (fun r => BodyParagraphRecord.list_level r = None)
         (DocumentContent.paragraphs c)
  /\ Forall (fun r => forall v, BodyParagraphRecord.list_level r = Some v ->
                        BodyParagraphRecord.is_list_item r = true)
            (body_records c)
  /\ exists doc, Document docx_path = Py.Val doc
       /\ forall p v, In p (kept_paragraphs doc) ->
            (BodyParagraphRecord.list_level (body_record_of p) = Some v <->
             Paragraph.has_numbering p = true
             /\ exists pPr numPr, Paragraph.pPr p = Some pPr
                  /\ CT_PPr.numPr pPr = Some numPr /\ CT_NumPr.ilvl numPr = Some v).
Proof.
  intros H. apply extract_docx_content_returns in H.
  destruct H as (doc & HD & _ & ->).
  assert (Hlevel : forall p v, level_of p = Some v <->
            Paragraph.has_numbering p = true
            /\ exists pPr numPr, Paragraph.pPr p = Some pPr
                 /\ CT_PPr.numPr pPr = Some numPr /\ CT_NumPr.ilvl numPr = Some v).
  { intros p v. unfold level_of, list_level.
    destruct (Paragraph.has_numbering p).
    - destruct (Paragraph.pPr p) as [pPr|].
      + destruct (CT_PPr.numPr pPr) as [numPr|] eqn:E1.
        * destruct (CT_NumPr.ilvl numPr) as [x|] eqn:E2; simpl.
          -- split.
             ++ intros Hx. injection Hx as ->. split; [reflexivity|].
                exists pPr, numPr. auto.
             ++ intros [_ (a & b & Ha & Hb & Hc)]. injection Ha as <-.
                rewrite E1 in Hb. injection Hb as <-. rewrite E2 in Hc. exact Hc.
          -- split; [discriminate|].
             intros [_ (a & b & Ha & Hb & Hc)]. injection Ha as <-.
             rewrite E1 in Hb. injection Hb as <-. rewrite E2 in Hc. discriminate.
        * simpl. split; [discriminate|].
          intros [_ (a & b & Ha & Hb & _)]. injection Ha as <-.
          rewrite E1 in Hb. discriminate.
      + simpl. split; [discriminate|]. intros [_ (a & b & Ha & _)]. discriminate.
    - simpl. split; [discriminate|]. intros [Hn _]. discriminate. }
  assert (Hitem : forall p v, level_of p = Some v -> is_list_item p = true).
  { intros p v Hv. apply Hlevel in Hv. destruct Hv as [Hn _].
    unfold is_list_item. rewrite Hn. apply orb_true_r. }
  split; [|split].
  - unfold content_of. simpl. apply Forall_forall. intros r Hr.
    apply in_map_iff in Hr. destruct Hr as (p & <- & Hp).
    apply filter_In in Hp. destruct Hp as [_ Hp]. simpl.
    destruct (level_of p) as [v|] eqn:E; [|reflexivity].
    rewrite (Hitem p v E) in Hp. discriminate.
  - apply Forall_forall. intros r Hr v Hv.
    apply body_records_of in Hr. destruct Hr as (p & _ & _ & ->).
    simpl in *. exact (Hitem p v Hv).
  - exists doc. split; [exact HD|]. intros p v _. apply Hlevel.
Qed.

Lemma list_level_only_on_list_items_witness :
  (exists r, In r (body_records Sample.numbered_content)
     /\ BodyParagraphRecord.list_level r = Some 1%Z
     /\ BodyParagraphRecord.is_list_item r = true)
  /\ Forall (fun r => BodyParagraphRecord.list_level r = None)
            (DocumentContent.paragraphs Sample.numbered_content)
  /\ Forall (fun r => forall v, BodyParagraphRecord.list_level r = Some v ->
                        BodyParagraphRecord.is_list_item r = true)
            (body_records Sample.numbered_content)
  /\ exists doc, Sample.numbered_Document (Py.lit "list.docx") = Py.Val doc
       /\ forall p v, In p (kept_paragraphs doc) ->
            (BodyParagraphRecord.list_level (body_record_of p) = Some v <->
             Paragraph.has_numbering p = true
             /\ exists pPr numPr, Paragraph.pPr p = Some pPr
                  /\ CT_PPr.numPr pPr = Some numPr /\ CT_NumPr.ilvl numPr = Some v).
Proof.
  split.
  - exists (body_record_of (Sample.numbered "item")).
    split; [|split; reflexivity].
    vm_compute. right. right. left. reflexivity.
  - apply (@list_level_only_on_list_items Sample.numbered_Document (Py.lit "list.docx")
             Sample.numbered_content).
    vm_compute. reflexivity.
Defined.

(** *** The files of the working directory *)

Lemma eqb_eq (a b : Py.str) : Py.eqb a b = true <-> a = b.
Proof.
  unfold Py.eqb. destruct (list_eq_dec N.eq_dec a b) as [H|H]; split; auto; discriminate.
Qed.

Lemma eqb_refl (a : Py.str) : Py.eqb a a = true.
Proof. apply eqb_eq. reflexivity. Qed.


Section BatchFacts.
Variable Document : Py.str -> Py.exc Document.t.
Variable write : Py.str -> Py.str -> write_outcome.




End BatchFacts.



Lemma json_filename_stem (stem ext : Py.str) :
  ~ In Posix.sep (stem ++ Posix.extsep :: ext) ->
  ~ In Posix.extsep ext ->
  (exists c, In c stem /\ c <> Posix.extsep) ->
  json_filename_of (stem ++ Posix.extsep :: ext) = stem ++ Py.lit ".json".
Proof.
  intros Hsep Hdot (c & Hc & Hne).
  unfold json_filename_of. rewrite (splitext_stem_ext _ _ Hsep Hdot).
  destruct (forallb (fun c => (c =? Posix.extsep)%N) stem) eqn:E; [|reflexivity].
  exfalso. apply Hne. rewrite forallb_forall in E.
  apply N.eqb_eq. apply E. exact Hc.
Qed.



(** *** The document name *)

Lemma rfind_last (c : Py.char) (a b : Py.str) :
  ~ In c b -> Posix.rfind c (a ++ c :: b) = Z.of_nat (List.length a).
Proof.
  intros H. unfold Posix.rfind. rewrite rfind_from_app. simpl.
  rewrite N.eqb_refl. apply rfind_from_absent. exact H.
Qed.

Lemma basename_no_sep (p : Py.str) : ~ In Posix.sep p -> Posix.basename p = p.
Proof.
  intros H. unfold Posix.basename, Posix.rfind.
  rewrite (@rfind_from_absent 0 (-1) _ _ H). reflexivity.
Qed.

Lemma basename_last_component (dir name : Py.str) :
  ~ In Posix.sep name -> Posix.basename (dir ++ Posix.sep :: name) = name.
Proof.
  intros H. unfold Posix.basename. rewrite (@rfind_last Posix.sep dir name H).
  unfold Posix.slice_from.
  replace (Z.to_nat (Z.of_nat (List.length dir) + 1)) with (S (List.length dir)) by lia.
  rewrite skipn_app.
  replace (S (List.length dir) - List.length dir)%nat with 1%nat by lia.
  rewrite skipn_all2 by lia. reflexivity.
Qed.

(** X15: [document_name] is the path's last component: the path itself when
    it has no [/], as for the names the driver passes, and what follows the
    last [/] otherwise. *)
Theorem document_name_is_last_component
  (Document : Py.str -> Py.exc Document.t) (docx_path : Py.str)
  (c : DocumentContent.t) :
  extract_docx_content Document docx_path = Py.Val c ->
  (~ In Posix.sep docx_path -> DocumentContent.document_name c = docx_path)
  /\ (forall dir name, docx_path = dir ++ Posix.sep :: name -> ~ In Posix.sep name ->
        DocumentContent.document_name c = name).
Proof.
  intros H. apply extract_docx_content_returns in H.
  destruct H as (doc & _ & _ & ->). unfold content_of. simpl. split.
  - apply basename_no_sep.
  - intros dir name -> Hn. apply basename_last_component. exact Hn.
Qed.

Lemma document_name_is_last_component_witness :
  (~ In Posix.sep (Py.lit "a.docx")
   -> DocumentContent.document_name Sample.content = Py.lit "a.docx")
  /\ (forall dir name, Py.lit "a.docx" = dir ++ Posix.sep :: name -> ~ In Posix.sep name ->
        DocumentContent.document_name Sample.content = name).
Proof.
  apply (@document_name_is_last_component Sample.Document (Py.lit "a.docx") Sample.content).
  vm_compute. reflexivity.
Defined.

Example basename_examples :
  Posix.basename (Py.lit "docs/2024/report.docx") = Py.lit "report.docx"
  /\ Posix.basename (Py.lit "report.docx") = Py.lit "report.docx"
  /\ Posix.basename (Py.lit "docs/") = Py.lit "".
Proof. vm_compute. auto. Qed.

(** *** Colours *)

Lemma format_02X_byte (n : N) :
  (n < 256)%N ->
  List.length (Py.format_02X n) = 2%nat
  /\ forallb is_upper_hex (Py.format_02X n) = true.
Proof.
  intros Hn.
  assert (H : forallb (fun k => (List.length (Py.format_02X (N.of_nat k)) =? 2)%nat
                                && forallb is_upper_hex (Py.format_02X (N.of_nat k)))
                      (seq 0 256) = true) by (vm_compute; reflexivity).
  rewrite forallb_forall in H.
  specialize (H (N.to_nat n)). rewrite N2Nat.id in H.
  assert (Hin : In (N.to_nat n) (seq 0 256)) by (apply in_seq; lia).
  apply H in Hin. apply andb_true_iff in Hin. destruct Hin as [Hl Hh].
  apply Nat.eqb_eq in Hl. auto.
Qed.

(** X16: a run whose colour is an [RGBColor] (three components below 256)
    gets as [color] six characters among [0-9A-F], two per component, without
    a leading [#]. *)
Theorem rgb_color_is_six_hex_digits
  (run : Run.t) (cf : ColorFormat.t) (r g b : N) :
  Font.color (Run.font run) = Py.Val (Some cf) ->
  ColorFormat.rgb cf = Py.Val (Some (RGBColor r g b)) ->
  (r < 256)%N -> (g < 256)%N -> (b < 256)%N ->
  exists properties,
    get_font_properties run = Py.Val properties
    /\ FontProperties.color properties
       = Some (Py.format_02X r ++ Py.format_02X g ++ Py.format_02X b)
    /\ List.length (Py.format_02X r ++ Py.format_02X g ++ Py.format_02X b) = 6%nat
    /\ forallb is_upper_hex (Py.format_02X r ++ Py.format_02X g ++ Py.format_02X b)
       = true.
Proof.
  intros Hc Hrgb Hr Hg Hb.
  destruct (format_02X_byte Hr) as [Lr Xr].
  destruct (format_02X_byte Hg) as [Lg Xg].
  destruct (format_02X_byte Hb) as [Lb Xb].
  exists (font_properties_of run). split; [apply get_font_properties_eq|].
  split; [|split].
  - simpl. unfold resolved_color. rewrite Hc, Hrgb. reflexivity.
  - rewrite !length_app, Lr, Lg, Lb. reflexivity.
  - rewrite !forallb_app, Xr, Xg, Xb. reflexivity.
Qed.

Lemma rgb_color_is_six_hex_digits_witness :
  exists properties,
    get_font_properties Sample.red_run = Py.Val properties
    /\ FontProperties.color properties
       = Some (Py.format_02X 255 ++ Py.format_02X 0 ++ Py.format_02X 0)
    /\ List.length (Py.format_02X 255 ++ Py.format_02X 0 ++ Py.format_02X 0) = 6%nat
    /\ forallb is_upper_hex (Py.format_02X 255 ++ Py.format_02X 0 ++ Py.format_02X 0)
       = true.
Proof.
  apply (@rgb_color_is_six_hex_digits Sample.red_run
           {| ColorFormat.rgb := Py.Val (Some (RGBColor 255 0 0)) |} 255 0 0);
    reflexivity.
Defined.

(** *** The variables of the loop over the body *)

Lemma file_paragraph_list_state (r : BodyParagraphRecord.t) (st : BodyState) :
  list_state st -> list_state (file_paragraph r st).
Proof.
  unfold list_state, file_paragraph.
  destruct (BodyParagraphRecord.is_list_item r);
    destruct (current_list st) as [cl|]; destruct (list_items st) as [|first rest];
    simpl; auto; intros [].
Qed.

(** X17: [current_list] holds nothing the result depends on.  At every point
    of the loop over the body paragraphs it is set exactly when [list_items]
    is not empty, its [items] list is empty, and its [level] is the list
    level of the first of the [list_items]; so the test of line 123 is a test
    on [list_items], as the one of line 130 is. *)
Theorem current_list_mirrors_list_items
  (paragraphs : list Paragraph.t) (content0 : DocumentContent.t) :
  match Py.for_each paragraphs body_step
          {| content := content0; current_list := None; list_items := [] |} with
  | Py.Val st =>
    list_state st
    /\ (current_list st = None <-> list_items st = [])
  | Py.Raise _ => True
  end.
Proof.
  assert (H : forall ps st, list_state st ->
            match Py.for_each ps body_step st with
            | Py.Val st' => list_state st'
            | Py.Raise _ => True
            end).
  { induction ps as [|p ps IH]; intros st Hst; simpl; [exact Hst|].
    destruct (paragraph_has_text p) eqn:E.
    - rewrite (body_step_keep _ _ E).
      destruct (list_level p) as [l|e]; simpl; [|exact I].
      apply IH, file_paragraph_list_state, Hst.
    - rewrite (body_step_skip _ _ E). simpl. apply IH, Hst. }
  specialize (H paragraphs {| content := content0; current_list := None;
                              list_items := [] |} I).
  destruct (Py.for_each paragraphs body_step _) as [st|e]; [|exact I].
  split; [exact H|].
  unfold list_state in H.
  destruct (current_list st); destruct (list_items st); try contradiction;
    split; intros; congruence.
Qed.

(** *** What the format dict cannot tell *)

Lemma str_if_true_forget {A} `{PyObject A} (x : option A) :
  str_if_true x = option_map to_str (forget_false x).
Proof.
  destruct x as [v|]; simpl; [|reflexivity]. destruct (truth v); reflexivity.
Qed.

(** X18: [get_paragraph_format] cannot tell a value that is set but false
    (the alignment [LEFT], of value 0, or a length of 0) from one that is not
    set: two paragraphs whose formats agree once such values are taken for
    unset get the same dict. *)
Theorem false_values_read_as_unset (p q : Paragraph.t) :
  forget_false_values (Paragraph.paragraph_format p)
  = forget_false_values (Paragraph.paragraph_format q) ->
  get_paragraph_format p = get_paragraph_format q.
Proof.
  intros H. unfold get_paragraph_format. cbv zeta.
  rewrite !str_if_true_forget.
  pose proof (f_equal ParagraphFormat.alignment H) as H1.
  pose proof (f_equal ParagraphFormat.first_line_indent H) as H2.
  pose proof (f_equal ParagraphFormat.left_indent H) as H3.
  pose proof (f_equal ParagraphFormat.right_indent H) as H4.
  pose proof (f_equal ParagraphFormat.line_spacing H) as H5.
  pose proof (f_equal ParagraphFormat.space_before H) as H6.
  pose proof (f_equal ParagraphFormat.space_after H) as H7.
  pose proof (f_equal ParagraphFormat.keep_together H) as H8.
  pose proof (f_equal ParagraphFormat.keep_with_next H) as H9.
  pose proof (f_equal ParagraphFormat.page_break_before H) as H10.
  pose proof (f_equal ParagraphFormat.widow_control H) as H11.
  simpl in *.
  rewrite H1, H2, H3, H4, H5, H6, H7, H8, H9, H10, H11. reflexivity.
Qed.

Lemma false_values_read_as_unset_witness :
  get_paragraph_format (Sample.aligned Sample.LEFT 0)
  = get_paragraph_format Sample.unaligned.
Proof.
  apply (@false_values_read_as_unset (Sample.aligned Sample.LEFT 0) Sample.unaligned).
  reflexivity.
Defined.

(** *** Escaped text *)

Lemma escape_char_printable (c : Py.char) :
  forallb (fun x => (32 <=? x)%N) (Json.escape_char c) = true.
Proof.
  destruct (N.ltb_spec c 32) as [Hlt|Hge].
  - assert (H : forallb (fun k => forallb (fun x => (32 <=? x)%N)
                                          (Json.escape_char (N.of_nat k)))
                        (seq 0 32) = true) by (vm_compute; reflexivity).
    rewrite forallb_forall in H. specialize (H (N.to_nat c)).
    rewrite N2Nat.id in H. apply H. apply in_seq. lia.
  - unfold Json.escape_char.
    repeat match goal with
           | |- context [(c =? ?k)%N] => destruct (N.eqb_spec c k); [reflexivity|]
           end.
    destruct (N.ltb_spec c 32); [lia|]. simpl.
    rewrite andb_true_r. apply N.leb_le. exact Hge.
Qed.

(** X19: a text is written between two quotes without any raw control
    character (below 0x20): line breaks, tabs and the like are escaped, so a
    text never breaks the line it is dumped on, while a text without control
    character, quote or backslash is written as it is. *)
Theorem encoded_text_has_no_control_character (s : Py.str) :
  forallb (fun x => (32 <=? x)%N) (Json.encode_str s) = true
  /\ (forallb (fun c => (32 <=? c)%N && negb (c =? 34)%N && negb (c =? 92)%N) s = true ->
      Json.encode_str s = [34%N] ++ s ++ [34%N]).
Proof.
  unfold Json.encode_str. split.
  - rewrite !forallb_app. simpl. rewrite andb_true_r.
    induction s as [|c s IH]; simpl; [reflexivity|].
    rewrite forallb_app, escape_char_printable. exact IH.
  - intros H. f_equal. f_equal.
    induction s as [|c s IH]; simpl in *; [reflexivity|].
    apply andb_true_iff in H. destruct H as [Hc H]. rewrite (IH H).
    apply andb_true_iff in Hc. destruct Hc as [Hc H92].
    apply andb_true_iff in Hc. destruct Hc as [H32 H34].
    apply N.leb_le in H32. apply negb_true_iff, N.eqb_neq in H34, H92.
    unfold Json.escape_char.
    repeat match goal with
           | |- context [(c =? ?k)%N] =>
             destruct (N.eqb_spec c k); [first [contradiction | lia]|]
           end.
    destruct (N.ltb_spec c 32); [lia | reflexivity].
Qed.

(* ===================================================================== *)
(** ** Properties of the functions on reads that may raise *)
(* ===================================================================== *)

(** *** [get_font_properties] *)

Lemma getattr_quiet {A} (attribute : Py.exc (option A)) :
  Reading.quiet attribute = true ->
  Reading.getattr attribute = Py.Val (Reading.value_or_None attribute).
Proof. destruct attribute as [v|[m|c m]]; simpl; intros H; [| |discriminate]; reflexivity. Qed.

Lemma getattr_raises {A} (attribute : Py.exc (option A)) :
  Reading.quiet attribute = false -> exists e, Reading.getattr attribute = Py.Raise e.
Proof.
  destruct attribute as [v|[m|c m]]; simpl; intros H; try discriminate.
  eexists. reflexivity.
Qed.

Lemma read_font_size_quiet (f : Reading.Font.t) :
  Reading.quiet (Reading.Font.size f) = true ->
  Reading.read_font_size f
  = Py.Val match Reading.Font.size f with
           | Py.Val (Some v) => if truth v then Some (to_str v) else None
           | _ => None
           end.
Proof.
  unfold Reading.read_font_size.
  destruct (Reading.Font.size f) as [[v|]|[m|c m]]; simpl; intros H;
    try discriminate; try reflexivity.
  destruct (negb (v =? 0)%Z); reflexivity.
Qed.

Lemma read_highlight_color_quiet (f : Reading.Font.t) :
  Reading.quiet (Reading.Font.highlight_color f) = true ->
  Reading.read_highlight_color f
  = Py.Val match Reading.Font.highlight_color f with
           | Py.Val (Some m) => Some (to_str m)
           | Py.Val None => Some (Py.lit "None")
           | Py.Raise _ => None
           end.
Proof.
  unfold Reading.read_highlight_color.
  destruct (Reading.Font.highlight_color f) as [[v|]|[m|c m]]; simpl; intros H;
    try discriminate; reflexivity.
Qed.

(** The [try] of lines 25 to 30 returns whatever the reads of the colour
    do. *)
Lemma try_extract_color (f : Reading.Font.t) (properties : FontProperties.t) :
  Py.try_except (Reading.extract_color f properties) (fun _ => Py.ret properties)
  = Py.Val (FontProperties.set_color properties
              match Reading.resolved_color f with
              | Some c => Some c
              | None => FontProperties.color properties
              end).
Proof.
  unfold Reading.extract_color, Reading.read_rgb, Reading.resolved_color.
  destruct properties as [b i u fs fn ac c hc sub sup].
  destruct (Reading.Font.color f) as [[cf|]|[m|cl m]]; simpl; try reflexivity.
  destruct (ColorFormat.rgb cf) as [[x|]|[m|cl m]]; simpl; try reflexivity.
  destruct (rgb_truth x); reflexivity.
Qed.

Lemma read_properties_quiet (run : Reading.Run.t) :
  Reading.quiet_reads run = true ->
  Reading.read_properties run
  = Py.Val (FontProperties.set_color (Reading.font_properties_of run) None).
Proof.
  unfold Reading.quiet_reads. intros H.
  repeat (apply andb_prop in H; destruct H as [H ?]).
  unfold Reading.read_properties.
  rewrite !getattr_quiet, read_font_size_quiet, read_highlight_color_quiet
    by assumption.
  reflexivity.
Qed.

Lemma read_properties_raises (run : Reading.Run.t) :
  Reading.quiet_reads run = false ->
  exists e, Reading.read_properties run = Py.Raise e.
Proof.
  unfold Reading.quiet_reads, Reading.read_properties,
    Reading.read_font_size, Reading.read_highlight_color.
  destruct (Reading.Run.bold run) as [?|[?|? ?]]; simpl; eauto.
  all: destruct (Reading.Run.italic run) as [?|[?|? ?]]; simpl; eauto.
  all: destruct (Reading.Run.underline run) as [?|[?|? ?]]; simpl; eauto.
  all: destruct (Reading.Font.size (Reading.Run.font run)) as [[v|]|[?|? ?]];
    simpl; eauto; try destruct (negb (v =? 0)%Z); simpl.
  all: destruct (Reading.Font.name (Reading.Run.font run)) as [?|[?|? ?]]; simpl; eauto.
  all: destruct (Reading.Font.all_caps (Reading.Run.font run)) as [?|[?|? ?]];
    simpl; eauto.
  all: destruct (Reading.Font.highlight_color (Reading.Run.font run)) as [?|[?|? ?]];
    simpl; eauto.
  all: destruct (Reading.Font.subscript (Reading.Run.font run)) as [?|[?|? ?]];
    simpl; eauto.
  all: destruct (Reading.Font.superscript (Reading.Run.font run)) as [?|[?|? ?]];
    simpl; eauto; discriminate.
Qed.

Lemma get_font_properties_quiet (run : Reading.Run.t) :
  Reading.quiet_reads run = true ->
  Reading.get_font_properties run = Py.Val (Reading.font_properties_of run).
Proof.
  intros H. unfold Reading.get_font_properties.
  rewrite (read_properties_quiet _ H). cbn [Py.bind].
  rewrite try_extract_color. f_equal.
  unfold Reading.font_properties_of, FontProperties.set_color. simpl.
  destruct (Reading.resolved_color (Reading.Run.font run)); reflexivity.
Qed.

Lemma get_font_properties_loud (run : Reading.Run.t) :
  Reading.quiet_reads run = false ->
  exists e, Reading.get_font_properties run = Py.Raise e.
Proof.
  intros H. destruct (read_properties_raises _ H) as (e & He).
  exists e. unfold Reading.get_font_properties. rewrite He. reflexivity.
Qed.

(** C4, as stated, fails: [get_font_properties] does not return for every
    run.  Line 19 reads [run.font.highlight_color] outside the [try]; on a
    run with [<w:highlight w:val="none"/>] python-docx raises [ValueError]
    there, and [get_font_properties] raises it, although the colour of the
    run can be read. *)
Lemma highlight_read_raises_through :
  Reading.get_font_properties Sample.highlight_none_run
  = Py.Raise (Py.Error (Py.lit "ValueError")
                       (Py.lit "WD_COLOR_INDEX has no XML mapping for 'none'"))
  /\ Reading.Font.color (Reading.Run.font Sample.highlight_none_run)
     = Py.Val (Some {| ColorFormat.rgb := Py.Val None |}).
Proof. split; reflexivity. Qed.

(** C4, amended: the extraction of the colour never raises.  For a run
    whose reads of lines 12 to 21 raise nothing but [AttributeError],
    [get_font_properties] returns the dict with its ten values, whatever
    reading [run.font.color] and its [rgb] does: [color] is [None] when one
    of the two raises, is [None], or [rgb] is false, and the string of
    [rgb] in the one remaining case; the nine other values are those read,
    [None] standing for a missing attribute. *)
Theorem color_extraction_never_raises (run : Reading.Run.t) :
  Reading.quiet_reads run = true ->
  exists properties,
    Reading.get_font_properties run = Py.Val properties
    /\ FontProperties.bold properties = Reading.value_or_None (Reading.Run.bold run)
    /\ FontProperties.italic properties = Reading.value_or_None (Reading.Run.italic run)
    /\ FontProperties.underline properties
       = Reading.value_or_None (Reading.Run.underline run)
    /\ FontProperties.font_size properties
       = match Reading.Font.size (Reading.Run.font run) with
         | Py.Val (Some size) => if (size =? 0)%Z then None else Some (Py.str_int size)
         | _ => None
         end
    /\ FontProperties.font_name properties
       = Reading.value_or_None (Reading.Font.name (Reading.Run.font run))
    /\ FontProperties.all_caps properties
       = Reading.value_or_None (Reading.Font.all_caps (Reading.Run.font run))
    /\ FontProperties.highlight_color properties
       = match Reading.Font.highlight_color (Reading.Run.font run) with
         | Py.Val (Some m) => Some (to_str m)
         | Py.Val None => Some (Py.lit "None")
         | Py.Raise _ => None
         end
    /\ FontProperties.subscript properties
       = Reading.value_or_None (Reading.Font.subscript (Reading.Run.font run))
    /\ FontProperties.superscript properties
       = Reading.value_or_None (Reading.Font.superscript (Reading.Run.font run))
    /\ (forall e, Reading.Font.color (Reading.Run.font run) = Py.Raise e ->
          FontProperties.color properties = None)
    /\ (Reading.Font.color (Reading.Run.font run) = Py.Val None ->
          FontProperties.color properties = None)
    /\ (forall cf e, Reading.Font.color (Reading.Run.font run) = Py.Val (Some cf) ->
          ColorFormat.rgb cf = Py.Raise e ->
          FontProperties.color properties = None)
    /\ (forall cf, Reading.Font.color (Reading.Run.font run) = Py.Val (Some cf) ->
          ColorFormat.rgb cf = Py.Val None ->
          FontProperties.color properties = None)
    /\ (forall cf x, Reading.Font.color (Reading.Run.font run) = Py.Val (Some cf) ->
          ColorFormat.rgb cf = Py.Val (Some x) ->
          FontProperties.color properties
          = if rgb_truth x then Some (color_string (Some x)) else None).
Proof.
  intros H. exists (Reading.font_properties_of run).
  split; [apply get_font_properties_quiet, H|].
  do 3 (split; [reflexivity|]).
  split.
  { simpl. destruct (Reading.Font.size (Reading.Run.font run)) as [[size|]|e];
      try reflexivity.
    simpl. destruct (size =? 0)%Z; reflexivity. }
  do 5 (split; [reflexivity|]).
  unfold Reading.font_properties_of, Reading.resolved_color. simpl.
  repeat split.
  - intros e ->. reflexivity.
  - intros ->. reflexivity.
  - intros cf e -> ->. reflexivity.
  - intros cf -> ->. reflexivity.
  - intros cf x -> ->. reflexivity.
Qed.

Lemma color_extraction_never_raises_witness :
  Reading.quiet_reads Sample.sparse_run = true
  /\ exists properties,
       Reading.get_font_properties Sample.sparse_run = Py.Val properties
       /\ FontProperties.bold properties = Some true
       /\ FontProperties.italic properties = None
       /\ FontProperties.font_size properties = Some (Py.lit "152400")
       /\ FontProperties.color properties = None
       /\ FontProperties.highlight_color properties = None.
Proof.
  split; [reflexivity|].
  destruct (color_extraction_never_raises Sample.sparse_run eq_refl)
    as (properties & Hp & Hb & Hi & _ & Hs & _ & _ & Hh & _ & _ & Hc & _).
  exists properties. split; [exact Hp|].
  split; [exact Hb|]. split; [exact Hi|]. split; [exact Hs|].
  split; [exact (Hc _ eq_refl) | exact Hh].
Defined.

(** The reads of lines 12 to 21 decide whether [get_font_properties]
    returns: it raises as soon as one of them raises another exception than
    [AttributeError]. *)
Lemma get_font_properties_returns_iff (run : Reading.Run.t) :
  (exists properties, Reading.get_font_properties run = Py.Val properties)
  <-> Reading.quiet_reads run = true.
Proof.
  split.
  - intros (properties & H). destruct (Reading.quiet_reads run) eqn:E; [reflexivity|].
    destruct (get_font_properties_loud _ E) as (e & He). congruence.
  - intros H. eexists. apply get_font_properties_quiet, H.
Qed.

(** X5: in the dict [get_font_properties] returns, [highlight_color] is
    [None] only for an object without the attribute; for a font it is [str]
    of the value read, the string ["None"] when no highlight is set; and
    when the read raises another exception no dict is returned. *)
Theorem highlight_color_of_returned_dict
  (run : Reading.Run.t) (properties : FontProperties.t) :
  Reading.get_font_properties run = Py.Val properties ->
  match Reading.Font.highlight_color (Reading.Run.font run) with
  | Py.Val (Some m) =>
    FontProperties.highlight_color properties
    = Some (member_name m ++ Py.lit " (" ++ Py.str_int (member_value m) ++ Py.lit ")")
  | Py.Val None => FontProperties.highlight_color properties = Some (Py.lit "None")
  | Py.Raise (Py.AttributeError _) => FontProperties.highlight_color properties = None
  | Py.Raise (Py.Error _ _) => False
  end.
Proof.
  intros H.
  assert (Hq : Reading.quiet_reads run = true)
    by (apply get_font_properties_returns_iff; eexists; exact H).
  rewrite (get_font_properties_quiet _ Hq) in H. injection H as <-.
  unfold Reading.quiet_reads in Hq.
  repeat (apply andb_prop in Hq; destruct Hq as [Hq ?]).
  simpl.
  destruct (Reading.Font.highlight_color (Reading.Run.font run)) as [[m|]|[m|c m]];
    try reflexivity.
  discriminate.
Qed.

Lemma highlight_color_of_returned_dict_witness :
  exists properties,
    Reading.get_font_properties (Returning.run (Sample.run_without_color "Hello"))
    = Py.Val properties
    /\ FontProperties.highlight_color properties = Some (Py.lit "None").
Proof.
  eexists. split; [vm_compute; reflexivity|].
  exact (@highlight_color_of_returned_dict
           (Returning.run (Sample.run_without_color "Hello")) _ eq_refl).
Defined.

(** *** The first model is this one on reads that return *)

Lemma for_each_map {A B S : Type} (f : A -> B)
  (body : A -> S -> Py.exc S) (body' : B -> S -> Py.exc S) (xs : list A) :
  (forall x s, body' (f x) s = body x s) ->
  forall s, Py.for_each (map f xs) body' s = Py.for_each xs body s.
Proof.
  intros H. induction xs as [|x xs IH]; intros s; simpl; [reflexivity|].
  rewrite H. destruct (body x s); simpl; [apply IH | reflexivity].
Qed.

Lemma get_font_properties_returning (r : Run.t) :
  Reading.get_font_properties (Returning.run r) = get_font_properties r.
Proof.
  unfold Reading.get_font_properties, Reading.read_properties,
    Reading.read_font_size, Reading.read_highlight_color, get_font_properties.
  simpl.
  destruct (Font.size (Run.font r)) as [v|]; simpl; [|reflexivity].
  destruct (negb (v =? 0)%Z); reflexivity.
Qed.

Lemma extract_runs_returning (runs : list Run.t) :
  Reading.extract_runs (map Returning.run runs) = extract_runs runs.
Proof.
  unfold Reading.extract_runs, extract_runs. apply for_each_map.
  intros r acc. unfold Reading.run_step, run_step. simpl.
  rewrite get_font_properties_returning. reflexivity.
Qed.

Lemma str_if_true_returning {A} `{PyObject A} (x : option A) :
  Reading.str_if_true (Py.Val x) = Py.Val (str_if_true x).
Proof.
  unfold Reading.str_if_true. simpl. destruct x as [v|]; simpl; [|reflexivity].
  destruct (truth v); reflexivity.
Qed.

Lemma get_paragraph_format_returning (p : Paragraph.t) :
  Reading.get_paragraph_format (Returning.paragraph p) = Py.Val (get_paragraph_format p).
Proof.
  unfold Reading.get_paragraph_format.
  cbn -[Reading.str_if_true str_if_true].
  rewrite !str_if_true_returning. reflexivity.
Qed.

Lemma paragraph_record_returning (p : Paragraph.t) :
  Reading.paragraph_record (Returning.paragraph p) = paragraph_record p.
Proof.
  unfold Reading.paragraph_record, paragraph_record.
  rewrite get_paragraph_format_returning. simpl.
  rewrite extract_runs_returning. reflexivity.
Qed.

Lemma body_paragraph_record_returning (p : Paragraph.t) :
  Reading.body_paragraph_record (Returning.paragraph p) = body_paragraph_record p.
Proof.
  unfold Reading.body_paragraph_record, body_paragraph_record, Reading.is_list_item.
  rewrite get_paragraph_format_returning. simpl.
  rewrite extract_runs_returning.
  change (Reading.list_level (Returning.paragraph p)) with (list_level p).
  reflexivity.
Qed.

Lemma section_step_returning (s : Section_.t) (c : DocumentContent.t) :
  Reading.section_step (Returning.section s) c = section_step s c.
Proof.
  unfold Reading.section_step, section_step. simpl.
  destruct (Section_.header s) as [ps|]; simpl; [|reflexivity].
  apply for_each_map. intros p c'.
  unfold Reading.header_paragraph_step, header_paragraph_step.
  rewrite paragraph_record_returning. reflexivity.
Qed.

Lemma body_step_returning (p : Paragraph.t) (st : BodyState) :
  Reading.body_step (Returning.paragraph p) st = body_step p st.
Proof.
  unfold Reading.body_step, body_step.
  rewrite body_paragraph_record_returning. reflexivity.
Qed.

Lemma table_step_returning (t : Table.t) (c : DocumentContent.t) :
  Reading.table_step (Returning.table t) c = table_step t c.
Proof.
  unfold Reading.table_step, table_step. simpl.
  rewrite (@for_each_map _ _ _ (map Returning.cell) row_step Reading.row_step);
    [reflexivity|].
  intros cells rows. unfold Reading.row_step, row_step.
  rewrite (@for_each_map _ _ _ Returning.cell cell_step Reading.cell_step);
    [reflexivity|].
  intros cell acc. unfold Reading.cell_step, cell_step. simpl.
  rewrite (@for_each_map _ _ _ Returning.paragraph cell_paragraph_step
             Reading.cell_paragraph_step); [reflexivity|].
  intros p acc'. unfold Reading.cell_paragraph_step, cell_paragraph_step.
  rewrite paragraph_record_returning. reflexivity.
Qed.

(** On documents whose reads all return, the extraction is that of the
    first model. *)
Lemma extract_docx_content_returning
  (Document : Py.str -> Py.exc Document.t) (docx_path : Py.str) :
  Reading.extract_docx_content (Returning.parser Document) docx_path
  = extract_docx_content Document docx_path.
Proof.
  unfold Reading.extract_docx_content, extract_docx_content, Returning.parser.
  destruct (Document docx_path) as [doc|e]; [|reflexivity].
  cbn [Py.bind Returning.document Reading.Document.sections
       Reading.Document.paragraphs Reading.Document.tables].
  rewrite (for_each_map Returning.section section_step Reading.section_step)
    by apply section_step_returning.
  destruct (Py.for_each (Document.sections doc) section_step _) as [c|e];
    [|reflexivity].
  cbn [Py.bind].
  rewrite (for_each_map Returning.paragraph body_step Reading.body_step)
    by apply body_step_returning.
  destruct (Py.for_each (Document.paragraphs doc) body_step _) as [st|e];
    [|reflexivity].
  cbn [Py.bind].
  rewrite (for_each_map Returning.table table_step Reading.table_step)
    by apply table_step_returning.
  reflexivity.
Qed.

(** *** Extraction *)

Lemma for_each_raises {A S : Type} (body : A -> S -> Py.exc S) (xs : list A) (x : A) :
  In x xs -> (forall s, exists e, body x s = Py.Raise e) ->
  forall s, exists e, Py.for_each xs body s = Py.Raise e.
Proof.
  intros Hx Hr. induction xs as [|y xs IH]; [destruct Hx|].
  intros s. simpl. destruct Hx as [->|Hx].
  - destruct (Hr s) as (e & ->). exists e. reflexivity.
  - destruct (body y s) as [s'|e]; simpl; [apply IH, Hx | exists e; reflexivity].
Qed.

Lemma for_each_preserves {A S : Type} (P : S -> Prop) (Q : A -> Prop)
  (body : A -> S -> Py.exc S) (xs : list A) :
  (forall x s s', Q x -> P s -> body x s = Py.Val s' -> P s') ->
  Forall Q xs ->
  forall s s', P s -> Py.for_each xs body s = Py.Val s' -> P s'.
Proof.
  intros Hstep HQ. induction HQ as [|x xs Hx _ IH]; intros s s' Hs H; simpl in H.
  - injection H as <-. exact Hs.
  - destruct (body x s) as [s1|e] eqn:E; simpl in H; [|discriminate].
    exact (IH s1 s' (Hstep x s s1 Hx Hs E) H).
Qed.

(** Line 106 raises on a paragraph that has the [numbering] attribute and a
    [numPr] without [ilvl], whatever its other reads do. *)
Lemma body_paragraph_record_raises (p : Reading.Paragraph.t)
  (pPr : CT_PPr.t) (numPr : CT_NumPr.t) :
  Reading.Paragraph.has_numbering p = true ->
  Reading.Paragraph.pPr p = Some pPr -> CT_PPr.numPr pPr = Some numPr ->
  CT_NumPr.ilvl numPr = None ->
  exists e, Reading.body_paragraph_record p = Py.Raise e.
Proof.
  intros Hn HpPr HnumPr Hilvl.
  unfold Reading.body_paragraph_record, Reading.is_list_item, Reading.list_level.
  rewrite Hn, HpPr, HnumPr, Hilvl.
  destruct (Reading.Paragraph.style_name p) as [name|e]; simpl; [|eauto].
  destruct (Reading.get_paragraph_format p) as [fmt|e]; simpl; eauto.
Qed.

(** X1: a body paragraph with text that has the [numbering] attribute and a
    [numPr] without [ilvl] makes the extraction raise: line 106 reads [val]
    of [None] there, and no record is returned for the document. *)
Theorem numbered_without_level_raises
  (Document : Py.str -> Py.exc Reading.Document.t) (docx_path : Py.str)
  (doc : Reading.Document.t) (p : Reading.Paragraph.t)
  (pPr : CT_PPr.t) (numPr : CT_NumPr.t) :
  Document docx_path = Py.Val doc ->
  In p (Reading.Document.paragraphs doc) ->
  has_text (Reading.Paragraph.text p) = true ->
  Reading.Paragraph.has_numbering p = true ->
  Reading.Paragraph.pPr p = Some pPr -> CT_PPr.numPr pPr = Some numPr ->
  CT_NumPr.ilvl numPr = None ->
  exists e, Reading.extract_docx_content Document docx_path = Py.Raise e.
Proof.
  intros HD Hp Ht Hn HpPr HnumPr Hilvl.
  unfold Reading.extract_docx_content. rewrite HD. cbn [Py.bind].
  destruct (Py.for_each (Reading.Document.sections doc) Reading.section_step _)
    as [c|e]; [|exists e; reflexivity].
  cbn [Py.bind].
  destruct (@for_each_raises _ _ Reading.body_step _ p Hp) with
    (s := {| content := c; current_list := None; list_items := [] |}) as (e & He).
  - intros st. unfold Reading.body_step. rewrite Ht.
    destruct (body_paragraph_record_raises _ Hn HpPr HnumPr Hilvl) as (e & ->).
    exists e. reflexivity.
  - rewrite He. exists e. reflexivity.
Qed.

Lemma numbered_without_level_raises_witness :
  exists e,
    Reading.extract_docx_content
      (Returning.parser (fun _ => Py.Val Sample.unlevelled_doc)) (Py.lit "a.docx")
    = Py.Raise e.
Proof.
  apply (@numbered_without_level_raises
           (Returning.parser (fun _ => Py.Val Sample.unlevelled_doc))
           (Py.lit "a.docx") (Returning.document Sample.unlevelled_doc)
           (Returning.paragraph Sample.numbered_without_level)
           {| CT_PPr.numPr := Some {| CT_NumPr.ilvl := None |} |}
           {| CT_NumPr.ilvl := None |}).
  - reflexivity.
  - simpl. right. left. reflexivity.
  - reflexivity.
  - reflexivity.
  - reflexivity.
  - reflexivity.
  - reflexivity.
Defined.

(** The exception is the [AttributeError] of line 106 when nothing before
    raises; a paragraph before it whose style cannot be read raises first. *)
Example numbered_without_level_examples :
  Reading.extract_docx_content
    (Returning.parser (fun _ => Py.Val Sample.unlevelled_doc)) (Py.lit "a.docx")
  = Py.Raise (Py.AttributeError (Py.lit "'NoneType' object has no attribute 'val'"))
  /\ Reading.extract_docx_content
       (fun _ => Py.Val
          {| Reading.Document.sections := [];
             Reading.Document.paragraphs :=
               [ {| Reading.Paragraph.text := Py.lit "before";
                    Reading.Paragraph.style_name :=
                      Py.Raise (Py.AttributeError
                        (Py.lit "'NoneType' object has no attribute 'name'"));
                    Reading.Paragraph.paragraph_format :=
                      Returning.paragraph_format Sample.format;
                    Reading.Paragraph.runs := [];
                    Reading.Paragraph.has_numbering := false;
                    Reading.Paragraph.pPr := None |};
                 Returning.paragraph Sample.numbered_without_level ];
             Reading.Document.tables := [] |})
       (Py.lit "a.docx")
     = Py.Raise (Py.AttributeError (Py.lit "'NoneType' object has no attribute 'name'")).
Proof. split; vm_compute; reflexivity. Qed.

(** The records of paragraphs without the [numbering] attribute. *)
Lemma body_paragraph_record_unnumbered (p : Reading.Paragraph.t)
  (r : BodyParagraphRecord.t) :
  Reading.Paragraph.has_numbering p = false ->
  Reading.body_paragraph_record p = Py.Val r ->
  BodyParagraphRecord.list_level r = None
  /\ BodyParagraphRecord.is_list_item r
     = Py.startswith (BodyParagraphRecord.style_name r) (Py.lit "List").
Proof.
  intros Hn. unfold Reading.body_paragraph_record, Reading.is_list_item,
    Reading.list_level.
  rewrite Hn.
  destruct (Reading.Paragraph.style_name p) as [name|e]; simpl; [|discriminate].
  destruct (Reading.get_paragraph_format p) as [fmt|e]; simpl; [|discriminate].
  destruct (Reading.extract_runs (Reading.Paragraph.runs p)) as [runs|e]; simpl;
    [|discriminate].
  intros H. injection H as <-. simpl. split; [reflexivity | apply orb_false_r].
Qed.

Section Unnumbered.
Variable ok : BodyParagraphRecord.t -> Prop.

Lemma body_step_records_ok (p : Reading.Paragraph.t) (st st' : BodyState) :
  (forall r, Reading.body_paragraph_record p = Py.Val r -> ok r) ->
  records_ok ok st -> Reading.body_step p st = Py.Val st' -> records_ok ok st'.
Proof.
  intros Hr (Hp & Hl & Hi). unfold Reading.body_step.
  destruct (has_text (Reading.Paragraph.text p)); [|intros H; injection H as <-; repeat split; assumption].
  destruct (Reading.body_paragraph_record p) as [r|e] eqn:E; simpl; [|discriminate].
  specialize (Hr r eq_refl).
  destruct (BodyParagraphRecord.is_list_item r); intros H; injection H as <-.
  - repeat split; simpl; try assumption.
    apply Forall_app. split; [assumption | constructor; [assumption | constructor]].
  - destruct (current_list st); repeat split; simpl;
      try (apply Forall_app; split; [assumption | constructor; [assumption | constructor]]);
      try assumption; try constructor.
Qed.

Lemma flush_list_records_ok (st : BodyState) :
  records_ok ok st -> Forall ok (body_records (flush_list st)).
Proof.
  intros (Hp & Hl & Hi). unfold body_records, flush_list.
  destruct (list_items st) as [|x l] eqn:E; simpl.
  - apply Forall_app. split; [assumption|]. apply Forall_concat. assumption.
  - apply Forall_app. split; [assumption|]. apply Forall_concat.
    apply Forall_app. split; [assumption|]. constructor; [assumption | constructor].
Qed.

End Unnumbered.

(** The loops over the headers and the tables leave [paragraphs] and [lists]
    as they are. *)
Lemma section_step_body_records (s : Reading.Section_.t) (c c' : DocumentContent.t) :
  Reading.section_step s c = Py.Val c' -> body_records c' = body_records c.
Proof.
  unfold Reading.section_step. destruct (Reading.Section_.header s) as [ps|];
    [|intros H; injection H as <-; reflexivity].
  apply (@for_each_preserves _ _ (fun c' => body_records c' = body_records c)
           (fun _ => True) Reading.header_paragraph_step ps).
  - intros p c1 c2 _ H1. unfold Reading.header_paragraph_step.
    destruct (has_text (Reading.Paragraph.text p));
      [|intros H; injection H as <-; exact H1].
    destruct (Reading.paragraph_record p) as [r|e]; simpl; [|discriminate].
    intros H; injection H as <-. exact H1.
  - apply Forall_forall. auto.
  - reflexivity.
Qed.

Lemma table_step_body_records (t : Reading.Table.t) (c c' : DocumentContent.t) :
  Reading.table_step t c = Py.Val c' -> body_records c' = body_records c.
Proof.
  unfold Reading.table_step.
  destruct (Py.for_each (Reading.Table.rows t) Reading.row_step []) as [rows|e];
    simpl; [|discriminate].
  destruct (any_cell_text rows); intros H; injection H as <-; reflexivity.
Qed.

(** X9: when no body paragraph has the [numbering] attribute (python-docx's
    [Paragraph] has none), every body record of the record the extraction
    returns has a [list_level] of [None], and its [is_list_item] tells
    whether its style name starts with [List]. *)
Theorem unnumbered_records
  (Document : Py.str -> Py.exc Reading.Document.t) (docx_path : Py.str)
  (doc : Reading.Document.t) (c : DocumentContent.t) :
  Document docx_path = Py.Val doc ->
  forallb (fun p => negb (Reading.Paragraph.has_numbering p))
          (Reading.Document.paragraphs doc) = true ->
  Reading.extract_docx_content Document docx_path = Py.Val c ->
  Forall (fun r => BodyParagraphRecord.list_level r = None) (body_records c)
  /\ Forall (fun r => BodyParagraphRecord.is_list_item r
                      = Py.startswith (BodyParagraphRecord.style_name r) (Py.lit "List"))
            (body_records c).
Proof.
  intros HD Hn. unfold Reading.extract_docx_content. rewrite HD. cbn [Py.bind].
  destruct (Py.for_each (Reading.Document.sections doc) Reading.section_step _)
    as [c0|e] eqn:E0; [|discriminate].
  cbn [Py.bind].
  destruct (Py.for_each (Reading.Document.paragraphs doc) Reading.body_step _)
    as [st|e] eqn:E1; [|discriminate].
  cbn [Py.bind].
  destruct (Py.for_each (Reading.Document.tables doc) Reading.table_step _)
    as [c1|e] eqn:E2; [|discriminate].
  cbn [Py.bind Py.ret]. intros H. injection H as <-.
  set (ok := fun r => BodyParagraphRecord.list_level r = None
                      /\ BodyParagraphRecord.is_list_item r
                         = Py.startswith (BodyParagraphRecord.style_name r)
                                         (Py.lit "List")).
  assert (H0 : body_records c0 = []).
  { apply (@for_each_preserves _ _ (fun c => body_records c = [])
             (fun _ => True) Reading.section_step _) with (4 := E0).
    - intros s c2 c3 _ H2 H3. rewrite (section_step_body_records _ _ H3). exact H2.
    - apply Forall_forall. auto.
    - reflexivity. }
  assert (Hst : records_ok ok st).
  { apply (@for_each_preserves _ _ (records_ok ok)
             (fun p => Reading.Paragraph.has_numbering p = false)
             Reading.body_step _) with (4 := E1).
    - intros p s s' Hp Hs. apply body_step_records_ok; [|exact Hs].
      intros r. apply body_paragraph_record_unnumbered, Hp.
    - apply Forall_forall. intros p Hp. rewrite forallb_forall in Hn.
      specialize (Hn p Hp). destruct (Reading.Paragraph.has_numbering p);
        [discriminate | reflexivity].
    - unfold body_records in H0. apply app_eq_nil in H0. destruct H0 as [Hp Hl].
      unfold records_ok. simpl. rewrite Hp.
      repeat split; try constructor.
      clear - Hl. induction (DocumentContent.lists c0) as [|l ls IH];
        [constructor|].
      simpl in Hl. apply app_eq_nil in Hl. destruct Hl as [-> Hl].
      constructor; [constructor | exact (IH Hl)]. }
  assert (Hc : Forall ok (body_records c1)).
  { assert (Heq : body_records c1 = body_records (flush_list st)).
    { apply (@for_each_preserves _ _
               (fun c => body_records c = body_records (flush_list st))
               (fun _ => True) Reading.table_step _) with (4 := E2).
      - intros t c2 c3 _ H2 H3. rewrite (table_step_body_records _ _ H3). exact H2.
      - apply Forall_forall. auto.
      - reflexivity. }
    rewrite Heq. apply flush_list_records_ok, Hst. }
  split; apply Forall_forall; intros r Hr;
    rewrite Forall_forall in Hc; destruct (Hc r Hr) as [H1 H2]; assumption.
Qed.

Lemma unnumbered_records_witness :
  Forall (fun r => BodyParagraphRecord.list_level r = None)
         (body_records Sample.content)
  /\ Forall (fun r => BodyParagraphRecord.is_list_item r
                      = Py.startswith (BodyParagraphRecord.style_name r) (Py.lit "List"))
            (body_records Sample.content).
Proof.
  apply (@unnumbered_records (Returning.parser Sample.Document) (Py.lit "a.docx")
           (Returning.document Sample.doc) Sample.content).
  - reflexivity.
  - reflexivity.
  - vm_compute. reflexivity.
Defined.

(* ===================================================================== *)
(** ** Properties of the driver on a standard output that can refuse a text *)
(* ===================================================================== *)

Section ConsoleFacts.
Variable encodes : Py.char -> bool.
Variable encode_error : Py.str -> Py.exn.

Lemma encodable_app (a b : Py.str) :
  Console.encodable encodes (a ++ b)
  = Console.encodable encodes a && Console.encodable encodes b.
Proof. apply forallb_app. Qed.

Lemma print_accepted (line : Py.str) (w : World) :
  Console.encodable encodes line = true ->
  Console.print encodes encode_error line w = (Console.put_line line w, Py.Val tt).
Proof.
  intros H. unfold Console.print, Console.print_args. simpl. rewrite H. reflexivity.
Qed.

Lemma print_refused (line : Py.str) (w : World) :
  Console.encodable encodes line = false ->
  Console.print encodes encode_error line w = (w, Py.Raise (encode_error line)).
Proof.
  intros H. unfold Console.print, Console.print_args. simpl. rewrite H. reflexivity.
Qed.

Lemma put_line_stdout (w : World) (before : list Py.str) (line : Py.str)
  (fs : Py.str -> option File) :
  Console.put_line line {| stdout := stdout w ++ before; files := fs |}
  = {| stdout := stdout w ++ before ++ [line]; files := fs |}.
Proof. unfold Console.put_line. simpl. rewrite <- app_assoc. reflexivity. Qed.

Section RoundFacts.
Variable extract : Py.str -> Py.exc DocumentContent.t.
Variable write : Py.str -> Py.str -> write_outcome.

(** The handler, when its two lines can be printed. *)
Lemma report_printed (docx_file : Py.str) (e : Py.exn) (w : World) :
  forallb (Console.encodable encodes) (error_lines docx_file e) = true ->
  Console.report encodes encode_error docx_file e w
  = ({| stdout := stdout w ++ error_lines docx_file e; files := files w |}, Py.Val tt).
Proof.
  unfold error_lines. cbn [forallb]. rewrite andb_true_r. intros H.
  apply andb_prop in H. destruct H as [H1 H2].
  unfold Console.report, IO.bind. rewrite print_accepted by exact H1.
  rewrite !encodable_app in H2.
  apply andb_prop in H2. destruct H2 as [Ha H2].
  apply andb_prop in H2. destruct H2 as [Hb Hc].
  unfold Console.print_args. cbn [Console.pieces Console.write_pieces].
  rewrite app_nil_l, Ha, Hb, Hc.
  unfold Console.put_line. cbn [stdout files].
  rewrite <- !app_assoc. reflexivity.
Qed.

(** The handler raises when its first line cannot be printed, and leaves
    the world as it finds it. *)
Lemma report_refused (docx_file : Py.str) (e : Py.exn) (w : World) :
  Console.encodable encodes
    (Py.lit "Error processing " ++ docx_file ++ Py.lit ": " ++ Py.str_exn e) = false ->
  Console.report encodes encode_error docx_file e w
  = (w, Py.Raise (encode_error (Py.lit "Error processing " ++ docx_file ++ Py.lit ": "
                                ++ Py.str_exn e))).
Proof.
  intros H. unfold Console.report, IO.bind. rewrite print_refused by exact H. reflexivity.
Qed.

(** The [try] body: the world it leaves, and its result. *)
Lemma attempt_outcome (docx_file : Py.str) (w : World) :
  Console.attempt encodes encode_error extract write docx_file w
  = ({| stdout := stdout w
                  ++ (if Console.encodable encodes (Console.processing_line docx_file)
                      then [Console.processing_line docx_file] else [])
                  ++ match Console.file_failure encodes encode_error extract write
                             docx_file with
                     | Some _ => []
                     | None => [Console.success_line docx_file]
                     end;
        files := match Console.file_written encodes extract write docx_file with
                 | Some f => files (IO.put_file (json_filename_of docx_file) f w)
                 | None => files w
                 end |},
     match Console.file_failure encodes encode_error extract write docx_file with
     | Some e => Py.Raise e
     | None => Py.Val tt
     end).
Proof.
  unfold Console.attempt, Console.file_failure, Console.file_written, IO.bind, IO.lift,
    dump_json.
  fold (Console.processing_line docx_file).
  fold (Console.success_line docx_file).
  destruct (Console.encodable encodes (Console.processing_line docx_file)) eqn:E1.
  - rewrite print_accepted by exact E1.
    destruct (extract docx_file) as [content|e].
    + destruct (write (json_filename_of docx_file) (Json.dumps (json_of_content content)))
        as [|e|e partial].
      * destruct (Console.encodable encodes (Console.success_line docx_file)) eqn:E2.
        -- rewrite print_accepted by exact E2.
           unfold Console.put_line, IO.put_file. cbn [stdout files app].
           rewrite <- app_assoc. reflexivity.
        -- rewrite print_refused by exact E2.
           unfold Console.put_line, IO.put_file. cbn [stdout files app]. reflexivity.
      * unfold Console.put_line. cbn [stdout files app]. reflexivity.
      * unfold Console.put_line, IO.put_file. cbn [stdout files app]. reflexivity.
    + unfold Console.put_line. cbn [stdout files app]. reflexivity.
  - rewrite print_refused by exact E1. cbn [app]. rewrite app_nil_r.
    destruct w; reflexivity.
Qed.

(** A round whose failure, if any, is reported returns. *)
Lemma process_file_reported (docx_file : Py.str) (w : World) :
  Console.reported encodes encode_error extract write docx_file = true ->
  Console.process_file encodes encode_error extract write docx_file w
  = (Console.after_file encodes encode_error extract write docx_file w, Py.Val tt).
Proof.
  unfold Console.reported, Console.process_file, IO.try_except, Console.after_file,
    Console.file_log.
  rewrite attempt_outcome.
  destruct (Console.file_failure encodes encode_error extract write docx_file) as [e|].
  - intros H. rewrite report_printed by exact H. cbn [stdout files].
    rewrite app_nil_r, <- app_assoc. reflexivity.
  - intros _. reflexivity.
Qed.

Lemma for_each_reported (docx_files : list Py.str) (w : World) :
  forallb (Console.reported encodes encode_error extract write) docx_files = true ->
  IO.for_each docx_files (Console.process_file encodes encode_error extract write) w
  = (fold_left (fun w f => Console.after_file encodes encode_error extract write f w)
               docx_files w, Py.Val tt).
Proof.
  revert w. induction docx_files as [|f fs IH]; intros w H; simpl; [reflexivity|].
  simpl in H. apply andb_prop in H. destruct H as [Hf Hfs].
  unfold IO.bind. rewrite process_file_reported by exact Hf. apply IH, Hfs.
Qed.

Lemma stdout_after_reported (docx_files : list Py.str) (w : World) :
  stdout (fold_left (fun w f => Console.after_file encodes encode_error extract write f w)
                    docx_files w)
  = stdout w
    ++ flat_map (Console.file_log encodes encode_error extract write) docx_files.
Proof.
  revert w. induction docx_files as [|f fs IH]; intros w; simpl.
  - rewrite app_nil_r. reflexivity.
  - rewrite IH. simpl. rewrite <- app_assoc. reflexivity.
Qed.

End RoundFacts.
End ConsoleFacts.

(** C7, as stated, fails: a failure can end the batch.  The two [print]s
    of the handler (lines 198 and 199) are under no [try], and they print
    the file name.  With a standard output in UTF-8 and a listing that
    holds [bad\udcff.docx] (a name with a byte that is no UTF-8) before
    [z.docx], line 187 raises [UnicodeEncodeError] for the first file, the
    handler catches it, and line 198 raises it again: [process_docx_files]
    ends with that exception, nothing is printed or written, and [z.docx]
    is never processed. *)
Lemma unprintable_name_ends_batch :
  Console.process_docx_files Console.utf8 Console.utf8_error Sample.lower
    (Py.Val [Sample.bad_name; Py.lit "z.docx"])
    (extract_docx_content (fun _ => Py.Val Sample.doc)) (fun _ _ => written)
    {| stdout := []; files := fun _ => None |}
  = ({| stdout := []; files := fun _ => None |},
     Py.Raise (Py.Error (Py.lit "UnicodeEncodeError")
       (Py.lit "'utf-8' codec can't encode character '\udcff' in position 20: surrogates not allowed")))
  /\ filter (is_docx Sample.lower) [Sample.bad_name; Py.lit "z.docx"]
     = [Sample.bad_name; Py.lit "z.docx"].
Proof. split; vm_compute; reflexivity. Qed.

(** C7, amended: provided the standard output takes the two lines of the
    handler for every matching file whose [try] body raises (its encoding
    has the characters of the file name and of [str(e)]),
    [process_docx_files] returns without an exception whatever the
    extraction and the write of each file do; every matching file gets its
    round, in the order of the listing, also after a file that failed: the
    output is the concatenation of the lines of each file, and a file whose
    extraction, write or progress line raised [e] has the two error lines,
    which carry [str(e)]. *)
Theorem batch_continues_when_reported
  (encodes : Py.char -> bool) (encode_error : Py.str -> Py.exn)
  (lower : Py.str -> Py.str) (listing : list Py.str)
  (extract : Py.str -> Py.exc DocumentContent.t)
  (write : Py.str -> Py.str -> write_outcome) (w : World) :
  Console.batch_reported encodes encode_error lower extract write listing = true ->
  exists w',
    Console.process_docx_files encodes encode_error lower (Py.Val listing) extract write w
    = (w', Py.Val tt)
    /\ w' = Console.after_batch encodes encode_error lower extract write listing w
    /\ stdout w'
       = stdout w
         ++ match filter (is_docx lower) listing with
            | [] => [Py.lit "No .docx files found in the current directory"]
            | docx_files =>
              flat_map (Console.file_log encodes encode_error extract write) docx_files
            end
    /\ forall docx_file, In docx_file (filter (is_docx lower) listing) ->
         (forall e, Console.file_failure encodes encode_error extract write docx_file
                    = Some e ->
            In (Py.lit "Error processing " ++ docx_file ++ Py.lit ": " ++ Py.str_exn e)
               (stdout w')
            /\ In (Py.lit "Full error details: " ++ Py.lit " " ++ Py.str_exn e)
                  (stdout w'))
         /\ (Console.file_failure encodes encode_error extract write docx_file = None ->
               In (Py.lit "Processing " ++ docx_file ++ Py.lit "...") (stdout w')
               /\ In (Py.lit "Successfully created " ++ json_filename_of docx_file)
                     (stdout w')).
Proof.
  unfold Console.batch_reported, Console.after_batch, Console.process_docx_files,
    IO.bind, IO.lift.
  destruct (filter (is_docx lower) listing) as [|f fs] eqn:E; intros H.
  - rewrite print_accepted by exact H. eexists.
    split; [reflexivity|]. split; [reflexivity|]. split; [reflexivity|]. intros x [].
  - rewrite for_each_reported by exact H. eexists.
    split; [reflexivity|]. split; [reflexivity|].
    rewrite stdout_after_reported. split; [reflexivity|].
    intros x Hx.
    assert (Hlog : forall line,
              In line (Console.file_log encodes encode_error extract write x) ->
              In line (stdout w ++ flat_map (Console.file_log encodes encode_error
                                               extract write) (f :: fs))).
    { intros line Hline. apply in_or_app. right.
      apply in_flat_map. exists x. split; assumption. }
    split.
    + intros e He. split; apply Hlog; unfold Console.file_log; rewrite He;
        apply in_or_app; right.
      * left. reflexivity.
      * right. left. reflexivity.
    + intros He. unfold Console.file_failure in He.
      destruct (Console.encodable encodes (Console.processing_line x)) eqn:E1;
        [|discriminate].
      split; apply Hlog; unfold Console.file_log; rewrite E1.
      * left. reflexivity.
      * right. unfold Console.file_failure. rewrite E1, He. left. reflexivity.
Qed.

Lemma batch_continues_when_reported_witness :
  exists w',
    Console.process_docx_files Console.utf8 Console.utf8_error Sample.lower
      (Py.Val [Py.lit "a.docx"; Py.lit "b.docx"; Py.lit "notes.txt"; Py.lit "A.DOCX"])
      (extract_docx_content Sample.Document) (fun _ _ => written)
      {| stdout := []; files := fun _ => None |}
    = (w', Py.Val tt)
    /\ stdout w'
       = map Py.lit
           [ "Processing a.docx..."; "Successfully created a.json";
             "Processing b.docx..."; "Error processing b.docx: Package not found";
             "Full error details:  Package not found";
             "Processing A.DOCX..."; "Error processing A.DOCX: Package not found";
             "Full error details:  Package not found" ]%string.
Proof.
  destruct (@batch_continues_when_reported Console.utf8 Console.utf8_error Sample.lower
              [Py.lit "a.docx"; Py.lit "b.docx"; Py.lit "notes.txt"; Py.lit "A.DOCX"]
              (extract_docx_content Sample.Document) (fun _ _ => written)
              {| stdout := []; files := fun _ => None |})
    as (w' & Hrun & _ & Hout & _).
  - vm_compute. reflexivity.
  - exists w'. split; [exact Hrun|]. rewrite Hout. vm_compute. reflexivity.
Defined.

(* ===================================================================== *)
(** ** Properties of the JSON file *)
(* ===================================================================== *)

(** *** Indentation of the dump *)

Lemma leading_spaces_repeat (n : nat) (t : Py.str) :
  starts_visible t = true -> leading_spaces (repeat 32%N n ++ t) = n.
Proof.
  intros H. induction n as [|n IH]; simpl.
  - destruct t as [|c t]; [discriminate|]. simpl in *. unfold visible in H.
    destruct (c =? 32)%N; [discriminate | reflexivity].
  - rewrite IH. reflexivity.
Qed.

Lemma indents_repeat (n : nat) (t : Py.str) :
  indents (repeat 32%N n ++ t) = indents t.
Proof. induction n as [|n IH]; simpl; [reflexivity | exact IH]. Qed.

Lemma indents_newline_indent (indent level : nat) (t : Py.str) :
  starts_visible t = true ->
  indents (Json.newline_indent indent level ++ t) = indent * level :: indents t.
Proof.
  intros H. unfold Json.newline_indent. simpl.
  rewrite leading_spaces_repeat by exact H. rewrite indents_repeat. reflexivity.
Qed.

Lemma leading_spaces_app (a : Py.str) (c : Py.char) (b : Py.str) :
  visible c = true -> leading_spaces (a ++ c :: b) = leading_spaces (a ++ [c]).
Proof.
  intros H. induction a as [|x a IH]; simpl.
  - unfold visible in H. destruct (c =? 32)%N; [discriminate | reflexivity].
  - rewrite IH. reflexivity.
Qed.

Lemma indents_app_char (a : Py.str) (c : Py.char) (b : Py.str) :
  visible c = true -> indents (a ++ c :: b) = indents (a ++ [c]) ++ indents b.
Proof.
  intros H. induction a as [|x a IH]; simpl.
  - unfold visible in H. destruct (c =? 10)%N; [|reflexivity].
    rewrite andb_false_r in H. discriminate.
  - rewrite IH, (@leading_spaces_app a c b H).
    destruct (x =? 10)%N; reflexivity.
Qed.

Lemma ends_visible_last (a : Py.str) :
  ends_visible a = true -> exists t c, a = t ++ [c] /\ visible c = true.
Proof.
  unfold ends_visible. destruct (rev a) as [|c r] eqn:E; [discriminate|].
  simpl. intros H. exists (rev r), c. split; [|exact H].
  rewrite <- (rev_involutive a), E. reflexivity.
Qed.

Lemma indents_app (a b : Py.str) :
  ends_visible a = true -> indents (a ++ b) = indents a ++ indents b.
Proof.
  intros H. destruct (ends_visible_last _ H) as (t & c & -> & Hc).
  rewrite <- app_assoc. simpl. apply indents_app_char, Hc.
Qed.

Lemma indents_after (a b : Py.str) :
  no_line_feed a = true -> indents (a ++ b) = indents b.
Proof.
  induction a as [|x a IH]; simpl; [reflexivity|].
  intros H. apply andb_prop in H. destruct H as [Hx Ha].
  destruct (x =? 10)%N; [discriminate | exact (IH Ha)].
Qed.

Lemma indents_none (a : Py.str) : no_line_feed a = true -> indents a = [].
Proof. intros H. rewrite <- (app_nil_r a). rewrite indents_after by exact H. reflexivity. Qed.

Lemma starts_visible_app (a b : Py.str) :
  starts_visible a = true -> starts_visible (a ++ b) = true.
Proof. destruct a; [discriminate | simpl; auto]. Qed.

Lemma ends_visible_app (a b : Py.str) :
  ends_visible b = true -> ends_visible (a ++ b) = true.
Proof.
  unfold ends_visible. rewrite rev_app_distr. apply starts_visible_app.
Qed.

(** Texts made of visible characters. *)
Lemma all_visible (s : Py.str) :
  forallb visible s = true -> s <> [] ->
  starts_visible s = true /\ ends_visible s = true /\ no_line_feed s = true.
Proof.
  intros H Hne. split; [|split].
  - destruct s as [|c s]; [contradiction|]. simpl in *.
    apply andb_prop in H. tauto.
  - unfold ends_visible. destruct (rev s) as [|c r] eqn:E.
    + apply (f_equal (@rev Py.char)) in E. rewrite rev_involutive in E. contradiction.
    + simpl. rewrite forallb_forall in H. apply H. apply in_rev. rewrite E. left. reflexivity.
  - unfold no_line_feed. rewrite forallb_forall in *. intros c Hc.
    specialize (H c Hc). unfold visible in H. apply andb_prop in H. tauto.
Qed.

Lemma uint_visible (d : Decimal.uint) :
  forallb visible (Py.lit (DecimalString.NilEmpty.string_of_uint d)) = true.
Proof. induction d; simpl; try reflexivity; exact IHd. Qed.

Lemma str_int_visible (n : Z) :
  forallb visible (Py.str_int n) = true /\ Py.str_int n <> [].
Proof.
  unfold Py.str_int, DecimalString.NilZero.string_of_int.
  destruct (Z.to_int n) as [d|d]; unfold DecimalString.NilZero.string_of_uint.
  - destruct d; simpl; split; try discriminate; try reflexivity; apply uint_visible.
  - destruct d; simpl; split; try discriminate; try reflexivity; apply uint_visible.
Qed.

Lemma encode_str_visible (s : Py.str) :
  starts_visible (Json.encode_str s) = true
  /\ ends_visible (Json.encode_str s) = true
  /\ no_line_feed (Json.encode_str s) = true.
Proof.
  unfold Json.encode_str. split; [reflexivity|]. split.
  - rewrite app_assoc. apply ends_visible_app. reflexivity.
  - unfold no_line_feed. simpl. rewrite forallb_app. simpl. rewrite andb_true_r.
    induction s as [|c s IH]; simpl; [reflexivity|].
    rewrite forallb_app, IH, andb_true_r.
    pose proof (escape_char_printable c) as H. rewrite forallb_forall in *.
    intros x Hx. specialize (H x Hx). apply N.leb_le in H.
    destruct (N.eqb_spec x 10); [lia | reflexivity].
Qed.

Lemma value_induction (P : Json.value -> Prop) :
  P Json.Null -> (forall b, P (Json.Bool b)) -> (forall n, P (Json.Int n)) ->
  (forall s, P (Json.Str s)) ->
  (forall l, Forall P l -> P (Json.List l)) ->
  (forall d, Forall (fun kv => P (snd kv)) d -> P (Json.Dict d)) ->
  forall v, P v.
Proof.
  intros HN HB HI HS HL HD. fix IH 1. intros [ | b | n | s | l | d].
  - exact HN.
  - apply HB.
  - apply HI.
  - apply HS.
  - apply HL. revert l. fix IHl 1. intros [|x l]; constructor; [apply IH | apply IHl].
  - apply HD. revert d. fix IHd 1. intros [|[k x] d]; constructor; [apply IH | apply IHd].
Qed.

Lemma indented_flat (indent level : nat) (s : Py.str) :
  starts_visible s = true -> ends_visible s = true -> no_line_feed s = true ->
  indented indent level s.
Proof.
  intros H1 H2 H3. repeat split; try assumption.
  rewrite indents_none by exact H3. constructor.
Qed.

Lemma indented_weaken (indent level : nat) (s : Py.str) :
  indented indent (S level) s -> indented indent level s.
Proof.
  intros (H1 & H2 & H3). repeat split; try assumption.
  eapply Forall_impl; [|exact H3]. intros n (k & -> & Hk). exists k. split; [reflexivity | lia].
Qed.

Lemma indented_join (indent level : nat) (parts : list Py.str) :
  parts <> [] -> Forall (indented indent level) parts ->
  indented indent level
    (Json.join (Py.lit "," ++ Json.newline_indent indent level) parts).
Proof.
  intros Hne H. induction H as [|p parts Hp Hparts IH]; [contradiction|].
  destruct parts as [|q parts]; [exact Hp|].
  assert (IH' := IH ltac:(discriminate)). clear IH.
  change (Json.join ?sep (p :: q :: parts))
    with (p ++ sep ++ Json.join sep (q :: parts)).
  destruct Hp as (Hp1 & Hp2 & Hp3). destruct IH' as (Hj1 & Hj2 & Hj3).
  split; [|split].
  - apply starts_visible_app, Hp1.
  - apply ends_visible_app, ends_visible_app, Hj2.
  - rewrite indents_app by exact Hp2. apply Forall_app. split; [exact Hp3|].
    rewrite <- app_assoc. rewrite indents_after by reflexivity.
    rewrite indents_newline_indent by exact Hj1.
    constructor; [exists level; split; [reflexivity | lia] | exact Hj3].
Qed.

Lemma indented_brackets (indent level : nat) (open_ close : Py.char) (body : Py.str) :
  visible open_ = true -> visible close = true ->
  indented indent (S level) body ->
  indented indent level
    ([open_] ++ Json.newline_indent indent (S level) ++ body
     ++ Json.newline_indent indent level ++ [close]).
Proof.
  intros Ho Hc (Hb1 & Hb2 & Hb3). split; [|split].
  - exact Ho.
  - do 3 apply ends_visible_app.
    apply (@ends_visible_app (Json.newline_indent indent level) [close]). exact Hc.
  - assert (Hno : forall c, visible c = true -> no_line_feed [c] = true).
    { intros c H. unfold visible in H. apply andb_prop in H. destruct H as [_ H].
      unfold no_line_feed. simpl. rewrite H. reflexivity. }
    rewrite indents_after by exact (Hno _ Ho).
    rewrite indents_newline_indent by (apply starts_visible_app, Hb1).
    rewrite indents_app by exact Hb2.
    rewrite indents_newline_indent by exact Hc.
    rewrite (@indents_none [close]) by exact (Hno _ Hc).
    constructor; [exists (S level); split; [reflexivity | lia]|].
    apply Forall_app. split.
    + eapply Forall_impl; [|exact Hb3]. intros n (k & -> & Hk).
      exists k. split; [reflexivity | lia].
    + constructor; [exists level; split; [reflexivity | lia] | constructor].
Qed.

(** With [indent], every line of the text of a value starts with a multiple
    of [indent] spaces. *)
Lemma encode_indented (indent : nat) (v : Json.value) :
  forall level, indented indent level (Json.encode indent level v).
Proof.
  induction v as [ | b | n | s | l IH | d IH] using value_induction; intros level.
  - apply indented_flat; reflexivity.
  - destruct b; apply indented_flat; reflexivity.
  - destruct (str_int_visible n) as [H Hne].
    destruct (@all_visible _ H Hne) as (H1 & H2 & H3).
    apply indented_flat; assumption.
  - destruct (encode_str_visible s) as (H1 & H2 & H3).
    apply indented_flat; assumption.
  - destruct l as [|x l]; [apply indented_flat; reflexivity|].
    change (Json.encode indent level (Json.List (x :: l)))
      with ([91%N] ++ Json.newline_indent indent (S level)
            ++ Json.join (Py.lit "," ++ Json.newline_indent indent (S level))
                         (map (Json.encode indent (S level)) (x :: l))
            ++ Json.newline_indent indent level ++ [93%N]).
    apply indented_brackets; try reflexivity.
    apply indented_join; [discriminate|].
    apply Forall_map. eapply Forall_impl; [|exact IH]. intros v Hv. apply Hv.
  - destruct d as [|kv d]; [apply indented_flat; reflexivity|].
    change (Json.encode indent level (Json.Dict (kv :: d)))
      with ([123%N] ++ Json.newline_indent indent (S level)
            ++ Json.join (Py.lit "," ++ Json.newline_indent indent (S level))
                 (map (fun kv => Json.encode_str (fst kv) ++ Py.lit ": "
                                 ++ Json.encode indent (S level) (snd kv)) (kv :: d))
            ++ Json.newline_indent indent level ++ [125%N]).
    apply indented_brackets; try reflexivity.
    apply indented_join; [discriminate|].
    apply Forall_map. eapply Forall_impl; [|exact IH]. intros [k v] Hv.
    simpl fst. simpl snd. specialize (Hv (S level)). simpl snd in Hv.
    destruct Hv as (H1 & H2 & H3). destruct (encode_str_visible k) as (K1 & K2 & K3).
    split; [|split].
    + apply starts_visible_app, K1.
    + apply ends_visible_app, ends_visible_app, H2.
    + rewrite indents_after by exact K3.
      rewrite indents_after by reflexivity. exact H3.
Qed.

(** The layout of the dump: an opening brace, the five keys on a line each
    after four spaces, a closing brace on a line of its own. *)
Lemma dump_layout (c : DocumentContent.t) :
  Json.dumps (json_of_content c)
  = Py.lit "{"
    ++ (10%N :: repeat 32%N 4) ++ Json.encode_str (Py.lit "paragraphs") ++ Py.lit ": "
    ++ Json.encode 4 1 (Json.List (map json_of_body_paragraph (DocumentContent.paragraphs c)))
    ++ Py.lit ","
    ++ (10%N :: repeat 32%N 4) ++ Json.encode_str (Py.lit "tables") ++ Py.lit ": "
    ++ Json.encode 4 1 (Json.List (map json_of_table (DocumentContent.tables c)))
    ++ Py.lit ","
    ++ (10%N :: repeat 32%N 4) ++ Json.encode_str (Py.lit "headers") ++ Py.lit ": "
    ++ Json.encode 4 1 (Json.List (map json_of_paragraph (DocumentContent.headers c)))
    ++ Py.lit ","
    ++ (10%N :: repeat 32%N 4) ++ Json.encode_str (Py.lit "document_name") ++ Py.lit ": "
    ++ Json.encode_str (DocumentContent.document_name c)
    ++ Py.lit ","
    ++ (10%N :: repeat 32%N 4) ++ Json.encode_str (Py.lit "lists") ++ Py.lit ": "
    ++ Json.encode 4 1
         (Json.List (map (fun l => Json.List (map json_of_body_paragraph l))
                         (DocumentContent.lists c)))
    ++ [10%N] ++ Py.lit "}".
Proof.
  unfold Json.dumps, json_of_content.
  cbn [Json.encode map fst snd Json.join Json.newline_indent Nat.mul Nat.add repeat].
  rewrite <- !app_assoc. reflexivity.
Qed.

(** The items of a list that is not empty are written on a line each, four
    spaces further in than the line of the closing bracket. *)
Lemma encode_list_layout (level : nat) (x : Json.value) (l : list Json.value) :
  Json.encode 4 level (Json.List (x :: l))
  = Py.lit "[" ++ (10%N :: repeat 32%N (4 * S level))
    ++ Json.join (Py.lit "," ++ (10%N :: repeat 32%N (4 * S level)))
                 (map (Json.encode 4 (S level)) (x :: l))
    ++ (10%N :: repeat 32%N (4 * level)) ++ Py.lit "]".
Proof. reflexivity. Qed.

(** C8, as stated, fails: the extension is not always replaced.  The name
    [.docx] passes the test of line 179, [os.path.splitext] finds no
    extension in it (its leading dot starts the name), and the round writes
    [.docx.json]; no file [.json] is written.  Likewise for [..docx]. *)
Lemma dot_docx_keeps_its_extension :
  is_docx Sample.lower (Py.lit ".docx") = true
  /\ is_docx Sample.lower (Py.lit "..docx") = true
  /\ json_filename_of (Py.lit "..docx") = Py.lit "..docx.json"
  /\ exists w',
       Console.process_file Console.utf8 Console.utf8_error
         (extract_docx_content (fun _ => Py.Val Sample.doc)) (fun _ _ => written)
         (Py.lit ".docx") {| stdout := []; files := fun _ => None |}
       = (w', Py.Val tt)
       /\ stdout w'
          = map Py.lit [ "Processing .docx..."; "Successfully created .docx.json" ]%string
       /\ files w' (Py.lit ".docx.json")
          = Some {| encoding := Py.lit "utf-8";
                    data := Json.dumps (json_of_content
                                          (content_of (Py.lit ".docx") Sample.doc)) |}
       /\ files w' (Py.lit ".json") = None.
Proof.
  do 3 (split; [vm_compute; reflexivity|]).
  eexists. split; [vm_compute; reflexivity|].
  split; [|split]; vm_compute; reflexivity.
Qed.

(** C8, amended: a file whose extraction and write succeed, and whose two
    progress lines the standard output takes, leaves the working directory
    with exactly one file changed, the one named by the input name without
    the extension [os.path.splitext] finds, followed by [.json].  For a name
    [stem.ext] without [/], where [ext] has no dot, that is [stem.json]
    when [stem] has a character that is no dot; when [stem] is empty or made
    of dots ([.docx], [..docx]), [splitext] finds no extension and [.json]
    is appended to the whole name.  The file is opened as UTF-8 and holds
    the dump of the content with an indent of 4: the five keys on a line
    each after four spaces, every line of the text starting with a multiple
    of four spaces, and the characters outside ASCII written as they
    are. *)
Theorem successful_round_writes_json
  (encodes : Py.char -> bool) (encode_error : Py.str -> Py.exn)
  (extract : Py.str -> Py.exc DocumentContent.t)
  (write : Py.str -> Py.str -> write_outcome)
  (docx_file : Py.str) (content : DocumentContent.t) (w : World) :
  Console.encodable encodes (Py.lit "Processing " ++ docx_file ++ Py.lit "...") = true ->
  Console.encodable encodes
    (Py.lit "Successfully created " ++ json_filename_of docx_file) = true ->
  extract docx_file = Py.Val content ->
  write (json_filename_of docx_file) (Json.dumps (json_of_content content)) = written ->
  exists w' text,
    Console.process_file encodes encode_error extract write docx_file w = (w', Py.Val tt)
    /\ (forall name,
          files w' name
          = if Py.eqb name (fst (Posix.splitext docx_file) ++ Py.lit ".json")
            then Some {| encoding := Py.lit "utf-8"; data := text |}
            else files w name)
    /\ stdout w'
       = stdout w
         ++ [ Py.lit "Processing " ++ docx_file ++ Py.lit "...";
              Py.lit "Successfully created "
              ++ fst (Posix.splitext docx_file) ++ Py.lit ".json" ]
    /\ fst (Posix.splitext docx_file) ++ snd (Posix.splitext docx_file) = docx_file
    /\ (forall stem ext,
          docx_file = stem ++ Posix.extsep :: ext ->
          ~ In Posix.sep docx_file -> ~ In Posix.extsep ext ->
          (exists c, In c stem /\ c <> Posix.extsep) ->
          json_filename_of docx_file = stem ++ Py.lit ".json")
    /\ (forall stem ext,
          docx_file = stem ++ Posix.extsep :: ext ->
          ~ In Posix.sep docx_file -> ~ In Posix.extsep ext ->
          forallb (fun c => (c =? Posix.extsep)%N) stem = true ->
          json_filename_of docx_file = docx_file ++ Py.lit ".json")
    /\ text = Json.encode 4 0 (json_of_content content)
    /\ text
       = Py.lit "{"
         ++ (10%N :: repeat 32%N 4) ++ Json.encode_str (Py.lit "paragraphs") ++ Py.lit ": "
         ++ Json.encode 4 1
              (Json.List (map json_of_body_paragraph (DocumentContent.paragraphs content)))
         ++ Py.lit ","
         ++ (10%N :: repeat 32%N 4) ++ Json.encode_str (Py.lit "tables") ++ Py.lit ": "
         ++ Json.encode 4 1 (Json.List (map json_of_table (DocumentContent.tables content)))
         ++ Py.lit ","
         ++ (10%N :: repeat 32%N 4) ++ Json.encode_str (Py.lit "headers") ++ Py.lit ": "
         ++ Json.encode 4 1
              (Json.List (map json_of_paragraph (DocumentContent.headers content)))
         ++ Py.lit ","
         ++ (10%N :: repeat 32%N 4) ++ Json.encode_str (Py.lit "document_name")
         ++ Py.lit ": " ++ Json.encode_str (DocumentContent.document_name content)
         ++ Py.lit ","
         ++ (10%N :: repeat 32%N 4) ++ Json.encode_str (Py.lit "lists") ++ Py.lit ": "
         ++ Json.encode 4 1
              (Json.List (map (fun l => Json.List (map json_of_body_paragraph l))
                              (DocumentContent.lists content)))
         ++ [10%N] ++ Py.lit "}"
    /\ Forall (fun n => exists k, n = 4 * k) (indents text)
    /\ (forall level x l,
          Json.encode 4 level (Json.List (x :: l))
          = Py.lit "[" ++ (10%N :: repeat 32%N (4 * S level))
            ++ Json.join (Py.lit "," ++ (10%N :: repeat 32%N (4 * S level)))
                         (map (Json.encode 4 (S level)) (x :: l))
            ++ (10%N :: repeat 32%N (4 * level)) ++ Py.lit "]")
    /\ (forall c, (128 <= c)%N -> Json.escape_char c = [c]).
Proof.
  intros Hp Hs He Hw.
  assert (Hf : Console.file_failure encodes encode_error extract write docx_file = None).
  { unfold Console.file_failure, Console.processing_line, Console.success_line.
    rewrite Hp, He, Hw, Hs. reflexivity. }
  exists (Console.after_file encodes encode_error extract write docx_file w),
         (Json.dumps (json_of_content content)).
  split.
  { apply process_file_reported. unfold Console.reported. rewrite Hf. reflexivity. }
  unfold Console.after_file, Console.file_log, Console.file_written.
  rewrite Hf. unfold Console.processing_line, Console.success_line.
  rewrite Hp, He, Hw. cbn [stdout files IO.put_file app].
  split; [reflexivity|]. split; [reflexivity|].
  split; [apply splitext_parts|].
  split.
  { intros stem ext -> Hsep Hdot Hc. apply json_filename_stem; assumption. }
  split.
  { intros stem ext -> Hsep Hdot Hall.
    unfold json_filename_of. rewrite (splitext_stem_ext _ _ Hsep Hdot), Hall.
    reflexivity. }
  split; [reflexivity|]. split; [apply dump_layout|].
  split.
  { destruct (encode_indented 4 (json_of_content content) 0) as (_ & _ & H).
    eapply Forall_impl; [|exact H]. intros n (k & -> & _). exists k. reflexivity. }
  split; [intros; apply encode_list_layout | exact escape_char_non_ascii].
Qed.

Lemma successful_round_writes_json_witness :
  exists w',
    Console.process_file Console.utf8 Console.utf8_error
      (extract_docx_content Sample.Document) (fun _ _ => written)
      (Py.lit "a.docx") {| stdout := []; files := fun _ => None |}
    = (w', Py.Val tt)
    /\ stdout w' = map Py.lit [ "Processing a.docx..."; "Successfully created a.json" ]%string
    /\ files w' (Py.lit "a.json")
       = Some {| encoding := Py.lit "utf-8";
                 data := Json.encode 4 0 (json_of_content Sample.content) |}
    /\ files w' (Py.lit "a.docx") = None
    /\ Forall (fun n => exists k, n = 4 * k)
              (indents (Json.encode 4 0 (json_of_content Sample.content))).
Proof.
  destruct (@successful_round_writes_json Console.utf8 Console.utf8_error
              (extract_docx_content Sample.Document) (fun _ _ => written)
              (Py.lit "a.docx") Sample.content {| stdout := []; files := fun _ => None |})
    as (w' & text & Hrun & Hfiles & Hout & _ & _ & _ & -> & _ & Hind & _).
  - vm_compute. reflexivity.
  - vm_compute. reflexivity.
  - vm_compute. reflexivity.
  - reflexivity.
  - exists w'. split; [exact Hrun|]. split; [rewrite Hout; vm_compute; reflexivity|].
    split; [rewrite Hfiles; vm_compute; reflexivity|].
    split; [rewrite Hfiles; vm_compute; reflexivity | exact Hind].
Defined.

(** The dump of a document without text, as it is written. *)
Example dump_of_blank_document :
  Json.dumps (json_of_content (content_of (Py.lit "a.docx") Sample.blank_doc))
  = Py.lit "{" ++ [10%N]
    ++ Py.lit "    " ++ Json.encode_str (Py.lit "paragraphs") ++ Py.lit ": []," ++ [10%N]
    ++ Py.lit "    " ++ Json.encode_str (Py.lit "tables") ++ Py.lit ": []," ++ [10%N]
    ++ Py.lit "    " ++ Json.encode_str (Py.lit "headers") ++ Py.lit ": []," ++ [10%N]
    ++ Py.lit "    " ++ Json.encode_str (Py.lit "document_name") ++ Py.lit ": "
    ++ Json.encode_str (Py.lit "a.docx") ++ Py.lit "," ++ [10%N]
    ++ Py.lit "    " ++ Json.encode_str (Py.lit "lists") ++ Py.lit ": []" ++ [10%N]
    ++ Py.lit "}".
Proof. vm_compute. reflexivity. Qed.

(** *** Failed rounds *)

Section ConsoleFrame.
Variable encodes : Py.char -> bool.
Variable encode_error : Py.str -> Py.exn.

Lemma print_args_files (args : list Py.str) (w : World) :
  files (fst (Console.print_args encodes encode_error args w)) = files w.
Proof.
  unfold Console.print_args.
  destruct (Console.write_pieces encodes encode_error (Console.pieces args) [])
    as [text [e|]]; [|reflexivity].
  destruct (Py.truthy text); reflexivity.
Qed.

(** The handler writes no file, whether its lines are printed or not. *)
Lemma report_files (docx_file : Py.str) (e : Py.exn) (w : World) :
  files (fst (Console.report encodes encode_error docx_file e w)) = files w.
Proof.
  unfold Console.report, IO.bind, Console.print.
  match goal with
  | |- context [Console.print_args encodes encode_error ?args w] =>
    pose proof (print_args_files args w) as H1;
    destruct (Console.print_args encodes encode_error args w) as [w1 [[]|e1]]
  end; simpl in H1; [|exact H1].
  rewrite print_args_files. exact H1.
Qed.

End ConsoleFrame.

(** X13: a file whose extraction raises is not written: its round leaves
    the files of the directory as they were, whatever the standard output
    does; when the standard output takes the progress line and the two
    error lines, the round prints the three of them and returns. *)
Theorem failed_extraction_leaves_files
  (encodes : Py.char -> bool) (encode_error : Py.str -> Py.exn)
  (extract : Py.str -> Py.exc DocumentContent.t)
  (write : Py.str -> Py.str -> write_outcome)
  (docx_file : Py.str) (e : Py.exn) (w : World) :
  extract docx_file = Py.Raise e ->
  files (fst (Console.process_file encodes encode_error extract write docx_file w))
  = files w
  /\ (Console.encodable encodes (Py.lit "Processing " ++ docx_file ++ Py.lit "...")
      = true ->
      forallb (Console.encodable encodes) (error_lines docx_file e) = true ->
      Console.process_file encodes encode_error extract write docx_file w
      = ({| stdout := stdout w
                      ++ [ Py.lit "Processing " ++ docx_file ++ Py.lit "...";
                           Py.lit "Error processing " ++ docx_file ++ Py.lit ": "
                           ++ Py.str_exn e;
                           Py.lit "Full error details: " ++ Py.lit " " ++ Py.str_exn e ];
            files := files w |}, Py.Val tt)).
Proof.
  intros He. split.
  - unfold Console.process_file, IO.try_except. rewrite attempt_outcome.
    assert (Hw : Console.file_written encodes extract write docx_file = None).
    { unfold Console.file_written. rewrite He.
      destruct (Console.encodable encodes (Console.processing_line docx_file));
        reflexivity. }
    rewrite Hw.
    destruct (Console.file_failure encodes encode_error extract write docx_file)
      as [e'|]; [|reflexivity].
    rewrite report_files. reflexivity.
  - intros Hp Hr.
    assert (Hf : Console.file_failure encodes encode_error extract write docx_file
                 = Some e).
    { unfold Console.file_failure, Console.processing_line. rewrite Hp, He. reflexivity. }
    rewrite process_file_reported
      by (unfold Console.reported; rewrite Hf; exact Hr).
    unfold Console.after_file, Console.file_log, Console.file_written.
    rewrite Hf. unfold Console.processing_line. rewrite Hp, He. reflexivity.
Qed.

Lemma failed_extraction_leaves_files_witness :
  Console.process_file Console.utf8 Console.utf8_error
    (extract_docx_content Sample.Document) (fun _ _ => written) (Py.lit "b.docx")
    {| stdout := []; files := fun _ => None |}
  = ({| stdout := map Py.lit [ "Processing b.docx...";
                               "Error processing b.docx: Package not found";
                               "Full error details:  Package not found" ]%string;
        files := fun _ => None |}, Py.Val tt).
Proof.
  destruct (@failed_extraction_leaves_files Console.utf8 Console.utf8_error
              (extract_docx_content Sample.Document) (fun _ _ => written)
              (Py.lit "b.docx")
              (Py.Error (Py.lit "PackageNotFoundError") (Py.lit "Package not found"))
              {| stdout := []; files := fun _ => None |}) as [_ H].
  - vm_compute. reflexivity.
  - rewrite H; [reflexivity | vm_compute; reflexivity | vm_compute; reflexivity].
Defined.

(** A standard output that lacks the letter [S] refuses the last line of a
    successful round: the file is written, and the round reports an
    error. *)
Example refused_success_line :
  exists w',
    Console.process_file (fun c => negb (c =? 83)%N)
      (fun _ => Py.Error (Py.lit "UnicodeEncodeError") (Py.lit "refused"))
      (extract_docx_content Sample.Document) (fun _ _ => written) (Py.lit "a.docx")
      {| stdout := []; files := fun _ => None |}
    = (w', Py.Val tt)
    /\ stdout w'
       = map Py.lit [ "Processing a.docx..."; "Error processing a.docx: refused";
                      "Full error details:  refused" ]%string
    /\ files w' (Py.lit "a.json")
       = Some {| encoding := Py.lit "utf-8";
                 data := Json.dumps (json_of_content Sample.content) |}.
Proof. eexists. split; [vm_compute; reflexivity|]. split; vm_compute; reflexivity. Qed.

(** *** The first driver is this one on a stream that takes every character *)

Lemma encodable_total (s : Py.str) : Console.encodable (fun _ => true) s = true.
Proof. unfold Console.encodable. induction s; simpl; auto. Qed.

Lemma process_file_total
  (encode_error : Py.str -> Py.exn) (Document : Py.str -> Py.exc Document.t)
  (write : Py.str -> Py.str -> write_outcome) (docx_file : Py.str) (w : World) :
  Console.process_file (fun _ => true) encode_error (extract_docx_content Document)
    write docx_file w
  = process_file Document write docx_file w.
Proof.
  assert (Hf : Console.file_failure (fun _ => true) encode_error
                 (extract_docx_content Document) write docx_file
               = file_failure Document write docx_file).
  { unfold Console.file_failure, file_failure. rewrite !encodable_total.
    destruct (extract_docx_content Document docx_file) as [c|e]; [|reflexivity].
    destruct (write _ _); reflexivity. }
  rewrite process_file_returns.
  rewrite process_file_reported.
  - unfold Console.after_file, after_file, Console.file_log, file_log,
      Console.file_written, file_written.
    rewrite Hf, !encodable_total. reflexivity.
  - unfold Console.reported.
    destruct (Console.file_failure _ _ _ _ _); [|reflexivity].
    unfold error_lines. simpl. rewrite !encodable_total. reflexivity.
Qed.

Lemma process_docx_files_total
  (encode_error : Py.str -> Py.exn) (lower : Py.str -> Py.str)
  (listdir : Py.exc (list Py.str)) (Document : Py.str -> Py.exc Document.t)
  (write : Py.str -> Py.str -> write_outcome) (w : World) :
  Console.process_docx_files (fun _ => true) encode_error lower listdir
    (extract_docx_content Document) write w
  = process_docx_files lower listdir Document write w.
Proof.
  unfold Console.process_docx_files, process_docx_files, IO.bind, IO.lift.
  destruct listdir as [listing|e]; [|reflexivity].
  destruct (filter (is_docx lower) listing) as [|f fs].
  - rewrite print_accepted by apply encodable_total. reflexivity.
  - generalize (f :: fs). intros l. revert w.
    induction l as [|x l IH]; intros w; simpl; [reflexivity|].
    unfold IO.bind. rewrite process_file_total.
    destruct (process_file Document write x w) as [w1 [[]|e]]; [apply IH | reflexivity].
Qed.
